(** * mcp-server-db-insert: the JSON-RPC to database pipeline

    A shallow embedding of [jsonrpc_parser.py], [data_transformer.py],
    [database_manager.py] (the factory) and [server.py] (the orchestrator),
    with the properties of the design document stated over it.

    Modelling conventions.
    - A Python [str] is a [string]; its characters are 8-bit.  Every
      character above 127 is outside [[A-Za-z0-9_]], as any non-ASCII code
      point is.
    - A Python [dict] is an association list in insertion order (Python
      dicts iterate in insertion order, and [dict(items)] keeps the first
      position of a key and its last value).
    - An exception is a value of [exn]; a function that can raise returns
      [res].
    - Library functions the package calls but does not define
      ([json.loads], [json.dumps], [str], [urlparse], ...) are the fields
      of the class [PyLib].  Those that can raise return the exception;
      exception classes are told apart by name. *)

From Stdlib Require Import ZArith List String Ascii Bool Lia SpecFloat.
From Stdlib Require Import DecimalString.
Import ListNotations.
Open Scope string_scope.
Open Scope list_scope.

(** String concatenation, Python's [+] on [str]. *)
Infix "+++" := String.append (right associativity, at level 60).

(* ================================================================== *)
(** * Strings *)

Module Str.

Definition code (c : ascii) : nat := nat_of_ascii c.

Definition between (lo hi : nat) (c : ascii) : bool :=
  (lo <=? code c)%nat && (code c <=? hi)%nat.

Definition is_lower (c : ascii) : bool := between 97 122 c.
Definition is_upper (c : ascii) : bool := between 65 90 c.
Definition is_digit (c : ascii) : bool := between 48 57 c.
Definition is_underscore (c : ascii) : bool := Ascii.eqb c "_".

(** [str.lower()] on one ASCII character. *)
Definition lower_char (c : ascii) : ascii :=
  if is_upper c then ascii_of_nat (code c + 32) else c.

Fixpoint map (f : ascii -> ascii) (s : string) : string :=
  match s with
  | EmptyString => EmptyString
  | String c s' => String (f c) (map f s')
  end.

Fixpoint forallb (p : ascii -> bool) (s : string) : bool :=
  match s with
  | EmptyString => true
  | String c s' => p c && forallb p s'
  end.

(** [s.lower()], for the ASCII text both call sites pass. *)
Definition lower (s : string) : string := map lower_char s.

(** [s[:n]] *)
Definition take (n : nat) (s : string) : string := substring 0 n s.

(** [s.startswith(p)] *)
Definition startswith (s p : string) : bool := prefix p s.

(** Characters [str.isspace()] accepts, among the first 256 code points. *)
Definition is_space (c : ascii) : bool :=
  between 9 13 c || between 28 32 c
  || (code c =? 133)%nat || (code c =? 160)%nat.

Fixpoint lstrip (s : string) : string :=
  match s with
  | String c s' => if is_space c then lstrip s' else s
  | EmptyString => EmptyString
  end.

Fixpoint rstrip (s : string) : string :=
  match s with
  | String c s' =>
      match rstrip s' with
      | EmptyString => if is_space c then EmptyString else String c EmptyString
      | r => String c r
      end
  | EmptyString => EmptyString
  end.

(** [s.strip()] *)
Definition strip (s : string) : string := rstrip (lstrip s).

(** [s.replace(c, r)] for a one-character pattern. *)
Fixpoint replace_char (c : ascii) (r : string) (s : string) : string :=
  match s with
  | EmptyString => EmptyString
  | String a s' =>
      if Ascii.eqb a c then r +++ replace_char c r s'
      else String a (replace_char c r s')
  end.

End Str.

(* ================================================================== *)
(** * jsonrpc_parser.py: field names *)

(** The class [[a-zA-Z0-9_]]. *)
Definition is_word_char (c : ascii) : bool :=
  Str.is_lower c || Str.is_upper c || Str.is_digit c || Str.is_underscore c.

(** [re.sub(r'[^a-zA-Z0-9_]', '_', s)] *)
Definition sub_non_word (s : string) : string :=
  Str.map (fun c => if is_word_char c then c else "_"%char) s.

(** [re.match(r'^[a-zA-Z_]', s)] as a truth value. *)
Definition match_letter_or_underscore (s : string) : bool :=
  match s with
  | String c _ => Str.is_lower c || Str.is_upper c || Str.is_underscore c
  | EmptyString => false
  end.

Definition sanitize_field_name (name : string) : string :=
  let sanitized := sub_non_word name in
  let sanitized :=
    if negb (match_letter_or_underscore sanitized)
    then "field_" +++ sanitized else sanitized in
  let sanitized :=
    if (63 <? String.length sanitized)%nat
    then Str.take 63 sanitized else sanitized in
  Str.lower sanitized.

(** The class [[a-z0-9_]] and the pattern [^[a-z_][a-z0-9_]*$]. *)
Definition is_ident_char (c : ascii) : bool :=
  Str.is_lower c || Str.is_digit c || Str.is_underscore c.

Definition matches_identifier (s : string) : bool :=
  match s with
  | String c s' =>
      (Str.is_lower c || Str.is_underscore c) && Str.forallb is_ident_char s'
  | EmptyString => false
  end.

(* ================================================================== *)
(** * Python values, exceptions and library functions *)

(** The values the pipeline handles: what [json.loads] returns, and the
    objects [datetime], [date], [time], [Decimal], [UUID], [bytes] and
    [tuple] that [data_transformer.py] tests for.  Instants, dates and
    times are opaque numbers here; the code never computes with them. *)
#[warnings="-register-all"]
Inductive value : Type :=
| VNone
| VBool (b : bool)
| VInt (n : Z)
| VFloat (x : spec_float)
| VStr (s : string)
| VList (l : list value)
| VDict (d : list (string * value))
| VTuple (l : list value)
| VDatetime (t : Z)
| VDate (d : Z)
| VTime (t : Z)
| VDecimal (coefficient exponent : Z)
| VUuid (u : N)
| VBytes (b : list Byte.byte).

(** [type(v).__name__] *)
Definition type_name (v : value) : string :=
  match v with
  | VNone => "NoneType"
  | VBool _ => "bool"
  | VInt _ => "int"
  | VFloat _ => "float"
  | VStr _ => "str"
  | VList _ => "list"
  | VDict _ => "dict"
  | VTuple _ => "tuple"
  | VDatetime _ => "datetime"
  | VDate _ => "date"
  | VTime _ => "time"
  | VDecimal _ _ => "Decimal"
  | VUuid _ => "UUID"
  | VBytes _ => "bytes"
  end.

Definition is_none (v : value) : bool :=
  match v with VNone => true | _ => false end.

Definition is_dict (v : value) : bool :=
  match v with VDict _ => true | _ => false end.

Definition is_list (v : value) : bool :=
  match v with VList _ => true | _ => false end.

(** [v != s] for a string literal [s]. *)
Definition differs_from_str (v : value) (s : string) : bool :=
  match v with VStr s' => negb (s' =? s) | _ => true end.

(** Truth value of an object in a condition. *)
Definition truthy (v : value) : bool :=
  match v with
  | VNone => false
  | VBool b => b
  | VInt n => negb (n =? 0)%Z
  | VFloat x => match x with S754_zero _ => false | _ => true end
  | VStr s => negb (s =? "")
  | VList l | VTuple l => match l with [] => false | _ => true end
  | VDict d => match d with [] => false | _ => true end
  | VDecimal c _ => negb (c =? 0)%Z
  | VBytes b => match b with [] => false | _ => true end
  | VDatetime _ | VDate _ | VTime _ | VUuid _ => true
  end.

(** Exceptions: [McpError(ErrorData(code, message))], and the built-in
    ones by class name, with [str(e)] as message. *)
Inductive exn : Type :=
| McpError (code : Z) (message : string)
| PyError (class message : string).

Definition exn_str (e : exn) : string :=
  match e with McpError _ m => m | PyError _ m => m end.

(** [e] is caught by [except class]: an exception of that class.  Of
    the classes the library functions here raise, none is a subclass of
    [JSONDecodeError]. *)
Definition is_instance (e : exn) (class : string) : bool :=
  match e with
  | PyError c _ => c =? class
  | McpError _ _ => false
  end.

Inductive res (A : Type) : Type :=
| Ok (a : A)
| Raise (e : exn).
Arguments Ok {A} a.
Arguments Raise {A} e.

Definition bind {A B : Type} (m : res A) (k : A -> res B) : res B :=
  match m with Ok a => k a | Raise e => Raise e end.

Notation "x <- m ;; k" := (bind m (fun x => k))
  (at level 61, m at next level, right associativity).

(** Error codes of [mcp.types]. *)
Definition INVALID_PARAMS : Z := (-32602)%Z.
Definition INTERNAL_ERROR : Z := (-32603)%Z.

(** Library functions that the package calls and does not define. *)
Class PyLib : Type := {
  (** [json.loads(s)]: the decoded value, or the exception it raises: a
      [JSONDecodeError] on a text that is not JSON, and on some texts
      another one (a [ValueError] on an integer of too many digits, a
      [RecursionError] on deep nesting). *)
  json_loads : string -> exn + value;
  (** [json.dumps(v)] *)
  json_dumps : value -> string;
  (** [str(v)], also what an f-string inserts. *)
  py_str : value -> string;
  (** [v.isoformat()] of a datetime, date or time. *)
  isoformat : value -> string;
  (** [float(d)] of a [Decimal]. *)
  decimal_float : Z -> Z -> spec_float;
  (** [b.hex()] *)
  bytes_hex : list Byte.byte -> string;
  (** [uuid.UUID(s)] does not raise. *)
  uuid_parses : string -> bool;
  (** [datetime.fromisoformat(s)] does not raise. *)
  fromisoformat_parses : string -> bool;
  (** [urlparse(s).scheme], or the [ValueError] that [urlparse(s)]
      raises (on an invalid IPv6 host, for one). *)
  urlparse_scheme : string -> res string
}.

(* ================================================================== *)
(** * Dictionaries *)

Module Dict.

Definition t (V : Type) : Type := list (string * V).

(** [d.get(k)], [None] being the absent case. *)
Fixpoint get {V} (d : t V) (k : string) : option V :=
  match d with
  | [] => None
  | (k', v) :: d' => if k' =? k then Some v else get d' k
  end.

(** [k in d] *)
Definition mem {V} (d : t V) (k : string) : bool :=
  match get d k with Some _ => true | None => false end.

(** [d[k] = v]: a known key keeps its place, a new one goes last. *)
Fixpoint set {V} (d : t V) (k : string) (v : V) : t V :=
  match d with
  | [] => [(k, v)]
  | (k', v') :: d' =>
      if k' =? k then (k', v) :: d' else (k', v') :: set d' k v
  end.

(** [d.update(items)] *)
Definition update {V} (d : t V) (items : list (string * V)) : t V :=
  fold_left (fun acc kv => set acc (fst kv) (snd kv)) items d.

(** [dict(items)] *)
Definition of_items {V} (items : list (string * V)) : t V := update [] items.

Definition keys {V} (d : t V) : list string := map fst d.

End Dict.

Definition dict : Type := Dict.t value.

(** [d.get(k)] with Python's default [None]. *)
Definition get_or_none (d : dict) (k : string) : value :=
  match Dict.get d k with Some v => v | None => VNone end.

(* ================================================================== *)
(** * jsonrpc_parser.py: envelopes *)

Record JsonRpcResponse : Type := {
  jsonrpc : value;
  id : value;
  result : value;
  error : value;
  method : value;
  params : value
}.

Definition is_error (r : JsonRpcResponse) : bool := negb (is_none (error r)).
Definition is_notification (r : JsonRpcResponse) : bool :=
  negb (is_none (method r)) && is_none (id r).

Definition invalid_params {A} (message : string) : res A :=
  Raise (McpError INVALID_PARAMS message).

Section Parser.
Context {L : PyLib}.

(** [parse_jsonrpc_response] from the decoded value on. *)
Definition parse_decoded (data : value) : res JsonRpcResponse :=
  match data with
  | VDict data =>
      let jsonrpc_version := get_or_none data "jsonrpc" in
      if differs_from_str jsonrpc_version "2.0" then
        invalid_params
          ("Unsupported JSON-RPC version: " +++ py_str jsonrpc_version
           +++ ". Only 2.0 is supported.")
      else
        let rpc_id := get_or_none data "id" in
        let result := get_or_none data "result" in
        let error := get_or_none data "error" in
        let method := get_or_none data "method" in
        let params := get_or_none data "params" in
        let response :=
          {| jsonrpc := jsonrpc_version; id := rpc_id; result := result;
             error := error; method := method; params := params |} in
        if Dict.mem data "id" then
          if negb (is_none result) && negb (is_none error) then
            invalid_params
              "JSON-RPC response cannot have both 'result' and 'error' fields"
          else if is_none result && is_none error then
            invalid_params
              "JSON-RPC response must have either 'result' or 'error' field"
          else Ok response
        else if Dict.mem data "method" then
          if Dict.mem data "result" || Dict.mem data "error" then
            invalid_params
              "JSON-RPC notification cannot have 'result' or 'error' fields"
          else Ok response
        else
          invalid_params
            "JSON-RPC response must have either 'id' or 'method' field"
  | _ => invalid_params "JSON-RPC response must be an object"
  end.

Definition parse_jsonrpc_response (jsonrpc_string : string)
  : res JsonRpcResponse :=
  match json_loads (Str.strip jsonrpc_string) with
  | inl e =>
      if is_instance e "JSONDecodeError"
      then invalid_params ("Invalid JSON format: " +++ exn_str e)
      else Raise e
  | inr data => parse_decoded data
  end.

(** [error.get(k) if error else None]; [.get] exists on mappings only. *)
Definition error_member (error : value) (k : string) : res value :=
  if truthy error then
    match error with
    | VDict d => Ok (get_or_none d k)
    | _ =>
        Raise (PyError "AttributeError"
                 ("'" +++ type_name error
                  +++ "' object has no attribute 'get'"))
    end
  else Ok VNone.

(** The body of the loop over [enumerate(response.result)]. *)
Definition extract_item (response : JsonRpcResponse) (i : Z) (item : value)
  : dict :=
  match item with
  | VDict d =>
      Dict.update d
        [("jsonrpc_id", id response);
         ("jsonrpc_version", jsonrpc response);
         ("result_index", VInt i);
         ("is_success", VBool true)]
  | _ =>
      Dict.of_items
        [("jsonrpc_id", id response);
         ("jsonrpc_version", jsonrpc response);
         ("result_value", item);
         ("result_index", VInt i);
         ("result_type", VStr (type_name item));
         ("is_success", VBool true)]
  end.

Fixpoint extract_items (response : JsonRpcResponse) (i : Z)
  (items : list value) (records : list dict) : list dict :=
  match items with
  | [] => records
  | item :: rest =>
      extract_items response (i + 1) rest
        (records ++ [extract_item response i item])
  end.

Definition extract_data_from_jsonrpc (response : JsonRpcResponse)
  : res (list dict) :=
  let records : list dict := [] in
  if is_error response then
    code <- error_member (error response) "code" ;;
    message <- error_member (error response) "message" ;;
    data <- error_member (error response) "data" ;;
    Ok (records ++
        [Dict.of_items
           [("jsonrpc_id", id response);
            ("jsonrpc_version", jsonrpc response);
            ("error_code", code);
            ("error_message", message);
            ("error_data", data);
            ("is_error", VBool true)]])
  else if is_notification response then
    Ok (records ++
        [Dict.of_items
           [("jsonrpc_version", jsonrpc response);
            ("method", method response);
            ("params", params response);
            ("is_notification", VBool true)]])
  else
    match result response with
    | VNone =>
        Ok (records ++
            [Dict.of_items
               [("jsonrpc_id", id response);
                ("jsonrpc_version", jsonrpc response);
                ("result", VNone);
                ("is_success", VBool true)]])
    | VDict d =>
        Ok (records ++
            [Dict.update d
               [("jsonrpc_id", id response);
                ("jsonrpc_version", jsonrpc response);
                ("is_success", VBool true)]])
    | VList items => Ok (extract_items response 0 items records)
    | other =>
        Ok (records ++
            [Dict.of_items
               [("jsonrpc_id", id response);
                ("jsonrpc_version", jsonrpc response);
                ("result_value", other);
                ("result_type", VStr (type_name other));
                ("is_success", VBool true)]])
    end.

(** The loop over [enumerate(data)] of [validate_jsonrpc_batch]: only
    [McpError] is caught and reported with the item's index; any other
    exception of [parse_jsonrpc_response] passes. *)
Fixpoint validate_items (i : Z) (items : list value)
  (responses : list JsonRpcResponse) : res (list JsonRpcResponse) :=
  match items with
  | [] => Ok responses
  | item :: rest =>
      match parse_jsonrpc_response (json_dumps item) with
      | Ok response => validate_items (i + 1) rest (responses ++ [response])
      | Raise (McpError _ message) =>
          invalid_params
            ("Invalid item at index " +++ py_str (VInt i)
             +++ " in batch: " +++ message)
      | Raise e => Raise e
      end
  end.

Definition validate_jsonrpc_batch (jsonrpc_string : string)
  : res (list JsonRpcResponse) :=
  match json_loads (Str.strip jsonrpc_string) with
  | inl e =>
      if is_instance e "JSONDecodeError"
      then invalid_params ("Invalid JSON format: " +++ exn_str e)
      else Raise e
  | inr (VList data) =>
      match data with
      | [] => invalid_params "JSON-RPC batch cannot be empty"
      | _ => validate_items 0 data []
      end
  | inr _ =>
      response <- parse_jsonrpc_response jsonrpc_string ;;
      Ok [response]
  end.

(** [f"{parent_key}{sep}{k}" if parent_key else k], sanitized. *)
Definition new_key_of (parent_key sep k : string) : string :=
  sanitize_field_name
    (if negb (parent_key =? "") then parent_key +++ sep +++ k else k).

(** What one turn of the loop of [flatten_nested_dict] adds to [items]
    for the value [v] under [new_key]; the mapping case is the
    recursive call, whose result is a dictionary. *)
Fixpoint flatten_entry (v : value) (new_key sep : string)
  : list (string * value) :=
  match v with
  | VDict d =>
      Dict.of_items
        ((fix loop (its : list (string * value)) : list (string * value) :=
            match its with
            | [] => []
            | (k, v') :: rest =>
                flatten_entry v' (new_key_of new_key sep k) sep ++ loop rest
            end) d)
  | VList _ => [(new_key, VStr (json_dumps v))]
  | _ => [(new_key, v)]
  end.

Definition flatten_nested_dict (data : dict) (parent_key sep : string)
  : dict :=
  Dict.of_items
    (flat_map
       (fun kv => flatten_entry (snd kv) (new_key_of parent_key sep (fst kv)) sep)
       data).

(** [flatten_nested_dict(record)] with the default arguments. *)
Definition flatten (record : dict) : dict := flatten_nested_dict record "" "_".

Definition prepare_record (flatten_flag : bool) (record : dict) : dict :=
  if flatten_flag then flatten record
  else
    fold_left
      (fun sanitized kv =>
         let clean_key := sanitize_field_name (fst kv) in
         if is_dict (snd kv) || is_list (snd kv)
         then Dict.set sanitized clean_key (VStr (json_dumps (snd kv)))
         else Dict.set sanitized clean_key (snd kv))
      record [].

Definition prepare_records_for_db (records : list dict) (flatten_flag : bool)
  : list dict :=
  map (prepare_record flatten_flag) records.

End Parser.

(* ================================================================== *)
(** * data_transformer.py *)

Inductive DatabaseType : Type :=
| POSTGRESQL | MONGODB | SQLITE | REDIS | MYSQL.

(** [DatabaseType.value] *)
Definition database_type_value (db : DatabaseType) : string :=
  match db with
  | POSTGRESQL => "postgresql"
  | MONGODB => "mongodb"
  | SQLITE => "sqlite"
  | REDIS => "redis"
  | MYSQL => "mysql"
  end.

(** [DataTransformer._get_type_mappings]: the table of the backend. *)
Definition type_mappings (db : DatabaseType) : Dict.t string :=
  match db with
  | POSTGRESQL =>
      [("str", "TEXT"); ("int", "INTEGER"); ("float", "REAL");
       ("bool", "BOOLEAN"); ("datetime", "TIMESTAMP"); ("date", "DATE");
       ("time", "TIME"); ("uuid", "UUID"); ("json", "JSONB");
       ("list", "JSONB"); ("dict", "JSONB"); ("decimal", "NUMERIC");
       ("bytes", "BYTEA")]
  | MYSQL =>
      [("str", "TEXT"); ("int", "INT"); ("float", "DOUBLE");
       ("bool", "BOOLEAN"); ("datetime", "DATETIME"); ("date", "DATE");
       ("time", "TIME"); ("uuid", "CHAR(36)"); ("json", "JSON");
       ("list", "JSON"); ("dict", "JSON"); ("decimal", "DECIMAL(10,2)");
       ("bytes", "BLOB")]
  | SQLITE =>
      [("str", "TEXT"); ("int", "INTEGER"); ("float", "REAL");
       ("bool", "INTEGER"); ("datetime", "TEXT"); ("date", "TEXT");
       ("time", "TEXT"); ("uuid", "TEXT"); ("json", "TEXT");
       ("list", "TEXT"); ("dict", "TEXT"); ("decimal", "REAL");
       ("bytes", "BLOB")]
  | MONGODB =>
      [("str", "string"); ("int", "int"); ("float", "double");
       ("bool", "bool"); ("datetime", "date"); ("date", "date");
       ("time", "string"); ("uuid", "string"); ("json", "object");
       ("list", "array"); ("dict", "object"); ("decimal", "decimal");
       ("bytes", "binData")]
  | REDIS =>
      [("str", "string"); ("int", "string"); ("float", "string");
       ("bool", "string"); ("datetime", "string"); ("date", "string");
       ("time", "string"); ("uuid", "string"); ("json", "string");
       ("list", "string"); ("dict", "hash"); ("decimal", "string");
       ("bytes", "string")]
  end.

(** [self.type_mappings.get(key, default)] *)
Definition mapping_get (db : DatabaseType) (key default : string) : string :=
  match Dict.get (type_mappings db) key with Some t => t | None => default end.

(** Sources of the values that differ from call to call: the [n]-th UUID
    that [uuid.uuid4()] makes and the [n]-th reading of
    [datetime.utcnow()]. *)
Record Clock : Type := {
  uuid4_str : nat -> string;
  utcnow : nat -> Z
}.

Section Transformer.
Context {L : PyLib}.
Variable database_type : DatabaseType.

Definition _is_uuid_string (value : string) : bool := uuid_parses value.

Definition _is_datetime_string (value : string) : bool :=
  fromisoformat_parses (Str.replace_char "Z" "+00:00" value).

Definition infer_field_type (value : value) : string :=
  match value with
  | VNone => mapping_get database_type "str" "TEXT"
  | VStr s =>
      if _is_uuid_string s then mapping_get database_type "uuid" "TEXT"
      else if _is_datetime_string s
           then mapping_get database_type "datetime" "TEXT"
           else mapping_get database_type "str" "TEXT"
  | VDict _ | VList _ => mapping_get database_type "json" "TEXT"
  | VDatetime _ => mapping_get database_type "datetime" "TEXT"
  | VDate _ => mapping_get database_type "date" "TEXT"
  | VTime _ => mapping_get database_type "time" "TEXT"
  | VDecimal _ _ => mapping_get database_type "decimal" "REAL"
  | VBytes _ => mapping_get database_type "bytes" "TEXT"
  | _ => mapping_get database_type (type_name value) "TEXT"
  end.

Definition _transform_for_sqlite (v : value) (target_type : string)
  : value :=
  match v with
  | VBool b => if b then VInt 1 else VInt 0
  | VDatetime _ | VDate _ | VTime _ => VStr (isoformat v)
  | VDict _ | VList _ => VStr (json_dumps v)
  | VUuid _ => VStr (py_str v)
  | VDecimal c e => VFloat (decimal_float c e)
  | VBytes _ => v
  | _ => v
  end.

Definition _transform_for_redis (v : value) (target_type : string)
  : value :=
  match v with
  | VDict d =>
      if target_type =? "hash"
      then VDict (Dict.of_items
                    (map (fun kv => (fst kv, VStr (py_str (snd kv)))) d))
      else VStr (json_dumps v)
  | VList _ | VTuple _ => VStr (json_dumps v)
  | VDatetime _ | VDate _ | VTime _ => VStr (isoformat v)
  | VUuid _ => VStr (py_str v)
  | VBool b => if b then VStr "true" else VStr "false"
  | VBytes b => VStr (bytes_hex b)
  | _ => VStr (py_str v)
  end.

Definition _transform_for_mongodb (v : value) (target_type : string)
  : value :=
  match v with
  | VDict _ | VList _ => v
  | VUuid _ => VStr (py_str v)
  | VDatetime _ | VDate _ => v
  | VTime _ => VStr (isoformat v)
  | VDecimal c e => VFloat (decimal_float c e)
  | VBytes _ => v
  | _ => v
  end.

Definition _transform_for_sql (v : value) (target_type : string)
  : value :=
  match v with
  | VDict _ | VList _ =>
      match database_type with
      | POSTGRESQL => VStr (json_dumps v)
      | _ => VStr (json_dumps v)
      end
  | VUuid _ => VStr (py_str v)
  | VDecimal _ _ => v
  | VDatetime _ | VDate _ | VTime _ => v
  | _ => v
  end.

Definition transform_value (v : value) (target_type : option string)
  : value :=
  match v with
  | VNone => VNone
  | _ =>
      let target_type :=
        match target_type with
        | None => infer_field_type v
        | Some t => t
        end in
      match database_type with
      | SQLITE => _transform_for_sqlite v target_type
      | REDIS => _transform_for_redis v target_type
      | MONGODB => _transform_for_mongodb v target_type
      | _ => _transform_for_sql v target_type
      end
  end.

(** State of the clock: how many UUIDs and instants were drawn. *)
Definition ticks : Type := (nat * nat)%type.

Variable clock : Clock.

(** [add_uuid_fields]; [generate_uuid()] draws the next UUID. *)
Definition add_uuid_fields (record : dict) (uuid_fields : list string)
  (s : ticks) : dict * ticks :=
  fold_left
    (fun st field_name =>
       let '(updated_record, (u, c)) := st in
       if negb (Dict.mem updated_record field_name)
          || is_none (get_or_none updated_record field_name)
       then (Dict.set updated_record field_name (VStr (uuid4_str clock u)),
             (S u, c))
       else st)
    uuid_fields (record, s).

(** [add_timestamps] with its default field names. *)
Definition add_timestamps (record : dict) (s : ticks) : dict * ticks :=
  let '(u, c) := s in
  let current_time := VDatetime (utcnow clock c) in
  let updated_record :=
    if negb (Dict.mem record "created_at")
    then Dict.set record "created_at" current_time else record in
  (Dict.set updated_record "updated_at" current_time, (u, S c)).

(** One turn of the loop of [transform_records] in a call that gives no
    field mappings: [field_mappings] is left at its default [None], as in
    the orchestrator's call, so that the test [if field_mappings] fails
    and [_apply_field_mappings] is not entered. *)
Definition transform_record (uuid_fields : option (list string))
  (add_timestamps_flag : bool) (record : dict) (s : ticks) : dict * ticks :=
  let '(r1, s1) :=
    match uuid_fields with
    | Some (f :: fs) => add_uuid_fields record (f :: fs) s
    | _ => (record, s)
    end in
  let '(r2, s2) :=
    if add_timestamps_flag then add_timestamps r1 s1 else (r1, s1) in
  (fold_left
     (fun final_record kv =>
        Dict.set final_record (fst kv) (transform_value (snd kv) None))
     r2 [],
   s2).

(** [transform_records(records, uuid_fields, add_timestamps)], with no
    field mappings. *)
Definition transform_records (records : list dict)
  (uuid_fields : option (list string)) (add_timestamps_flag : bool)
  (s : ticks) : list dict * ticks :=
  fold_left
    (fun st record =>
       let '(transformed_records, s) := st in
       let '(final_record, s') :=
         transform_record uuid_fields add_timestamps_flag record s in
       (transformed_records ++ [final_record], s'))
    records ([], s).

(** The body of the inner loop of [infer_schema]. *)
Definition schema_step (schema : Dict.t string)
  (field_name : string) (value : value) : Dict.t string :=
  let field_type := infer_field_type value in
  match Dict.get schema field_name with
  | Some existing_type =>
      if negb (existing_type =? field_type) then
        if (existing_type =? "INTEGER") && (field_type =? "REAL")
        then Dict.set schema field_name field_type
        else if (existing_type =? "REAL") && (field_type =? "INTEGER")
             then schema
             else Dict.set schema field_name
                    (mapping_get database_type "str" "TEXT")
      else schema
  | None => Dict.set schema field_name field_type
  end.

(** The two loops of [infer_schema], from the schema built so far. *)
Definition schema_from (schema : Dict.t string) (records : list dict)
  : Dict.t string :=
  fold_left
    (fun schema record =>
       fold_left
         (fun schema kv => schema_step schema (fst kv) (snd kv))
         record schema)
    records schema.

Definition infer_schema (records : list dict) : Dict.t string :=
  match records with
  | [] => []
  | _ => schema_from [] records
  end.

End Transformer.

(* ================================================================== *)
(** * database_manager.py: the connection factory *)

Inductive ConnectionClass : Type :=
| PostgreSQLConnection
| SQLiteConnection
| MongoDBConnection
| RedisConnection
| MySQLConnection.

(** [DatabaseManager.CONNECTION_CLASSES.get(db_type)] *)
Definition CONNECTION_CLASSES (db_type : DatabaseType) : option ConnectionClass :=
  match db_type with
  | POSTGRESQL => Some PostgreSQLConnection
  | SQLITE => Some SQLiteConnection
  | MONGODB => Some MongoDBConnection
  | REDIS => Some RedisConnection
  | MYSQL => Some MySQLConnection
  end.

(** A connection object as [DatabaseConnection.__init__] leaves it:
    [self.transformer] is [DataTransformer(self.database_type)] and
    [self._connection] is [None]. *)
Record DatabaseConnection : Type := {
  connection_class : ConnectionClass;
  connection_string : string;
  connection_timeout : Z;
  database_type : DatabaseType
}.

(** What the pipeline does to the world outside: constructing a
    connection object, and each call that reaches the engine. *)
Inductive event : Type :=
| Construct (c : ConnectionClass)
| Connect
| TableExists (name : string)
| CreateTable (name : string) (schema : Dict.t string)
| InsertRecords (name : string) (records : list dict) (batch_size : Z)
| Disconnect.

Section Manager.
Context {L : PyLib}.

(** The chain of prefix tests, shared by [create_connection] and
    [_determine_database_type]. *)
Definition scheme_database_type (scheme : string) : option DatabaseType :=
  if Str.startswith scheme "postgresql" || Str.startswith scheme "postgres"
  then Some POSTGRESQL
  else if Str.startswith scheme "mysql" then Some MYSQL
  else if Str.startswith scheme "sqlite" then Some SQLITE
  else if Str.startswith scheme "mongodb" then Some MONGODB
  else if Str.startswith scheme "redis" then Some REDIS
  else None.

Definition _determine_database_type (connection_string : string)
  : res DatabaseType :=
  parsed_scheme <- urlparse_scheme connection_string ;;
  let scheme := Str.lower parsed_scheme in
  match scheme_database_type scheme with
  | Some db_type => Ok db_type
  | None =>
      Raise (PyError "ValueError" ("Unsupported database scheme: " +++ scheme))
  end.

(** [connection_class(connection_string, connection_timeout)] *)
Definition new_connection (c : ConnectionClass)
  (connection_string : string) (connection_timeout : Z)
  : res DatabaseConnection :=
  db_type <- _determine_database_type connection_string ;;
  Ok {| connection_class := c;
        connection_string := connection_string;
        connection_timeout := connection_timeout;
        database_type := db_type |}.

(** [DatabaseManager.create_connection]; the trace tells whether a
    constructor was called.  An exception of [urlparse] is not caught. *)
Definition create_connection (connection_string : string)
  (connection_timeout : Z) : list event * res DatabaseConnection :=
  match urlparse_scheme connection_string with
  | Raise e => ([], Raise e)
  | Ok parsed_scheme =>
      let scheme := Str.lower parsed_scheme in
      match scheme_database_type scheme with
      | None =>
          ([], Raise (McpError INTERNAL_ERROR
                        ("Unsupported database scheme: " +++ scheme)))
      | Some db_type =>
          match CONNECTION_CLASSES db_type with
          | None =>
              ([], Raise (McpError INTERNAL_ERROR
                            ("No connection handler for database type: "
                             +++ database_type_value db_type)))
          | Some connection_class =>
              ([Construct connection_class],
               new_connection connection_class connection_string
                 connection_timeout)
          end
      end
  end.

End Manager.

(* ================================================================== *)
(** * server.py: the orchestrator *)

Record InsertJsonRpcToDb : Type := {
  arg_jsonrpc_response : string;
  arg_database_type : string;
  arg_connection_string : string;
  arg_schema_name : option string;
  arg_table_name : option string;
  arg_uuid_fields : option (list string);
  arg_create_if_missing : bool;
  arg_batch_size : Z;
  arg_flatten_nested : bool;
  arg_add_timestamps : bool
}.

(** The dictionary [process_jsonrpc_to_db] returns. *)
Record Report : Type := {
  processed_responses : Z;
  inserted_records : Z;
  report_table_name : string;
  report_database_type : string;
  errors : list string;
  processing_time_ms : spec_float
}.

(** The engine behind a connection and the clock: what each awaited call
    answers.  [None] from [engine_connect] or [engine_create] is a call
    that returns normally.  What [disconnect()] answers plays no part: an
    exception from it is logged and dropped. *)
Record Engine : Type := {
  engine_connect : DatabaseConnection -> option exn;
  engine_table_exists : DatabaseConnection -> string -> res bool;
  engine_create : DatabaseConnection -> string -> Dict.t string -> option exn;
  engine_insert : DatabaseConnection -> string -> list dict -> Z -> res Z;
  engine_clock : Clock;
  engine_elapsed_ms : spec_float
}.

Section Server.
Context {L : PyLib}.
Variable engine : Engine.

(** [args.table_name or "jsonrpc_data"] *)
Definition table_name_of (args : InsertJsonRpcToDb) : string :=
  match arg_table_name args with
  | Some name => if name =? "" then "jsonrpc_data" else name
  | None => "jsonrpc_data"
  end.

(** The loop that extends [all_records]. *)
Fixpoint extract_all (responses : list JsonRpcResponse)
  (all_records : list dict) : res (list dict) :=
  match responses with
  | [] => Ok all_records
  | response :: rest =>
      records <- extract_data_from_jsonrpc response ;;
      extract_all rest (all_records ++ records)
  end.

Definition make_report (args : InsertJsonRpcToDb) (processed inserted : Z)
  (errs : list string) : Report :=
  {| processed_responses := processed;
     inserted_records := inserted;
     report_table_name := table_name_of args;
     report_database_type := arg_database_type args;
     errors := errs;
     processing_time_ms := S754_zero false |}.

(** Steps 4 and 5, with the connection open. *)
Definition store (args : InsertJsonRpcToDb) (processed : Z)
  (db_connection : DatabaseConnection) (transformed_records : list dict)
  : list event * res Report :=
  let table_name := table_name_of args in
  match engine_table_exists engine db_connection table_name with
  | Raise e => ([TableExists table_name], Raise e)
  | Ok table_exists =>
      let insert (trace : list event) : list event * res Report :=
        let trace :=
          trace ++ [InsertRecords table_name transformed_records
                      (arg_batch_size args)] in
        match engine_insert engine db_connection table_name
                transformed_records (arg_batch_size args) with
        | Raise e => (trace, Raise e)
        | Ok inserted_count =>
            (trace, Ok (make_report args processed inserted_count []))
        end in
      if negb table_exists && arg_create_if_missing args then
        let schema :=
          infer_schema (database_type db_connection) transformed_records in
        match engine_create engine db_connection table_name schema with
        | Some e =>
            ([TableExists table_name; CreateTable table_name schema], Raise e)
        | None =>
            insert [TableExists table_name; CreateTable table_name schema]
        end
      else if negb table_exists then
        ([TableExists table_name],
         invalid_params
           ("Table/collection '" +++ table_name
            +++ "' does not exist and create_if_missing is False"))
      else insert [TableExists table_name]
  end.

(** The [try] block: the trace, the value of [db_connection] when the
    block is left, and how it is left. *)
Definition try_block (args : InsertJsonRpcToDb) (connection_timeout : Z)
  : list event * option DatabaseConnection * res Report :=
  match validate_jsonrpc_batch (arg_jsonrpc_response args) with
  | Raise e => ([], None, Raise e)
  | Ok responses =>
      let processed := Z.of_nat (List.length responses) in
      match extract_all responses [] with
      | Raise e => ([], None, Raise e)
      | Ok [] =>
          ([], None,
           Ok (make_report args processed 0
                 ["No data records extracted from JSON-RPC responses"]))
      | Ok all_records =>
          match create_connection (arg_connection_string args)
                  connection_timeout with
          | (trace, Raise e) => (trace, None, Raise e)
          | (trace, Ok db_connection) =>
              match engine_connect engine db_connection with
              | Some e => (trace ++ [Connect], Some db_connection, Raise e)
              | None =>
                  let prepared_records :=
                    prepare_records_for_db all_records
                      (arg_flatten_nested args) in
                  let transformed_records :=
                    fst (transform_records (database_type db_connection)
                           (engine_clock engine) prepared_records
                           (arg_uuid_fields args) (arg_add_timestamps args)
                           (0, 0)%nat) in
                  let '(stored, outcome) :=
                    store args processed db_connection transformed_records in
                  (trace ++ [Connect] ++ stored, Some db_connection, outcome)
              end
          end
      end
  end.

(** The [except] clauses: an [McpError] passes, anything else is
    wrapped. *)
Definition wrap_unexpected (e : exn) : exn :=
  match e with
  | McpError _ _ => e
  | PyError _ _ =>
      McpError INTERNAL_ERROR
        ("Unexpected error in JSON-RPC to DB processing: " +++ exn_str e)
  end.

Definition process_jsonrpc_to_db (args : InsertJsonRpcToDb)
  (connection_timeout : Z) : list event * res Report :=
  let '(trace, db_connection, outcome) := try_block args connection_timeout in
  (* finally *)
  let trace :=
    match db_connection with
    | Some _ => trace ++ [Disconnect]
    | None => trace
    end in
  match outcome with
  | Raise e => (trace, Raise (wrap_unexpected e))
  | Ok r =>
      (trace,
       Ok {| processed_responses := processed_responses r;
             inserted_records := inserted_records r;
             report_table_name := report_table_name r;
             report_database_type := report_database_type r;
             errors := errors r;
             processing_time_ms := engine_elapsed_ms engine |})
  end.

End Server.

(* ================================================================== *)
(** * data_transformer.py: the CREATE TABLE statement *)

Definition newline : string := String (ascii_of_nat 10) EmptyString.

(** [field_name == primary_key], the key being [None] or a name. *)
Definition is_primary_key (primary_key : option string) (field_name : string)
  : bool :=
  match primary_key with
  | Some p => field_name =? p
  | None => false
  end.

(** [not primary_key] *)
Definition no_primary_key (primary_key : option string) : bool :=
  match primary_key with
  | Some p => p =? ""
  | None => true
  end.

(** The list [columns] of [get_create_table_sql] when it is joined. *)
Definition create_table_columns (database_type : DatabaseType)
  (schema : Dict.t string) (primary_key : option string) : list string :=
  let columns :=
    map (fun kv =>
           let column_def := fst kv +++ " " +++ snd kv in
           if is_primary_key primary_key (fst kv)
           then column_def +++ " PRIMARY KEY" else column_def)
      schema in
  if no_primary_key primary_key && negb (Dict.mem schema "id") then
    match database_type with
    | POSTGRESQL => "id SERIAL PRIMARY KEY" :: columns
    | MYSQL => "id INT AUTO_INCREMENT PRIMARY KEY" :: columns
    | SQLITE => "id INTEGER PRIMARY KEY AUTOINCREMENT" :: columns
    | _ => columns
    end
  else columns.

Definition get_create_table_sql (database_type : DatabaseType)
  (table_name : string) (schema : Dict.t string) (primary_key : option string)
  : res string :=
  match database_type with
  | MONGODB | REDIS =>
      Raise (PyError "ValueError"
               ("SQL not applicable for " +++ database_type_value database_type))
  | _ =>
      let columns_sql :=
        String.concat ("," +++ newline +++ "    ")
          (create_table_columns database_type schema primary_key) in
      Ok ("CREATE TABLE IF NOT EXISTS " +++ table_name +++ " (" +++ newline
          +++ "    " +++ columns_sql +++ newline +++ ")")
  end.

(* ================================================================== *)
(** * database_manager.py: bulk insert *)

(** [range(start, stop, step)] for a positive step, at most [fuel]
    values. *)
Fixpoint range_step (fuel start stop step : nat) : list nat :=
  match fuel with
  | O => []
  | S fuel' =>
      if (start <? stop)%nat
      then start :: range_step fuel' (start + step) stop step
      else []
  end.

(** [l[i:j]] *)
Definition slice {A : Type} (l : list A) (i j : nat) : list A :=
  firstn (j - i) (skipn i l).

(** The batches [records[i:i + batch_size]] for [i] in
    [range(0, len(records), batch_size)]. *)
Definition batches (records : list dict) (batch_size : nat) : list (list dict) :=
  map (fun i => slice records i (i + batch_size))
    (range_step (List.length records) 0 (List.length records) batch_size).

(** What the driver answers to the calls of one [try] block, the
    [n]-th of an insert: the relational drivers give the row count of the
    cursor, the document driver the number of inserted ids; [None] from
    [driver_hset] is a call that returns. *)
Record Driver : Type := {
  driver_executemany : nat -> string -> list (list value) -> res Z;
  driver_insert_many : nat -> string -> list dict -> res nat;
  driver_hset : nat -> string -> dict -> option exn
}.

(** What an insert handed to the driver. *)
Inductive sent : Type :=
| SentRows (sql : string) (batch_values : list (list value))
| SentDocuments (collection : string) (batch : list dict)
| SentHash (key : string) (mapping : dict).

(** [[[record.get(col) for col in columns] for record in batch]] *)
Definition batch_values_of (columns : list string) (batch : list dict)
  : list (list value) :=
  map (fun record => map (fun col => get_or_none record col) columns) batch.

(** [list(batch[0].keys())]; a batch is never empty. *)
Definition batch_columns (batch : list dict) : list string :=
  match batch with
  | first :: _ => Dict.keys first
  | [] => []
  end.

Section BulkInsert.
Context {L : PyLib}.
Variable driver : Driver.

Definition placeholders (c : ConnectionClass) (columns : list string) : string :=
  match c with
  | PostgreSQLConnection =>
      String.concat ", "
        (map (fun j => "$" +++ py_str (VInt (Z.of_nat j + 1)))
           (seq 0 (List.length columns)))
  | SQLiteConnection => String.concat ", " (map (fun _ => "?") columns)
  | _ => String.concat ", " (map (fun _ => "%s") columns)
  end.

Definition insert_sql (c : ConnectionClass) (table_name : string)
  (columns : list string) : string :=
  "INSERT INTO " +++ table_name +++ " (" +++ String.concat ", " columns
  +++ ") VALUES (" +++ placeholders c columns +++ ")".

(** The [try] block of the loop over the batches, for the [n]-th batch:
    what is handed to the driver, and the number to add to
    [inserted_count] or the exception. *)
Definition send_batch (c : ConnectionClass) (n : nat) (table_name : string)
  (batch : list dict) : sent * res Z :=
  match c with
  | MongoDBConnection =>
      (SentDocuments table_name batch,
       ids <- driver_insert_many driver n table_name batch ;;
       Ok (Z.of_nat ids))
  | _ =>
      let columns := batch_columns batch in
      let sql := insert_sql c table_name columns in
      let batch_values := batch_values_of columns batch in
      (SentRows sql batch_values,
       rowcount <- driver_executemany driver n sql batch_values ;;
       match c with
       | MySQLConnection => Ok rowcount
       | _ => Ok (Z.of_nat (List.length batch))
       end)
  end.

Definition failed_batch (table_name : string) (e : exn) : exn :=
  McpError INTERNAL_ERROR
    ("Failed to insert batch into " +++ table_name +++ ": " +++ exn_str e).

(** The loop over the batches. *)
Fixpoint insert_batches (c : ConnectionClass) (table_name : string) (n : nat)
  (todo : list (list dict)) (inserted_count : Z) : list sent * res Z :=
  match todo with
  | [] => ([], Ok inserted_count)
  | batch :: rest =>
      match send_batch c n table_name batch with
      | (handed, Raise e) => ([handed], Raise (failed_batch table_name e))
      | (handed, Ok count) =>
          let '(trace, outcome) :=
            insert_batches c table_name (S n) rest (inserted_count + count) in
          (handed :: trace, outcome)
      end
  end.

(** [RedisConnection.insert_records]: the loop over
    [enumerate(records)]. *)
Fixpoint redis_insert (table_name : string) (i : nat) (records : list dict)
  (inserted_count : Z) : list sent * res Z :=
  match records with
  | [] => ([], Ok inserted_count)
  | record :: rest =>
      let key := table_name +++ ":" +++ py_str (VInt (Z.of_nat i)) in
      let redis_record :=
        fold_left
          (fun redis_record kv =>
             Dict.set redis_record (fst kv) (transform_value REDIS (snd kv) None))
          record [] in
      match driver_hset driver i key redis_record with
      | Some e =>
          ([SentHash key redis_record],
           Raise (McpError INTERNAL_ERROR
                    ("Failed to insert record " +++ py_str (VInt (Z.of_nat i))
                     +++ " into " +++ table_name +++ ": " +++ exn_str e)))
      | None =>
          let '(trace, outcome) :=
            redis_insert table_name (S i) rest (inserted_count + 1) in
          (SentHash key redis_record :: trace, outcome)
      end
  end.

(** [insert_records] of the class [c].  A zero step makes [range]
    raise, a negative one gives no batch. *)
Definition insert_records (c : ConnectionClass) (table_name : string)
  (records : list dict) (batch_size : Z) : list sent * res Z :=
  match records with
  | [] => ([], Ok 0%Z)
  | _ =>
      match c with
      | RedisConnection => redis_insert table_name 0 records 0
      | _ =>
          if (batch_size =? 0)%Z then
            ([], Raise (PyError "ValueError" "range() arg 3 must not be zero"))
          else if (batch_size <? 0)%Z then ([], Ok 0%Z)
          else
            insert_batches c table_name 0
              (batches records (Z.to_nat batch_size)) 0
      end
  end.

End BulkInsert.

(* ================================================================== *)
(** * Sample payloads and a library for the worked examples *)

Module Sample.

Definition dq : string := String (ascii_of_nat 34) EmptyString.
Definition quoted (s : string) : string := dq +++ s +++ dq.

(** The text of an envelope with members [jsonrpc], [id] = 1 and
    [result] = [r]. *)
Definition envelope_text (r : string) : string :=
  "{" +++ quoted "jsonrpc" +++ ":" +++ quoted "2.0" +++ ","
  +++ quoted "id" +++ ":1," +++ quoted "result" +++ ":" +++ r +++ "}".

Definition envelope_data (r : value) : value :=
  VDict [("jsonrpc", VStr "2.0"); ("id", VInt 1); ("result", r)].

(** The envelope that [envelope_data r] decodes into. *)
Definition response (r : value) : JsonRpcResponse :=
  {| jsonrpc := VStr "2.0"; id := VInt 1; result := r;
     error := VNone; method := VNone; params := VNone |}.

Definition null_result_text : string := envelope_text "null".
Definition empty_result_text : string := envelope_text "[]".
Definition pair_result_text : string := envelope_text "[7,{}]".

(** [json.loads] on the sample payloads. *)
Definition loads (s : string) : exn + value :=
  if s =? "[]" then inr (VList [])
  else if s =? null_result_text then inr (envelope_data VNone)
  else if s =? empty_result_text then inr (envelope_data (VList []))
  else if s =? pair_result_text
       then inr (envelope_data (VList [VInt 7; VDict []]))
       else inl (PyError "JSONDecodeError"
                   "Expecting value: line 1 column 1 (char 0)").

(** The scheme of a URL: the text before its first colon, which
    [urlparse] gives in lower case. *)
Fixpoint before_colon (s : string) : option string :=
  match s with
  | EmptyString => None
  | String c s' =>
      if Ascii.eqb c ":" then Some EmptyString
      else option_map (String c) (before_colon s')
  end.

Definition scheme (url : string) : string :=
  match before_colon url with Some p => Str.lower p | None => "" end.

(** The library of the examples.  It decodes the sample payloads and
    splits a URL at its first colon; no example depends on what the
    other functions answer. *)
Definition lib : PyLib :=
  {| json_loads := loads;
     json_dumps := fun v => type_name v;
     py_str := fun v => type_name v;
     isoformat := fun _ => "";
     decimal_float := fun _ _ => S754_zero false;
     bytes_hex := fun _ => "";
     uuid_parses := fun _ => false;
     fromisoformat_parses := fun _ => false;
     urlparse_scheme := fun url => Ok (scheme url) |}.

(** An engine on which every call succeeds and no table exists. *)
Definition engine : Engine :=
  {| engine_connect := fun _ => None;
     engine_table_exists := fun _ _ => Ok false;
     engine_create := fun _ _ _ => None;
     engine_insert := fun _ _ records _ => Ok (Z.of_nat (List.length records));
     engine_clock := {| uuid4_str := fun _ => ""; utcnow := fun n => Z.of_nat n |};
     engine_elapsed_ms := S754_zero false |}.

Definition request (payload url : string) : InsertJsonRpcToDb :=
  {| arg_jsonrpc_response := payload;
     arg_database_type := "sqlite";
     arg_connection_string := url;
     arg_schema_name := None;
     arg_table_name := None;
     arg_uuid_fields := None;
     arg_create_if_missing := true;
     arg_batch_size := 100;
     arg_flatten_nested := true;
     arg_add_timestamps := true |}.

End Sample.

(* ================================================================== *)
(** * More sample payloads: a batch, an error, a mapping result *)

Module Payloads.

Definition member (k v : string) : string := Sample.quoted k +++ ": " +++ v.

(** [json.dumps] of an object with the given members. *)
Definition object_text (members : list string) : string :=
  "{" +++ String.concat ", " members +++ "}".

Definition mapping_item : value :=
  VDict [("jsonrpc", VStr "2.0"); ("id", VInt 1);
         ("result", VDict [("name", VStr "Ann"); ("is_success", VBool false)])].

Definition mapping_text : string :=
  object_text
    [member "jsonrpc" (Sample.quoted "2.0"); member "id" "1";
     member "result"
       (object_text [member "name" (Sample.quoted "Ann");
                     member "is_success" "false"])].

Definition error_item : value :=
  VDict [("jsonrpc", VStr "2.0"); ("id", VInt 2);
         ("error", VDict [("code", VInt (-32600));
                          ("message", VStr "Invalid Request")])].

Definition error_text : string :=
  object_text
    [member "jsonrpc" (Sample.quoted "2.0"); member "id" "2";
     member "error"
       (object_text [member "code" "-32600";
                     member "message" (Sample.quoted "Invalid Request")])].

Definition old_version_item : value :=
  VDict [("jsonrpc", VStr "1.0"); ("id", VInt 3); ("result", VStr "x")].

Definition old_version_text : string :=
  object_text
    [member "jsonrpc" (Sample.quoted "1.0"); member "id" "3";
     member "result" (Sample.quoted "x")].

Definition text_error_item : value :=
  VDict [("jsonrpc", VStr "2.0"); ("id", VInt 4); ("error", VStr "boom")].

Definition text_error_text : string :=
  object_text
    [member "jsonrpc" (Sample.quoted "2.0"); member "id" "4";
     member "error" (Sample.quoted "boom")].

Definition text_error_response : JsonRpcResponse :=
  {| jsonrpc := VStr "2.0"; id := VInt 4; result := VNone;
     error := VStr "boom"; method := VNone; params := VNone |}.

(** An object with a null [id], a [method] and a sequence result. *)
Definition method_result_item : value :=
  VDict [("jsonrpc", VStr "2.0"); ("id", VNone); ("method", VStr "m");
         ("result", VList [VInt 1; VInt 2; VInt 3])].

Definition method_result_text : string :=
  object_text
    [member "jsonrpc" (Sample.quoted "2.0"); member "id" "null";
     member "method" (Sample.quoted "m"); member "result" "[1, 2, 3]"].


Definition batch_text : string :=
  "[" +++ mapping_text +++ ", " +++ error_text +++ "]".

Definition bad_batch_text : string :=
  "[" +++ mapping_text +++ ", " +++ old_version_text +++ "]".

(** A text that is one integer of 5000 digits, over the limit of 4300
    digits that [json.loads] converts. *)
Fixpoint sevens (n : nat) : string :=
  match n with
  | O => EmptyString
  | S n' => String "7" (sevens n')
  end.

Definition long_integer_text : string := sevens 5000.

Definition digit_limit_error : exn :=
  PyError "ValueError"
    "Exceeds the limit (4300 digits) for integer string conversion: value has 5000 digits; use sys.set_int_max_str_digits() to increase the limit".

Definition loads (s : string) : exn + value :=
  if s =? long_integer_text then inl digit_limit_error
  else if s =? mapping_text then inr mapping_item
  else if s =? error_text then inr error_item
  else if s =? old_version_text then inr old_version_item
  else if s =? text_error_text then inr text_error_item
  else if s =? method_result_text then inr method_result_item
  else if s =? batch_text then inr (VList [mapping_item; error_item])
  else if s =? bad_batch_text then inr (VList [mapping_item; old_version_item])
  else Sample.loads s.

(** [json.dumps] on the three sample items, told apart by their [id]. *)
Definition dumps (v : value) : string :=
  match v with
  | VDict d =>
      match get_or_none d "id" with
      | VInt 1 => mapping_text
      | VInt 2 => error_text
      | VInt 3 => old_version_text
      | _ => "{}"
      end
  | _ => "null"
  end.

(** [urlparse] raises on a bracket that is opened and not closed. *)
Definition urlparse (url : string) : res string :=
  if url =? "redis://[x" then Raise (PyError "ValueError" "Invalid IPv6 URL")
  else Ok (Sample.scheme url).

(** [str] on integers and strings. *)
Definition str (v : value) : string :=
  match v with
  | VInt n => NilZero.string_of_int (Z.to_int n)
  | VStr s => s
  | _ => type_name v
  end.

Definition lib : PyLib :=
  {| json_loads := loads;
     json_dumps := dumps;
     py_str := str;
     isoformat := fun _ => "";
     decimal_float := fun _ _ => S754_zero false;
     bytes_hex := fun _ => "";
     uuid_parses := fun _ => false;
     fromisoformat_parses := fun _ => false;
     urlparse_scheme := urlparse |}.

Definition mapping_response : JsonRpcResponse :=
  {| jsonrpc := VStr "2.0"; id := VInt 1;
     result := VDict [("name", VStr "Ann"); ("is_success", VBool false)];
     error := VNone; method := VNone; params := VNone |}.

Definition error_response : JsonRpcResponse :=
  {| jsonrpc := VStr "2.0"; id := VInt 2; result := VNone;
     error := VDict [("code", VInt (-32600));
                     ("message", VStr "Invalid Request")];
     method := VNone; params := VNone |}.

(** A request that does not let the table be created. *)
Definition strict_request (payload url : string) : InsertJsonRpcToDb :=
  {| arg_jsonrpc_response := payload;
     arg_database_type := "postgresql";
     arg_connection_string := url;
     arg_schema_name := None;
     arg_table_name := Some "events";
     arg_uuid_fields := Some ["event_id"];
     arg_create_if_missing := false;
     arg_batch_size := 50;
     arg_flatten_nested := true;
     arg_add_timestamps := false |}.

(** An engine on which every call succeeds and every table exists. *)
Definition engine_with_tables : Engine :=
  {| engine_connect := fun _ => None;
     engine_table_exists := fun _ _ => Ok true;
     engine_create := fun _ _ _ => None;
     engine_insert := fun _ _ records _ => Ok (Z.of_nat (List.length records));
     engine_clock :=
       {| uuid4_str := fun _ => "00000000-0000-4000-8000-000000000000";
          utcnow := fun n => Z.of_nat n |};
     engine_elapsed_ms := S754_zero false |}.

Definition postgres_connection (url : string) : DatabaseConnection :=
  {| connection_class := PostgreSQLConnection;
     connection_string := url;
     connection_timeout := 30;
     database_type := POSTGRESQL |}.

End Payloads.

(* ================================================================== *)
(** * Sample drivers and rows *)

Module Drivers.

(** A driver whose every call returns. *)
Definition steady : Driver :=
  {| driver_executemany := fun _ _ rows => Ok (Z.of_nat (List.length rows));
     driver_insert_many := fun _ _ batch => Ok (List.length batch);
     driver_hset := fun _ _ _ => None |}.

(** A driver whose call number [k] raises, the others return. *)
Definition failing_at (k : nat) : Driver :=
  {| driver_executemany :=
       fun n _ rows =>
         if (n =? k)%nat then Raise (PyError "OperationalError" "disk full")
         else Ok (Z.of_nat (List.length rows));
     driver_insert_many :=
       fun n _ batch =>
         if (n =? k)%nat then Raise (PyError "BulkWriteError" "write failed")
         else Ok (List.length batch);
     driver_hset :=
       fun n _ _ =>
         if (n =? k)%nat then Some (PyError "DataError" "invalid input")
         else None |}.

Definition row (n : Z) : dict := [("n", VInt n)].

Definition five_rows : list dict := [row 1; row 2; row 3; row 4; row 5].

End Drivers.

(* ================================================================== *)
(** * Notions used in the statements *)

(** An exception of [json.loads] that [except json.JSONDecodeError]
    does not catch. *)
Definition uncaught_decoder_exception {L : PyLib} (e : exn) : Prop :=
  is_instance e "JSONDecodeError" = false
  /\ exists text, json_loads (Str.strip text) = inl e.

(** A field whose value is text or null. *)
Definition text_or_null (kv : string * value) : Prop :=
  snd kv = VNone \/ exists s, snd kv = VStr s.

(** A hash handed to the key-value driver, all of text or null. *)
Definition hash_of_text (ev : sent) : Prop :=
  match ev with
  | SentHash _ mapping => Forall text_or_null mapping
  | _ => False
  end.

(** An event that is a call to the engine over an open connection. *)
Definition engine_call (ev : event) : Prop :=
  match ev with
  | TableExists _ | CreateTable _ _ | InsertRecords _ _ _ => True
  | _ => False
  end.

(** The records that the orchestrator hands to the engine. *)
Definition transformed_for {L : PyLib} (engine : Engine)
  (args : InsertJsonRpcToDb) (db_connection : DatabaseConnection)
  (all_records : list dict) : list dict :=
  fst (transform_records (database_type db_connection) (engine_clock engine)
         (prepare_records_for_db all_records (arg_flatten_nested args))
         (arg_uuid_fields args) (arg_add_timestamps args) (0, 0)%nat).

(** One turn of the loop of [add_uuid_fields]. *)
Definition uuid_step (clock : Clock) (st : dict * ticks) (field_name : string)
  : dict * ticks :=
  let '(updated_record, (u, c)) := st in
  if negb (Dict.mem updated_record field_name)
     || is_none (get_or_none updated_record field_name)
  then (Dict.set updated_record field_name (VStr (uuid4_str clock u)), (S u, c))
  else st.

(** Induction on values that descends into the entries of mappings. *)
Section ValueInduction.
Variable P : value -> Prop.
Hypothesis leaf : forall v, is_dict v = false -> P v.
Hypothesis node :
  forall d, Forall (fun kv => P (snd kv)) d -> P (VDict d).

Fixpoint value_dict_ind (v : value) : P v :=
  match v with
  | VDict d =>
      node d
        ((fix entries (d : list (string * value))
            : Forall (fun kv => P (snd kv)) d :=
            match d with
            | [] => Forall_nil _
            | kv :: rest =>
                Forall_cons kv (value_dict_ind (snd kv)) (entries rest)
            end) d)
  | other => leaf other eq_refl
  end.
End ValueInduction.

(** A key that sanitizing leaves alone, with a value that is neither a
    mapping nor a sequence. *)
Definition flat_pair (kv : string * value) : Prop :=
  sanitize_field_name (fst kv) = fst kv
  /\ is_dict (snd kv) = false /\ is_list (snd kv) = false.

(** What flattening stores for a value that is not a mapping: a
    sequence as its JSON text, any other value as it is. *)
Definition flattened_value {L : PyLib} (v : value) : value :=
  match v with
  | VList _ => VStr (json_dumps v)
  | _ => v
  end.

(** The last field of [record] whose name sanitizes to [name], as
    flattening stores its value. *)
Fixpoint last_field_named {L : PyLib} (record : dict) (name : string)
  : option value :=
  match record with
  | [] => None
  | (k, v) :: rest =>
      match last_field_named rest name with
      | Some later => Some later
      | None =>
          if sanitize_field_name k =? name then Some (flattened_value v)
          else None
      end
  end.






(** The design document's reading of the initial type: the first value
    of the field, in record order, that is not null. *)
Fixpoint first_non_null (field_name : string) (records : list dict)
  : option value :=
  match records with
  | [] => None
  | record :: rest =>
      match Dict.get record field_name with
      | Some v => if is_none v then first_non_null field_name rest else Some v
      | None => first_non_null field_name rest
      end
  end.

(** The design document's reading: the scheme is one of the names. *)
Definition recognized_scheme (scheme : string) : bool :=
  existsb (String.eqb scheme)
    ["postgres"; "postgresql"; "mysql"; "sqlite"; "mongodb"; "redis"].

(** The scheme starts with one of the names. *)
Definition has_backend_prefix (scheme : string) : bool :=
  existsb (Str.startswith scheme)
    ["postgres"; "postgresql"; "mysql"; "sqlite"; "mongodb"; "redis"].

(** The class of the connection that a call to the factory made. *)
Definition selected_class (outcome : list event * res DatabaseConnection)
  : option ConnectionClass :=
  match snd outcome with
  | Ok c => Some (connection_class c)
  | Raise _ => None
  end.

(* ================================================================== *)
(** * Properties of [sanitize_field_name] *)

Section SanitizeFacts.

Ltac by_cases c :=
  destruct c as [[] [] [] [] [] [] [] []]; vm_compute; intuition congruence.

Lemma lower_char_word c :
  is_word_char c = true -> is_ident_char (Str.lower_char c) = true.
Proof. by_cases c. Qed.

Lemma lower_char_head c :
  (Str.is_lower c || Str.is_upper c || Str.is_underscore c) = true ->
  (Str.is_lower (Str.lower_char c) || Str.is_underscore (Str.lower_char c)) = true.
Proof. by_cases c. Qed.

Lemma lower_char_ident c :
  is_ident_char c = true -> Str.lower_char c = c.
Proof. by_cases c. Qed.

Lemma ident_char_word c : is_ident_char c = true -> is_word_char c = true.
Proof. by_cases c. Qed.

Lemma head_ident c :
  (Str.is_lower c || Str.is_underscore c) = true -> is_ident_char c = true.
Proof. by_cases c. Qed.

Lemma sub_non_word_all s : Str.forallb is_word_char (sub_non_word s) = true.
Proof.
  unfold sub_non_word.
  induction s as [|c s IH]; simpl; [reflexivity|].
  rewrite IH, andb_true_r.
  destruct (is_word_char c) eqn:E; [exact E | reflexivity].
Qed.

Lemma sub_non_word_fixed s :
  Str.forallb is_word_char s = true -> sub_non_word s = s.
Proof.
  unfold sub_non_word.
  induction s as [|c s IH]; simpl; [reflexivity|].
  intros H. apply andb_true_iff in H as [Hc Hs].
  rewrite Hc. f_equal. apply IH, Hs.
Qed.

Lemma forallb_app p s t :
  Str.forallb p (s +++ t) = Str.forallb p s && Str.forallb p t.
Proof.
  induction s as [|c s IH]; simpl; [reflexivity|].
  rewrite IH. apply andb_assoc.
Qed.

Lemma forallb_take p n s :
  Str.forallb p s = true -> Str.forallb p (Str.take n s) = true.
Proof.
  unfold Str.take. revert n.
  induction s as [|c s IH]; intros [|n] H; simpl in *; try reflexivity.
  apply andb_true_iff in H as [Hc Hs].
  rewrite Hc. simpl. apply IH, Hs.
Qed.

Lemma forallb_weaken (p q : ascii -> bool) s :
  (forall c, p c = true -> q c = true) ->
  Str.forallb p s = true -> Str.forallb q s = true.
Proof.
  intros Hpq. induction s as [|c s IH]; simpl; [reflexivity|].
  intros H. apply andb_true_iff in H as [Hc Hs].
  rewrite (Hpq _ Hc), (IH Hs). reflexivity.
Qed.

Lemma lower_all_ident s :
  Str.forallb is_word_char s = true ->
  Str.forallb is_ident_char (Str.lower s) = true.
Proof.
  unfold Str.lower.
  induction s as [|c s IH]; simpl; [reflexivity|].
  intros H. apply andb_true_iff in H as [Hc Hs].
  rewrite (lower_char_word _ Hc), (IH Hs). reflexivity.
Qed.

Lemma lower_fixed s :
  Str.forallb is_ident_char s = true -> Str.lower s = s.
Proof.
  unfold Str.lower.
  induction s as [|c s IH]; simpl; [reflexivity|].
  intros H. apply andb_true_iff in H as [Hc Hs].
  rewrite (lower_char_ident _ Hc). f_equal. apply IH, Hs.
Qed.

Lemma length_lower s : String.length (Str.lower s) = String.length s.
Proof. unfold Str.lower. induction s as [|c s IH]; simpl; congruence. Qed.

Lemma length_take n s :
  String.length (Str.take n s) = Nat.min n (String.length s).
Proof.
  unfold Str.take. revert n.
  induction s as [|c s IH]; intros [|n]; simpl; try reflexivity.
  f_equal. apply IH.
Qed.

Lemma head_take n s :
  match_letter_or_underscore s = true ->
  match_letter_or_underscore (Str.take (S n) s) = true.
Proof. destruct s; simpl; [discriminate | trivial]. Qed.

Lemma lower_identifier s :
  match_letter_or_underscore s = true ->
  Str.forallb is_word_char s = true ->
  matches_identifier (Str.lower s) = true.
Proof.
  destruct s as [|c s]; simpl; [discriminate|].
  intros Hh H. apply andb_true_iff in H as [_ Hs].
  rewrite (lower_char_head _ Hh). simpl.
  apply (lower_all_ident _ Hs).
Qed.

Lemma identifier_chars s :
  matches_identifier s = true ->
  match_letter_or_underscore s = true /\ Str.forallb is_ident_char s = true.
Proof.
  destruct s as [|c s]; simpl; [discriminate|].
  intros H. apply andb_true_iff in H as [Hc Hs].
  rewrite Hs, (head_ident _ Hc), andb_true_r. split; [|reflexivity].
  apply orb_true_iff in Hc as [Hc|Hc]; rewrite Hc;
    [reflexivity | apply orb_true_r].
Qed.

(** Both branches of the prefix test leave a word-character string that
    starts with a letter or an underscore. *)
Lemma prefixed_shape s :
  let t := sub_non_word s in
  let u := if negb (match_letter_or_underscore t) then "field_" +++ t else t in
  match_letter_or_underscore u = true /\ Str.forallb is_word_char u = true.
Proof.
  cbv zeta. pose proof (sub_non_word_all s) as Hall.
  destruct (match_letter_or_underscore (sub_non_word s)) eqn:E; simpl.
  - auto.
  - split; [reflexivity | exact Hall].
Qed.

Lemma sanitize_shape x :
  matches_identifier (sanitize_field_name x) = true
  /\ (String.length (sanitize_field_name x) <= 63)%nat.
Proof.
  unfold sanitize_field_name.
  destruct (prefixed_shape x) as [Hh Hall]. cbv zeta in Hh, Hall.
  set (u := if negb (match_letter_or_underscore (sub_non_word x))
            then "field_" +++ sub_non_word x else sub_non_word x) in *.
  destruct (63 <? String.length u)%nat eqn:L.
  - split.
    + apply lower_identifier; [apply head_take, Hh | apply forallb_take, Hall].
    + rewrite length_lower, length_take. apply Nat.le_min_l.
  - apply Nat.ltb_ge in L. split.
    + apply lower_identifier; assumption.
    + rewrite length_lower. exact L.
Qed.

Lemma sanitize_fixed y :
  matches_identifier y = true -> (String.length y <= 63)%nat ->
  sanitize_field_name y = y.
Proof.
  intros Hm Hlen. destruct (identifier_chars _ Hm) as [Hh Hid].
  unfold sanitize_field_name.
  rewrite (sub_non_word_fixed _ (forallb_weaken _ _ _ ident_char_word Hid)).
  rewrite Hh. simpl negb. cbv iota.
  apply Nat.ltb_ge in Hlen. rewrite Hlen.
  apply lower_fixed, Hid.
Qed.

End SanitizeFacts.

(** C6. [sanitize] is idempotent, and its output is never empty, matches
    [^[a-z_][a-z0-9_]*$] and has at most 63 characters. *)
Theorem sanitize_idempotent_and_well_formed :
  forall x : string,
    sanitize_field_name (sanitize_field_name x) = sanitize_field_name x
    /\ sanitize_field_name x <> ""
    /\ matches_identifier (sanitize_field_name x) = true
    /\ (String.length (sanitize_field_name x) <= 63)%nat.
Proof.
  intros x. destruct (sanitize_shape x) as [Hm Hlen].
  repeat split; try assumption.
  - apply sanitize_fixed; assumption.
  - intros E. rewrite E in Hm. discriminate.
Qed.

(* ================================================================== *)
(** * Properties of dictionaries *)

Section DictFacts.
Variable V : Type.
Implicit Types (d acc : Dict.t V) (items : list (string * V)) (k : string).

Lemma get_none_keys d k : Dict.get d k = None <-> ~ In k (Dict.keys d).
Proof.
  induction d as [|[k' v'] d IH]; simpl.
  - tauto.
  - destruct (String.eqb_spec k' k) as [E|N].
    + split; [discriminate | intros H; exfalso; apply H; left; exact E].
    + rewrite IH. tauto.
Qed.

Lemma get_some_in d k v : Dict.get d k = Some v -> In (k, v) d.
Proof.
  induction d as [|[k' v'] d IH]; simpl; [discriminate|].
  destruct (String.eqb_spec k' k) as [E|N].
  - intros [= ->]. left. congruence.
  - intros H. right. apply IH, H.
Qed.

Lemma get_set d k v k' :
  Dict.get (Dict.set d k v) k' =
  if k =? k' then Some v else Dict.get d k'.
Proof.
  induction d as [|[k0 v0] d IH]; simpl.
  - reflexivity.
  - destruct (String.eqb_spec k0 k) as [E|N]; simpl.
    + subst k0. destruct (k =? k'); reflexivity.
    + rewrite IH. destruct (String.eqb_spec k0 k') as [E'|N'];
        [|reflexivity].
      subst k0. apply String.eqb_neq in N. rewrite String.eqb_sym, N.
      reflexivity.
Qed.

Lemma set_fresh d k v : Dict.get d k = None -> Dict.set d k v = d ++ [(k, v)].
Proof.
  induction d as [|[k' v'] d IH]; simpl; [reflexivity|].
  destruct (k' =? k); [discriminate|].
  intros H. rewrite (IH H). reflexivity.
Qed.

Lemma set_keys d k v :
  Dict.keys (Dict.set d k v) =
  if Dict.mem d k then Dict.keys d else Dict.keys d ++ [k].
Proof.
  unfold Dict.mem.
  induction d as [|[k' v'] d IH]; simpl; [reflexivity|].
  destruct (k' =? k); simpl; [reflexivity|].
  rewrite IH. destruct (Dict.get d k); reflexivity.
Qed.

Lemma set_nodup d k v : NoDup (Dict.keys d) -> NoDup (Dict.keys (Dict.set d k v)).
Proof.
  intros Hd. rewrite set_keys. unfold Dict.mem.
  destruct (Dict.get d k) eqn:G; [exact Hd|].
  apply get_none_keys in G.
  apply NoDup_app; [exact Hd | repeat constructor; simpl; tauto |].
  intros x Hx [<-|[]]. contradiction.
Qed.

Lemma update_nodup items acc :
  NoDup (Dict.keys acc) -> NoDup (Dict.keys (Dict.update acc items)).
Proof.
  unfold Dict.update. revert acc.
  induction items as [|[k v] items IH]; intros acc H; simpl; [exact H|].
  apply IH, set_nodup, H.
Qed.

Lemma of_items_nodup items : NoDup (Dict.keys (Dict.of_items items)).
Proof. apply update_nodup. constructor. Qed.

Lemma update_fresh items acc :
  NoDup (Dict.keys acc ++ Dict.keys items) -> Dict.update acc items = acc ++ items.
Proof.
  unfold Dict.update. revert acc.
  induction items as [|[k v] items IH]; intros acc H; simpl.
  - symmetry. apply app_nil_r.
  - assert (Hk : Dict.get acc k = None).
    { apply get_none_keys. intros Hin.
      apply NoDup_remove_2 in H. apply H, in_or_app. left. exact Hin. }
    rewrite (set_fresh _ _ v Hk), IH.
    + rewrite <- app_assoc. reflexivity.
    + unfold Dict.keys in *. rewrite map_app, <- app_assoc. exact H.
Qed.

Lemma of_items_nodup_id items :
  NoDup (Dict.keys items) -> Dict.of_items items = items.
Proof. intros H. unfold Dict.of_items. rewrite update_fresh; auto. Qed.

Variable P : string * V -> Prop.

Lemma set_forall d k v : P (k, v) -> Forall P d -> Forall P (Dict.set d k v).
Proof.
  intros Hkv. induction 1 as [|[k' v'] d Hx Hd IH]; simpl.
  - repeat constructor. exact Hkv.
  - destruct (String.eqb_spec k' k) as [E|N].
    + subst k'. constructor; assumption.
    + constructor; assumption.
Qed.

Lemma update_forall items acc :
  Forall P acc -> Forall P items -> Forall P (Dict.update acc items).
Proof.
  unfold Dict.update. intros Ha Hi. revert acc Ha.
  induction Hi as [|[k v] items Hx Hi IH]; intros acc Ha; simpl; [exact Ha|].
  apply IH, set_forall; assumption.
Qed.

Lemma of_items_forall items : Forall P items -> Forall P (Dict.of_items items).
Proof. apply update_forall. constructor. Qed.

End DictFacts.

(* ================================================================== *)
(** * Properties of [flatten_nested_dict] *)

Section FlattenFacts.
Context {L : PyLib}.

Lemma sanitize_twice x :
  sanitize_field_name (sanitize_field_name x) = sanitize_field_name x.
Proof. destruct (sanitize_shape x). apply sanitize_fixed; assumption. Qed.

Lemma new_key_of_fixed parent sep k :
  sanitize_field_name (new_key_of parent sep k) = new_key_of parent sep k.
Proof. apply sanitize_twice. Qed.

Lemma flatten_entry_dict d key sep :
  flatten_entry (VDict d) key sep = flatten_nested_dict d key sep.
Proof.
  unfold flatten_nested_dict. simpl. f_equal.
  induction d as [|[k v] d IH]; simpl; [reflexivity|].
  rewrite IH. reflexivity.
Qed.

Lemma flatten_entry_flat v :
  forall key sep,
    sanitize_field_name key = key -> Forall flat_pair (flatten_entry v key sep).
Proof.
  induction v as [v Hv | d IH] using value_dict_ind; intros key sep Hkey.
  - destruct v; try discriminate;
      repeat constructor; simpl; auto.
  - rewrite flatten_entry_dict. unfold flatten_nested_dict.
    apply of_items_forall.
    induction IH as [|[k v] d Hx _ IHd]; simpl; [constructor|].
    apply Forall_app. split; [|exact IHd].
    apply Hx, new_key_of_fixed.
Qed.

Lemma flatten_nested_dict_flat data parent sep :
  Forall flat_pair (flatten_nested_dict data parent sep).
Proof.
  unfold flatten_nested_dict.
  apply of_items_forall.
  induction data as [|[k v] data IH]; simpl; [constructor|].
  apply Forall_app. split; [|exact IH].
  apply flatten_entry_flat, new_key_of_fixed.
Qed.

Lemma flatten_entry_scalar v key sep :
  is_dict v = false -> is_list v = false ->
  flatten_entry v key sep = [(key, v)].
Proof. destruct v; simpl; intros; try reflexivity; discriminate. Qed.

Lemma flatten_items_flat data :
  Forall flat_pair data ->
  flat_map
    (fun kv => flatten_entry (snd kv) (new_key_of "" "_" (fst kv)) "_") data
  = data.
Proof.
  induction 1 as [|[k v] data [Hk [Hd Hl]] _ IH]; simpl in *; [reflexivity|].
  rewrite IH, (flatten_entry_scalar v _ _ Hd Hl).
  unfold new_key_of. simpl. rewrite Hk. reflexivity.
Qed.

Lemma flatten_fixed data :
  NoDup (Dict.keys data) -> Forall flat_pair data -> flatten data = data.
Proof.
  intros Hnd Hflat. unfold flatten, flatten_nested_dict.
  rewrite (flatten_items_flat data Hflat).
  apply of_items_nodup_id, Hnd.
Qed.

End FlattenFacts.

(** C7. Flattening the output of [flatten] changes nothing; no value of
    the output is a mapping or a sequence, and every key of it is one that
    [sanitize] leaves alone. *)
Theorem flatten_idempotent :
  forall (L : PyLib) (r : dict),
    flatten (flatten r) = flatten r
    /\ Forall (fun kv => is_dict (snd kv) = false /\ is_list (snd kv) = false
                         /\ sanitize_field_name (fst kv) = fst kv)
         (flatten r).
Proof.
  intros L r.
  pose proof (flatten_nested_dict_flat r "" "_") as Hflat.
  split.
  - apply flatten_fixed; [apply of_items_nodup | exact Hflat].
  - apply Forall_forall. intros kv Hin.
    rewrite Forall_forall in Hflat. destruct (Hflat kv Hin) as [? [? ?]].
    auto.
Qed.

(* ================================================================== *)
(** * Properties of the envelope validator and the extractor *)

Section ParserFacts.
Context {L : PyLib}.

Lemma differs_from_str_false v s : differs_from_str v s = false -> v = VStr s.
Proof.
  destruct v; simpl; try discriminate.
  intros H. apply negb_false_iff, String.eqb_eq in H. congruence.
Qed.

Lemma mem_false_none (d : dict) k : Dict.mem d k = false -> get_or_none d k = VNone.
Proof.
  unfold Dict.mem, get_or_none. destruct (Dict.get d k); [discriminate|reflexivity].
Qed.

Lemma parse_response_decoded s r :
  parse_jsonrpc_response s = Ok r ->
  exists data, json_loads (Str.strip s) = inr data /\ parse_decoded data = Ok r.
Proof.
  unfold parse_jsonrpc_response.
  destruct (json_loads (Str.strip s)) as [e|data];
    [destruct (is_instance e "JSONDecodeError"); discriminate|].
  intros H. exists data. auto.
Qed.

(** What the validator lets through: version 2.0, and either the [id]
    member with exactly one of a non-null result and a non-null error,
    or no [id], a [method], and neither [result] nor [error]. *)
Lemma parse_decoded_inv data r :
  parse_decoded data = Ok r ->
  exists d,
    data = VDict d
    /\ r = {| jsonrpc := VStr "2.0"; id := get_or_none d "id";
              result := get_or_none d "result";
              error := get_or_none d "error";
              method := get_or_none d "method";
              params := get_or_none d "params" |}
    /\ ((Dict.mem d "id" = true
         /\ is_none (result r) = negb (is_none (error r)))
        \/ (Dict.mem d "id" = false /\ Dict.mem d "method" = true
            /\ result r = VNone /\ error r = VNone /\ id r = VNone)).
Proof.
  unfold parse_decoded, invalid_params.
  destruct data as [| | | | | |d| | | | | | |]; try discriminate.
  destruct (differs_from_str (get_or_none d "jsonrpc") "2.0") eqn:V;
    [discriminate|].
  apply differs_from_str_false in V. rewrite V.
  destruct (Dict.mem d "id") eqn:I.
  - destruct (is_none (get_or_none d "result")) eqn:R;
      destruct (is_none (get_or_none d "error")) eqn:E; simpl;
      try discriminate;
      intros [= <-]; exists d; simpl; rewrite R, E; auto.
  - destruct (Dict.mem d "method") eqn:M; [|discriminate].
    destruct (Dict.mem d "result") eqn:R; [discriminate|].
    destruct (Dict.mem d "error") eqn:E; [discriminate|]. simpl.
    intros [= <-]. exists d. simpl.
    rewrite (mem_false_none _ _ R), (mem_false_none _ _ E),
      (mem_false_none _ _ I).
    split; [reflexivity|]. split; [reflexivity|]. right. auto.
Qed.

(** An envelope with the [id] member whose result and error are both
    null or missing is refused, a present null result included. *)
Lemma null_result_refused (d : dict) :
  get_or_none d "jsonrpc" = VStr "2.0" ->
  Dict.mem d "id" = true ->
  get_or_none d "result" = VNone ->
  get_or_none d "error" = VNone ->
  parse_decoded (VDict d)
  = invalid_params
      "JSON-RPC response must have either 'result' or 'error' field".
Proof.
  intros Hv Hid Hr He. unfold parse_decoded.
  rewrite Hv, Hid, Hr, He. reflexivity.
Qed.

(** Extraction raises on a validated envelope whose error member is
    neither null, nor empty, nor a mapping. *)
Lemma text_error_member_raises :
  bind
    (parse_decoded
       (VDict [("jsonrpc", VStr "2.0"); ("id", VInt 1);
               ("error", VStr "boom")]))
    extract_data_from_jsonrpc
  = Raise (PyError "AttributeError" "'str' object has no attribute 'get'").
Proof. reflexivity. Qed.

(** A validated envelope with a non-null result is not an error. *)
Lemma validated_result_no_error data r :
  parse_decoded data = Ok r -> is_none (result r) = false ->
  is_error r = false /\ jsonrpc r = VStr "2.0".
Proof.
  intros H Hres. destruct (parse_decoded_inv _ _ H) as [d [_ [Hr Hc]]].
  split; [|rewrite Hr; reflexivity].
  unfold is_error. destruct Hc as [[_ Hx]|[_ [_ [Hn _]]]].
  - rewrite Hres in Hx. rewrite <- Hx. reflexivity.
  - rewrite Hn in Hres. discriminate.
Qed.

Lemma extract_items_app response items :
  forall i acc,
    extract_items response i items acc
    = acc ++ extract_items response i items [].
Proof.
  induction items as [|x items IH]; intros i acc; simpl.
  - symmetry. apply app_nil_r.
  - rewrite IH, (IH _ [_]), <- app_assoc. reflexivity.
Qed.

Lemma extract_items_cons response i x items :
  extract_items response i (x :: items) []
  = extract_item response i x :: extract_items response (i + 1) items [].
Proof. simpl. rewrite extract_items_app. reflexivity. Qed.

Lemma extract_items_length response items :
  forall i, List.length (extract_items response i items []) = List.length items.
Proof.
  induction items as [|x items IH]; intros i; [reflexivity|].
  rewrite extract_items_cons. simpl. rewrite IH. reflexivity.
Qed.


End ParserFacts.

Section ExtractorFacts.




End ExtractorFacts.

(** C1 (the code departs from it). An envelope with an [id] and a null
    result is refused by the validator, as if it had no [result] member,
    although the extractor has a case for it that yields the one record
    of the claim. *)
Theorem null_result_envelope_rejected :
  parse_jsonrpc_response (L := Sample.lib) Sample.null_result_text
  = Raise (McpError INVALID_PARAMS
             "JSON-RPC response must have either 'result' or 'error' field")
  /\ (forall L : PyLib,
        parse_decoded (Sample.envelope_data VNone)
        = Raise (McpError INVALID_PARAMS
                   "JSON-RPC response must have either 'result' or 'error' field"))
  /\ extract_data_from_jsonrpc (Sample.response VNone)
     = Ok [[("jsonrpc_id", VInt 1); ("jsonrpc_version", VStr "2.0");
            ("result", VNone); ("is_success", VBool true)]].
Proof. repeat split. Qed.

(** An envelope with a null [id] and a [method] is a notification for
    the extractor, whatever else it carries: the validator lets a result
    through with it, and one notification record comes out. *)
Remark null_id_with_method_is_notification :
  forall L : PyLib,
    bind
      (parse_decoded
         (VDict [("jsonrpc", VStr "2.0"); ("id", VNone);
                 ("method", VStr "m"); ("result", VList [VInt 1])]))
      extract_data_from_jsonrpc
    = Ok [[("jsonrpc_version", VStr "2.0"); ("method", VStr "m");
           ("params", VNone); ("is_notification", VBool true)]].
Proof. intros L. reflexivity. Qed.




(* ================================================================== *)
(** * Properties of the orchestrator *)

Section ServerFacts.
Context {L : PyLib}.

Lemma process_validation_error engine args timeout e :
  validate_jsonrpc_batch (arg_jsonrpc_response args) = Raise e ->
  process_jsonrpc_to_db engine args timeout = ([], Raise (wrap_unexpected e)).
Proof.
  intros H. unfold process_jsonrpc_to_db, try_block. rewrite H. reflexivity.
Qed.





End ServerFacts.

(** C5. A payload that decodes to the empty array is refused by the
    batch validator, and the orchestrator raises that error with no
    record extracted and no event: no connection object, no call to a
    backend. *)
Theorem empty_batch_rejected :
  forall (L : PyLib) (s : string),
    json_loads (Str.strip s) = inr (VList []) ->
    validate_jsonrpc_batch s
    = Raise (McpError INVALID_PARAMS "JSON-RPC batch cannot be empty")
    /\ forall engine args timeout,
         arg_jsonrpc_response args = s ->
         process_jsonrpc_to_db engine args timeout
         = ([], Raise (McpError INVALID_PARAMS "JSON-RPC batch cannot be empty")).
Proof.
  intros L s Hloads.
  assert (Hv : validate_jsonrpc_batch s
               = Raise (McpError INVALID_PARAMS "JSON-RPC batch cannot be empty")).
  { unfold validate_jsonrpc_batch. rewrite Hloads. reflexivity. }
  split; [exact Hv|].
  intros engine args timeout <-.
  rewrite (process_validation_error _ _ _ _ Hv). reflexivity.
Qed.

Lemma empty_batch_rejected_witness :
  json_loads (PyLib := Sample.lib) (Str.strip "[]") = inr (VList [])
  /\ validate_jsonrpc_batch (L := Sample.lib) "[]"
     = Raise (McpError INVALID_PARAMS "JSON-RPC batch cannot be empty")
  /\ process_jsonrpc_to_db (L := Sample.lib) Sample.engine
       (Sample.request "[]" "sqlite:///data.db") 30
     = ([], Raise (McpError INVALID_PARAMS "JSON-RPC batch cannot be empty")).
Proof.
  split; [reflexivity|].
  destruct (empty_batch_rejected Sample.lib "[]" eq_refl) as [Hv Hp].
  split; [exact Hv | apply Hp; reflexivity].
Defined.




(* ================================================================== *)
(** * Properties of the transformer and of schema inference *)

Section SchemaFacts.
Context {L : PyLib}.
Variable db : DatabaseType.

Lemma schema_step_other schema k v f :
  k <> f ->
  Dict.get (schema_step db schema k v) f = Dict.get schema f.
Proof.
  intros Hk. apply String.eqb_neq in Hk. unfold schema_step.
  destruct (Dict.get schema k) as [existing|];
    repeat match goal with
      | |- context [if ?c then _ else _] => destruct c
      end;
    rewrite ?get_set, ?Hk; reflexivity.
Qed.

Lemma schema_step_new schema f v :
  Dict.get schema f = None ->
  Dict.get (schema_step db schema f v) f = Some (infer_field_type db v).
Proof.
  intros H. unfold schema_step. rewrite H, get_set, String.eqb_refl.
  reflexivity.
Qed.

Lemma record_loop_other (record : dict) f :
  Dict.get record f = None ->
  forall schema,
    Dict.get
      (fold_left (fun schema kv => schema_step db schema (fst kv) (snd kv))
         record schema) f
    = Dict.get schema f.
Proof.
  induction record as [|[k v] record IH]; simpl; intros H schema;
    [reflexivity|].
  destruct (String.eqb_spec k f) as [E|N]; [discriminate|].
  rewrite (IH H). apply schema_step_other, N.
Qed.

Lemma schema_from_other (records : list dict) f :
  (forall r, In r records -> Dict.get r f = None) ->
  forall schema,
    Dict.get (schema_from db schema records) f = Dict.get schema f.
Proof.
  unfold schema_from.
  induction records as [|r records IH]; simpl; intros H schema;
    [reflexivity|].
  rewrite IH by auto. apply record_loop_other. auto.
Qed.

Lemma schema_from_app schema (xs ys : list dict) :
  schema_from db schema (xs ++ ys)
  = schema_from db (schema_from db schema xs) ys.
Proof. apply fold_left_app. Qed.

Lemma infer_schema_nonempty (records : list dict) :
  records <> [] -> infer_schema db records = schema_from db [] records.
Proof. destruct records; [congruence | reflexivity]. Qed.

End SchemaFacts.

(** C2, as the claim has it, fails: a null met first gives the field the
    string type, and the integer that follows does not set it. *)
Lemma null_first_sets_initial_type :
  first_non_null "a" [[("a", VNone)]; [("a", VInt 1)]] = Some (VInt 1)
  /\ infer_field_type (L := Sample.lib) POSTGRESQL (VInt 1) = "INTEGER"
  /\ Dict.get (infer_schema (L := Sample.lib) POSTGRESQL [[("a", VNone)]]) "a"
     = Some "TEXT"
  /\ Dict.get
       (infer_schema (L := Sample.lib) POSTGRESQL
          [[("a", VNone)]; [("a", VInt 1)]]) "a"
     = Some "TEXT".
Proof. repeat split. Qed.

(** C2, amended. The type a field has once the loops have met it for the
    first time is the inferred type of that first value, null or not;
    records without the field, and the fields before it, play no part.
    The rest of the input is then processed from that schema. *)
Theorem initial_type_is_first_value :
  forall (L : PyLib) (db : DatabaseType) (before : list dict)
         (fields_before : dict) (f : string) (v : value)
         (fields_after : dict) (after : list dict),
    (forall r, In r before -> Dict.get r f = None) ->
    Dict.get fields_before f = None ->
    Dict.get (infer_schema db (before ++ [fields_before ++ [(f, v)]])) f
    = Some (infer_field_type db v)
    /\ infer_schema db
         (before ++ (fields_before ++ (f, v) :: fields_after) :: after)
       = schema_from db
           (infer_schema db (before ++ [fields_before ++ [(f, v)]]))
           (fields_after :: after).
Proof.
  intros L db before fields_before f v fields_after after Hbefore Hfields.
  rewrite !infer_schema_nonempty by (destruct before; discriminate).
  rewrite !schema_from_app. split.
  - unfold schema_from at 1. simpl. rewrite fold_left_app. simpl.
    apply schema_step_new.
    rewrite record_loop_other by exact Hfields.
    rewrite schema_from_other by exact Hbefore. reflexivity.
  - unfold schema_from at 1 3 4. simpl.
    rewrite !fold_left_app. reflexivity.
Qed.

Lemma initial_type_is_first_value_witness :
  (forall r, In r [[("b", VInt 2)]] -> Dict.get r "a" = None)
  /\ Dict.get [("c", VStr "x")] "a" = None
  /\ Dict.get
       (infer_schema (L := Sample.lib) SQLITE
          ([[("b", VInt 2)]] ++ [[("c", VStr "x")] ++ [("a", VNone)]])) "a"
     = Some (infer_field_type (L := Sample.lib) SQLITE VNone)
  /\ infer_schema (L := Sample.lib) SQLITE
       ([[("b", VInt 2)]]
          ++ ([("c", VStr "x")] ++ ("a", VNone) :: [("d", VBool true)])
          :: [[("a", VInt 1)]])
     = schema_from (L := Sample.lib) SQLITE
         (infer_schema (L := Sample.lib) SQLITE
            ([[("b", VInt 2)]] ++ [[("c", VStr "x")] ++ [("a", VNone)]]))
         ([("d", VBool true)] :: [[("a", VInt 1)]]).
Proof.
  assert (H1 : forall r, In r [[("b", VInt 2)]] -> Dict.get r "a" = None).
  { intros r [<-|[]]. reflexivity. }
  split; [exact H1|]. split; [reflexivity|].
  apply (initial_type_is_first_value Sample.lib SQLITE
           [[("b", VInt 2)]] [("c", VStr "x")] "a" VNone
           [("d", VBool true)] [[("a", VInt 1)]] H1 eq_refl).
Defined.

Section ConflictFacts.
Context {L : PyLib}.

(** The schema of two one-field records, an integer and a float in
    either order: the float type where the backend names its types
    [INTEGER] and [REAL] or gives both one name, the string type on the
    other backends. *)
Lemma int_float_schema db f n x :
  let merged :=
    match db with
    | POSTGRESQL | SQLITE | REDIS => mapping_get db "float" "TEXT"
    | MYSQL | MONGODB => mapping_get db "str" "TEXT"
    end in
  infer_schema db [[(f, VInt n)]; [(f, VFloat x)]] = [(f, merged)]
  /\ infer_schema db [[(f, VFloat x)]; [(f, VInt n)]] = [(f, merged)].
Proof.
  destruct db; unfold infer_schema, schema_from, schema_step; simpl;
    rewrite ?String.eqb_refl; simpl; rewrite ?String.eqb_refl; auto.
Qed.

End ConflictFacts.

(** C3 (the code departs from it). On MySQL and on MongoDB an integer and
    a float met for one field give the string type, in either order, not
    the float type of the backend. *)
Theorem int_float_conflict_gives_string :
  forall (L : PyLib) (x : spec_float),
    mapping_get MYSQL "float" "TEXT" = "DOUBLE"
    /\ infer_schema MYSQL [[("n", VInt 1)]; [("n", VFloat x)]] = [("n", "TEXT")]
    /\ infer_schema MYSQL [[("n", VFloat x)]; [("n", VInt 1)]] = [("n", "TEXT")]
    /\ mapping_get MONGODB "float" "TEXT" = "double"
    /\ infer_schema MONGODB [[("n", VInt 1)]; [("n", VFloat x)]]
       = [("n", "string")]
    /\ infer_schema MONGODB [[("n", VFloat x)]; [("n", VInt 1)]]
       = [("n", "string")].
Proof. intros L x. repeat split. Qed.

(** C10. On every backend and for every target type, [transform_value]
    gives a null back as null. *)
Theorem transform_value_null :
  forall (L : PyLib) (db : DatabaseType) (target_type : option string),
    transform_value db VNone target_type = VNone.
Proof. intros L db target_type. reflexivity. Qed.

(* ================================================================== *)
(** * Properties of the connection factory *)

Section ManagerFacts.
Context {L : PyLib}.

Lemma scheme_database_type_none scheme :
  has_backend_prefix scheme = false <-> scheme_database_type scheme = None.
Proof.
  unfold has_backend_prefix, scheme_database_type. simpl existsb.
  destruct (Str.startswith scheme "postgresql"),
    (Str.startswith scheme "postgres"), (Str.startswith scheme "mysql"),
    (Str.startswith scheme "sqlite"), (Str.startswith scheme "mongodb"),
    (Str.startswith scheme "redis"); simpl; split; congruence.
Qed.

Lemma create_connection_selected cs timeout scheme db :
  urlparse_scheme cs = Ok scheme ->
  scheme_database_type (Str.lower scheme) = Some db ->
  exists c,
    CONNECTION_CLASSES db = Some c
    /\ create_connection cs timeout
       = ([Construct c],
          Ok {| connection_class := c; connection_string := cs;
                connection_timeout := timeout; database_type := db |}).
Proof.
  intros Hs H.
  unfold create_connection, new_connection, _determine_database_type.
  rewrite Hs. simpl. rewrite H.
  destruct db; simpl; eexists; split; reflexivity.
Qed.

End ManagerFacts.

(** C8, as the claim has it, fails: [rediss] is none of the names, and
    the factory answers it with a Redis connection. *)
Lemma prefixed_scheme_accepted :
  urlparse_scheme (PyLib := Sample.lib) "rediss://cache:6380/0" = Ok "rediss"
  /\ Str.lower "rediss" = "rediss"
  /\ recognized_scheme "rediss" = false
  /\ create_connection (L := Sample.lib) "rediss://cache:6380/0" 30
     = ([Construct RedisConnection],
        Ok {| connection_class := RedisConnection;
              connection_string := "rediss://cache:6380/0";
              connection_timeout := 30;
              database_type := REDIS |}).
Proof. repeat split. Qed.

(** C8, amended. Take a connection string that [urlparse] splits.  If
    its lower-cased scheme starts with none of the names, it is refused
    with the unsupported-scheme error and no event: no connection object
    is made.  A scheme that starts with one of them selects a class, and
    two connection strings with the same scheme select the same class. *)
Theorem backend_selected_by_scheme_prefix :
  forall (L : PyLib) (cs : string) (timeout : Z) (scheme : string),
    urlparse_scheme cs = Ok scheme ->
    (has_backend_prefix (Str.lower scheme) = false ->
     create_connection cs timeout
     = ([], Raise (McpError INTERNAL_ERROR
                     ("Unsupported database scheme: " +++ Str.lower scheme))))
    /\ (has_backend_prefix (Str.lower scheme) = true ->
        exists c,
          selected_class (create_connection cs timeout) = Some c
          /\ forall cs' timeout' scheme',
               urlparse_scheme cs' = Ok scheme' ->
               Str.lower scheme' = Str.lower scheme ->
               selected_class (create_connection cs' timeout') = Some c).
Proof.
  intros L cs timeout scheme Hs. split.
  - intros H. apply scheme_database_type_none in H.
    unfold create_connection. rewrite Hs, H. reflexivity.
  - intros H.
    destruct (scheme_database_type (Str.lower scheme)) as [db|] eqn:E.
    + destruct (create_connection_selected cs timeout scheme db Hs E)
        as [c [Hc Hcs]].
      exists c. split; [rewrite Hcs; reflexivity|].
      intros cs' timeout' scheme' Hs' Hsame. rewrite <- Hsame in E.
      destruct (create_connection_selected cs' timeout' scheme' db Hs' E)
        as [c' [Hc' Hcs']].
      rewrite Hcs'. unfold selected_class. simpl. congruence.
    + apply scheme_database_type_none in E. congruence.
Qed.

Lemma backend_selected_by_scheme_prefix_witness :
  (urlparse_scheme (PyLib := Sample.lib) "ftp://host/data" = Ok "ftp"
   /\ has_backend_prefix (Str.lower "ftp") = false
   /\ create_connection (L := Sample.lib) "ftp://host/data" 30
      = ([], Raise (McpError INTERNAL_ERROR "Unsupported database scheme: ftp")))
  /\ (urlparse_scheme (PyLib := Sample.lib) "MongoDB+srv://host/data"
      = Ok "mongodb+srv"
      /\ has_backend_prefix (Str.lower "mongodb+srv") = true
      /\ exists c,
           selected_class
             (create_connection (L := Sample.lib) "MongoDB+srv://host/data" 30)
           = Some c
           /\ forall cs' timeout' scheme',
                urlparse_scheme (PyLib := Sample.lib) cs' = Ok scheme' ->
                Str.lower scheme' = Str.lower "mongodb+srv" ->
                selected_class (create_connection (L := Sample.lib) cs' timeout')
                = Some c).
Proof.
  split.
  - split; [reflexivity|]. split; [reflexivity|].
    apply (proj1 (backend_selected_by_scheme_prefix Sample.lib
                    "ftp://host/data" 30%Z "ftp" eq_refl)).
    reflexivity.
  - split; [reflexivity|]. split; [reflexivity|].
    apply (proj2 (backend_selected_by_scheme_prefix Sample.lib
                    "MongoDB+srv://host/data" 30%Z "mongodb+srv" eq_refl)).
    reflexivity.
Defined.

(* ================================================================== *)
(** * More on the validator *)

Section ValidatorFacts.
Context {L : PyLib}.

Lemma parse_decoded_error data e :
  parse_decoded data = Raise e ->
  exists message, e = McpError INVALID_PARAMS message.
Proof.
  unfold parse_decoded, invalid_params.
  destruct data; try (intros [= <-]; eexists; reflexivity).
  repeat match goal with
    | |- context [if ?c then _ else _] => destruct c
    end;
    try discriminate; intros [= <-]; eexists; reflexivity.
Qed.

Lemma parse_response_error s e :
  parse_jsonrpc_response s = Raise e ->
  (exists message, e = McpError INVALID_PARAMS message)
  \/ uncaught_decoder_exception e.
Proof.
  unfold parse_jsonrpc_response, invalid_params.
  destruct (json_loads (Str.strip s)) as [e'|data] eqn:J.
  - destruct (is_instance e' "JSONDecodeError") eqn:I.
    + intros [= <-]. left. eexists. reflexivity.
    + intros [= <-]. right. split; [exact I|]. exists s. exact J.
  - intros H. left. apply (parse_decoded_error _ _ H).
Qed.

Lemma validate_items_error items :
  forall i acc e,
    validate_items i items acc = Raise e ->
    (exists message, e = McpError INVALID_PARAMS message)
    \/ uncaught_decoder_exception e.
Proof.
  induction items as [|item items IH]; intros i acc e; simpl; [discriminate|].
  destruct (parse_jsonrpc_response (json_dumps item)) as [r|e'] eqn:P.
  - apply IH.
  - destruct e' as [code message|class message].
    + unfold invalid_params. intros [= <-]. left. eexists. reflexivity.
    + intros [= <-]. apply (parse_response_error _ _ P).
Qed.

Lemma validate_batch_error s e :
  validate_jsonrpc_batch s = Raise e ->
  (exists message, e = McpError INVALID_PARAMS message)
  \/ uncaught_decoder_exception e.
Proof.
  unfold validate_jsonrpc_batch. intros H.
  destruct (json_loads (Str.strip s)) as [e'|data] eqn:J.
  - destruct (is_instance e' "JSONDecodeError") eqn:I.
    + injection H as <-. left. eexists. reflexivity.
    + injection H as <-. right. split; [exact I|]. exists s. exact J.
  - assert (Hsingle :
      bind (parse_jsonrpc_response s) (fun response => Ok [response])
      = Raise e ->
      (exists message, e = McpError INVALID_PARAMS message)
      \/ uncaught_decoder_exception e).
    { destruct (parse_jsonrpc_response s) eqn:P; simpl; [discriminate|].
      intros [= <-]. apply (parse_response_error _ _ P). }
    destruct data; auto.
    destruct l; [injection H as <-; left; eexists; reflexivity|].
    apply (validate_items_error _ _ _ _ H).
Qed.

(** An exception of the decoder that is no [JSONDecodeError] leaves both
    entry points as it is. *)
Lemma decoder_exception_passes s e :
  json_loads (Str.strip s) = inl e ->
  is_instance e "JSONDecodeError" = false ->
  parse_jsonrpc_response s = Raise e /\ validate_jsonrpc_batch s = Raise e.
Proof.
  intros J I. unfold parse_jsonrpc_response, validate_jsonrpc_batch.
  rewrite J, I. split; reflexivity.
Qed.

(** The loop over the items, when every item parses. *)
Lemma validate_items_ok items responses :
  Forall2 (fun item r => parse_jsonrpc_response (json_dumps item) = Ok r)
    items responses ->
  forall i acc, validate_items i items acc = Ok (acc ++ responses).
Proof.
  induction 1 as [|item r items responses Hr _ IH]; intros i acc; simpl.
  - rewrite app_nil_r. reflexivity.
  - rewrite Hr, IH, <- app_assoc. reflexivity.
Qed.

(** The loop over the items, when the item after [good] does not parse. *)
Lemma validate_items_bad good responses bad rest code message :
  Forall2 (fun item r => parse_jsonrpc_response (json_dumps item) = Ok r)
    good responses ->
  parse_jsonrpc_response (json_dumps bad) = Raise (McpError code message) ->
  forall i acc,
    validate_items i (good ++ bad :: rest) acc
    = invalid_params
        ("Invalid item at index "
         +++ py_str (VInt (i + Z.of_nat (List.length good)))
         +++ " in batch: " +++ message).
Proof.
  intros Hgood Hbad.
  induction Hgood as [|item r good responses Hr _ IH]; intros i acc.
  - simpl. rewrite Hbad, Z.add_0_r. reflexivity.
  - change (List.length (item :: good)) with (S (List.length good)).
    rewrite Nat2Z.inj_succ.
    replace (i + Z.succ (Z.of_nat (List.length good)))%Z
      with (i + 1 + Z.of_nat (List.length good))%Z by lia.
    cbn [app validate_items]. rewrite Hr. apply IH.
Qed.

End ValidatorFacts.

(** X1. Whatever the validator raises, on a single envelope or on a
    batch, is an [McpError] whose code is [INVALID_PARAMS], or an
    exception of [json.loads] that is not a [JSONDecodeError]; and such
    an exception of [json.loads] on the stripped input leaves both entry
    points as it is. *)
Theorem validator_exceptions :
  forall (L : PyLib) (s : string) (e : exn),
    (parse_jsonrpc_response s = Raise e \/ validate_jsonrpc_batch s = Raise e ->
     (exists message, e = McpError INVALID_PARAMS message)
     \/ uncaught_decoder_exception e)
    /\ (json_loads (Str.strip s) = inl e ->
        is_instance e "JSONDecodeError" = false ->
        parse_jsonrpc_response s = Raise e
        /\ validate_jsonrpc_batch s = Raise e).
Proof.
  intros L s e. split.
  - intros [H|H].
    + apply (parse_response_error _ _ H).
    + apply (validate_batch_error _ _ H).
  - intros J I. apply (decoder_exception_passes _ _ J I).
Qed.

Lemma validator_exceptions_witness :
  ((parse_jsonrpc_response (L := Payloads.lib) Payloads.old_version_text
    = Raise (McpError INVALID_PARAMS
               "Unsupported JSON-RPC version: 1.0. Only 2.0 is supported.")
    \/ validate_jsonrpc_batch (L := Payloads.lib) Payloads.old_version_text
       = Raise (McpError INVALID_PARAMS
                  "Unsupported JSON-RPC version: 1.0. Only 2.0 is supported."))
   /\ ((exists message,
          McpError INVALID_PARAMS
            "Unsupported JSON-RPC version: 1.0. Only 2.0 is supported."
          = McpError INVALID_PARAMS message)
       \/ uncaught_decoder_exception (L := Payloads.lib)
            (McpError INVALID_PARAMS
               "Unsupported JSON-RPC version: 1.0. Only 2.0 is supported.")))
  /\ (json_loads (PyLib := Payloads.lib) (Str.strip Payloads.long_integer_text)
      = inl Payloads.digit_limit_error
      /\ is_instance Payloads.digit_limit_error "JSONDecodeError" = false
      /\ parse_jsonrpc_response (L := Payloads.lib) Payloads.long_integer_text
         = Raise Payloads.digit_limit_error
      /\ validate_jsonrpc_batch (L := Payloads.lib) Payloads.long_integer_text
         = Raise Payloads.digit_limit_error).
Proof.
  assert (H : parse_jsonrpc_response (L := Payloads.lib) Payloads.old_version_text
              = Raise (McpError INVALID_PARAMS
                         "Unsupported JSON-RPC version: 1.0. Only 2.0 is supported."))
    by reflexivity.
  assert (J : json_loads (PyLib := Payloads.lib)
                (Str.strip Payloads.long_integer_text)
              = inl Payloads.digit_limit_error)
    by (vm_compute; reflexivity).
  split.
  - split; [left; exact H|].
    apply (proj1 (validator_exceptions Payloads.lib
                    Payloads.old_version_text _) (or_introl H)).
  - split; [exact J|]. split; [reflexivity|].
    apply (proj2 (validator_exceptions Payloads.lib
                    Payloads.long_integer_text _) J eq_refl).
Defined.

(** X2. An envelope that the validator accepts came from a JSON object
    with version ["2.0"], holds that object's members ([None] for a
    missing one), and is of one of two shapes: the object has an [id] and
    exactly one of its result and error is not null, or it has no [id],
    has a [method], and has neither [result] nor [error]. *)
Theorem validated_envelope_shape :
  forall (L : PyLib) (s : string) (r : JsonRpcResponse),
    parse_jsonrpc_response s = Ok r ->
    exists d,
      json_loads (Str.strip s) = inr (VDict d)
      /\ r = {| jsonrpc := VStr "2.0"; id := get_or_none d "id";
                result := get_or_none d "result";
                error := get_or_none d "error";
                method := get_or_none d "method";
                params := get_or_none d "params" |}
      /\ ((Dict.mem d "id" = true
           /\ is_none (result r) = negb (is_none (error r)))
          \/ (Dict.mem d "id" = false /\ Dict.mem d "method" = true
              /\ Dict.mem d "result" = false /\ Dict.mem d "error" = false)).
Proof.
  intros L s r H.
  destruct (parse_response_decoded _ _ H) as [data [Hloads Hdec]].
  destruct (parse_decoded_inv _ _ Hdec) as [d [-> [Hr Hshape]]].
  exists d. split; [exact Hloads|]. split; [exact Hr|].
  destruct Hshape as [Hid|[Hid [Hm _]]]; [left; exact Hid|].
  right. split; [exact Hid|]. split; [exact Hm|].
  revert Hdec. unfold parse_decoded, invalid_params.
  destruct (differs_from_str (get_or_none d "jsonrpc") "2.0"); [discriminate|].
  rewrite Hid, Hm.
  destruct (Dict.mem d "result"), (Dict.mem d "error"); simpl;
    try discriminate; auto.
Qed.

Lemma validated_envelope_shape_witness :
  parse_jsonrpc_response (L := Payloads.lib) Payloads.error_text
  = Ok Payloads.error_response
  /\ exists d,
       json_loads (PyLib := Payloads.lib) (Str.strip Payloads.error_text)
       = inr (VDict d)
       /\ Payloads.error_response
          = {| jsonrpc := VStr "2.0"; id := get_or_none d "id";
               result := get_or_none d "result";
               error := get_or_none d "error";
               method := get_or_none d "method";
               params := get_or_none d "params" |}
       /\ ((Dict.mem d "id" = true
            /\ is_none (result Payloads.error_response)
               = negb (is_none (error Payloads.error_response)))
           \/ (Dict.mem d "id" = false /\ Dict.mem d "method" = true
               /\ Dict.mem d "result" = false /\ Dict.mem d "error" = false)).
Proof.
  split; [reflexivity|].
  apply (validated_envelope_shape Payloads.lib Payloads.error_text).
  reflexivity.
Defined.

(** X3. A batch whose items all pass yields their envelopes, one per
    item and in the order of the items. *)
Theorem batch_of_valid_items :
  forall (L : PyLib) (s : string) (items : list value)
         (responses : list JsonRpcResponse),
    json_loads (Str.strip s) = inr (VList items) ->
    items <> [] ->
    Forall2 (fun item r => parse_jsonrpc_response (json_dumps item) = Ok r)
      items responses ->
    validate_jsonrpc_batch s = Ok responses
    /\ List.length responses = List.length items.
Proof.
  intros L s items responses Hloads Hne Hall.
  split; [|symmetry; apply (Forall2_length Hall)].
  unfold validate_jsonrpc_batch. rewrite Hloads.
  destruct items as [|item items]; [congruence|].
  apply (validate_items_ok _ _ Hall 0%Z []).
Qed.

Lemma batch_of_valid_items_witness :
  json_loads (PyLib := Payloads.lib) (Str.strip Payloads.batch_text)
  = inr (VList [Payloads.mapping_item; Payloads.error_item])
  /\ [Payloads.mapping_item; Payloads.error_item] <> []
  /\ Forall2
       (fun item r =>
          parse_jsonrpc_response (L := Payloads.lib)
            (json_dumps (PyLib := Payloads.lib) item) = Ok r)
       [Payloads.mapping_item; Payloads.error_item]
       [Payloads.mapping_response; Payloads.error_response]
  /\ validate_jsonrpc_batch (L := Payloads.lib) Payloads.batch_text
     = Ok [Payloads.mapping_response; Payloads.error_response]
  /\ List.length [Payloads.mapping_response; Payloads.error_response]
     = List.length [Payloads.mapping_item; Payloads.error_item].
Proof.
  assert (H2 : Forall2
       (fun item r =>
          parse_jsonrpc_response (L := Payloads.lib)
            (json_dumps (PyLib := Payloads.lib) item) = Ok r)
       [Payloads.mapping_item; Payloads.error_item]
       [Payloads.mapping_response; Payloads.error_response])
    by (repeat constructor).
  split; [reflexivity|]. split; [discriminate|]. split; [exact H2|].
  apply (batch_of_valid_items Payloads.lib Payloads.batch_text
           [Payloads.mapping_item; Payloads.error_item]
           [Payloads.mapping_response; Payloads.error_response]
           eq_refl);
    [discriminate | exact H2].
Defined.

(** X4. The first item of a batch that does not pass aborts the batch:
    the error names the 0-based index of that item and carries the item's
    own message; the items after it are not looked at. *)
Theorem batch_reports_first_invalid_item :
  forall (L : PyLib) (s : string) (good : list value)
         (responses : list JsonRpcResponse) (bad : value) (rest : list value)
         (code : Z) (message : string),
    json_loads (Str.strip s) = inr (VList (good ++ bad :: rest)) ->
    Forall2 (fun item r => parse_jsonrpc_response (json_dumps item) = Ok r)
      good responses ->
    parse_jsonrpc_response (json_dumps bad) = Raise (McpError code message) ->
    validate_jsonrpc_batch s
    = Raise (McpError INVALID_PARAMS
               ("Invalid item at index "
                +++ py_str (VInt (Z.of_nat (List.length good)))
                +++ " in batch: " +++ message)).
Proof.
  intros L s good responses bad rest code message Hloads Hgood Hbad.
  unfold validate_jsonrpc_batch. rewrite Hloads.
  destruct (good ++ bad :: rest) eqn:E;
    [destruct good; discriminate|].
  rewrite <- E.
  apply (validate_items_bad _ _ _ rest _ _ Hgood Hbad 0%Z []).
Qed.

Lemma batch_reports_first_invalid_item_witness :
  json_loads (PyLib := Payloads.lib) (Str.strip Payloads.bad_batch_text)
  = inr (VList ([Payloads.mapping_item] ++ Payloads.old_version_item :: []))
  /\ Forall2
       (fun item r =>
          parse_jsonrpc_response (L := Payloads.lib)
            (json_dumps (PyLib := Payloads.lib) item) = Ok r)
       [Payloads.mapping_item] [Payloads.mapping_response]
  /\ parse_jsonrpc_response (L := Payloads.lib)
       (json_dumps (PyLib := Payloads.lib) Payloads.old_version_item)
     = Raise (McpError INVALID_PARAMS
                "Unsupported JSON-RPC version: 1.0. Only 2.0 is supported.")
  /\ validate_jsonrpc_batch (L := Payloads.lib) Payloads.bad_batch_text
     = Raise (McpError INVALID_PARAMS
                ("Invalid item at index "
                 +++ py_str (PyLib := Payloads.lib)
                       (VInt (Z.of_nat (List.length [Payloads.mapping_item])))
                 +++ " in batch: "
                 +++ "Unsupported JSON-RPC version: 1.0. Only 2.0 is supported.")).
Proof.
  assert (H2 : Forall2
       (fun item r =>
          parse_jsonrpc_response (L := Payloads.lib)
            (json_dumps (PyLib := Payloads.lib) item) = Ok r)
       [Payloads.mapping_item] [Payloads.mapping_response])
    by (repeat constructor).
  split; [reflexivity|]. split; [exact H2|]. split; [reflexivity|].
  apply (batch_reports_first_invalid_item Payloads.lib Payloads.bad_batch_text
           [Payloads.mapping_item] [Payloads.mapping_response]
           Payloads.old_version_item [] INVALID_PARAMS _ eq_refl H2 eq_refl).
Defined.

(* ================================================================== *)
(** * More on the extractor *)

Section ExtractorShapes.
Context {L : PyLib}.

Lemma error_member_dict d k : error_member (VDict d) k = Ok (get_or_none d k).
Proof. destruct d; reflexivity. Qed.

Lemma validated_version s r :
  parse_jsonrpc_response s = Ok r -> jsonrpc r = VStr "2.0".
Proof.
  intros H. destruct (parse_response_decoded _ _ H) as [data [_ Hdec]].
  destruct (parse_decoded_inv _ _ Hdec) as [d [_ [-> _]]]. reflexivity.
Qed.

Lemma validated_not_error s r :
  parse_jsonrpc_response s = Ok r -> is_none (result r) = false ->
  is_error r = false.
Proof.
  intros H Hres. destruct (parse_response_decoded _ _ H) as [data [_ Hdec]].
  apply (validated_result_no_error _ _ Hdec Hres).
Qed.

End ExtractorShapes.

(** X5. A validated envelope whose error is a mapping yields exactly one
    record: the id, the version, the [code], [message] and [data] of the
    mapping ([None] for a missing one) and the flag [is_error]. *)
Theorem error_envelope_record :
  forall (L : PyLib) (s : string) (r : JsonRpcResponse) (d : dict),
    parse_jsonrpc_response s = Ok r ->
    error r = VDict d ->
    extract_data_from_jsonrpc r
    = Ok [[("jsonrpc_id", id r); ("jsonrpc_version", VStr "2.0");
           ("error_code", get_or_none d "code");
           ("error_message", get_or_none d "message");
           ("error_data", get_or_none d "data");
           ("is_error", VBool true)]].
Proof.
  intros L s r d Hparse Herr.
  unfold extract_data_from_jsonrpc, is_error.
  rewrite Herr, !error_member_dict, (validated_version _ _ Hparse).
  reflexivity.
Qed.

Lemma error_envelope_record_witness :
  parse_jsonrpc_response (L := Payloads.lib) Payloads.error_text
  = Ok Payloads.error_response
  /\ error Payloads.error_response
     = VDict [("code", VInt (-32600)); ("message", VStr "Invalid Request")]
  /\ extract_data_from_jsonrpc Payloads.error_response
     = Ok [[("jsonrpc_id", id Payloads.error_response);
            ("jsonrpc_version", VStr "2.0");
            ("error_code",
             get_or_none
               [("code", VInt (-32600)); ("message", VStr "Invalid Request")]
               "code");
            ("error_message",
             get_or_none
               [("code", VInt (-32600)); ("message", VStr "Invalid Request")]
               "message");
            ("error_data",
             get_or_none
               [("code", VInt (-32600)); ("message", VStr "Invalid Request")]
               "data");
            ("is_error", VBool true)]].
Proof.
  split; [reflexivity|]. split; [reflexivity|].
  apply (error_envelope_record Payloads.lib Payloads.error_text
           Payloads.error_response _ eq_refl eq_refl).
Defined.

(** X6. A validated envelope that is not a notification and whose result
    is a mapping yields exactly one record.  It holds the id, the version
    and [is_success] = true, also where the mapping has fields of these
    names; every other field of the record is the mapping's, and every
    field of the mapping is in the record. *)
Theorem mapping_result_record :
  forall (L : PyLib) (s : string) (r : JsonRpcResponse) (d : dict),
    parse_jsonrpc_response s = Ok r ->
    result r = VDict d ->
    is_notification r = false ->
    exists record,
      extract_data_from_jsonrpc r = Ok [record]
      /\ Dict.get record "jsonrpc_id" = Some (id r)
      /\ Dict.get record "jsonrpc_version" = Some (VStr "2.0")
      /\ Dict.get record "is_success" = Some (VBool true)
      /\ (forall k,
             ~ In k ["jsonrpc_id"; "jsonrpc_version"; "is_success"] ->
             Dict.get record k = Dict.get d k)
      /\ (forall k, Dict.mem d k = true -> Dict.mem record k = true).
Proof.
  intros L s r d Hparse Hres Hnot.
  assert (Hnn : is_none (result r) = false) by (rewrite Hres; reflexivity).
  pose proof (validated_not_error _ _ Hparse Hnn) as Herr.
  pose proof (validated_version _ _ Hparse) as Hver.
  eexists. split.
  - unfold extract_data_from_jsonrpc. rewrite Herr, Hnot, Hres. reflexivity.
  - unfold Dict.update. simpl fold_left. rewrite Hver.
    repeat split; try (rewrite !get_set; reflexivity).
    + intros k Hk. rewrite !get_set.
      repeat match goal with
        | |- context [(?lit =? k)] =>
            destruct (String.eqb_spec lit k);
            [exfalso; apply Hk; subst k; simpl; tauto|]
        end.
      reflexivity.
    + intros k Hk. unfold Dict.mem in *. rewrite !get_set.
      destruct ("is_success" =? k); [reflexivity|].
      destruct ("jsonrpc_version" =? k); [reflexivity|].
      destruct ("jsonrpc_id" =? k); [reflexivity | exact Hk].
Qed.

Lemma mapping_result_record_witness :
  parse_jsonrpc_response (L := Payloads.lib) Payloads.mapping_text
  = Ok Payloads.mapping_response
  /\ result Payloads.mapping_response
     = VDict [("name", VStr "Ann"); ("is_success", VBool false)]
  /\ is_notification Payloads.mapping_response = false
  /\ exists record,
       extract_data_from_jsonrpc Payloads.mapping_response = Ok [record]
       /\ Dict.get record "jsonrpc_id" = Some (id Payloads.mapping_response)
       /\ Dict.get record "jsonrpc_version" = Some (VStr "2.0")
       /\ Dict.get record "is_success" = Some (VBool true)
       /\ (forall k,
              ~ In k ["jsonrpc_id"; "jsonrpc_version"; "is_success"] ->
              Dict.get record k
              = Dict.get [("name", VStr "Ann"); ("is_success", VBool false)] k)
       /\ (forall k,
              Dict.mem [("name", VStr "Ann"); ("is_success", VBool false)] k
              = true ->
              Dict.mem record k = true).
Proof.
  repeat (split; [reflexivity|]).
  apply (mapping_result_record Payloads.lib Payloads.mapping_text
           Payloads.mapping_response _ eq_refl eq_refl eq_refl).
Defined.

(** X7. How many records an envelope yields, its error member being
    null or a mapping: as many as the result has elements for a success
    with a sequence result, one in every other case. *)
Theorem extracted_record_count :
  forall r : JsonRpcResponse,
    (error r = VNone \/ exists d, error r = VDict d) ->
    exists records,
      extract_data_from_jsonrpc r = Ok records
      /\ List.length records
         = if is_error r || is_notification r then 1%nat
           else match result r with
                | VList items => List.length items
                | _ => 1%nat
                end.
Proof.
  intros r Herr. unfold extract_data_from_jsonrpc.
  destruct (is_error r) eqn:E; simpl.
  - destruct Herr as [H|[d H]]; [unfold is_error in E; rewrite H in E; discriminate|].
    rewrite H, !error_member_dict. simpl. eexists. split; reflexivity.
  - destruct (is_notification r); [eexists; split; reflexivity|].
    destruct (result r); try (eexists; split; reflexivity).
    eexists. split; [reflexivity|]. apply extract_items_length.
Qed.

Lemma extracted_record_count_witness :
  (error (Sample.response (VList [VInt 7; VDict []])) = VNone
   \/ exists d, error (Sample.response (VList [VInt 7; VDict []])) = VDict d)
  /\ exists records,
       extract_data_from_jsonrpc (Sample.response (VList [VInt 7; VDict []]))
       = Ok records
       /\ List.length records = 2%nat.
Proof.
  split; [left; reflexivity|].
  apply (extracted_record_count (Sample.response (VList [VInt 7; VDict []]))
           (or_introl eq_refl)).
Defined.

(* ================================================================== *)
(** * Prepared records *)

Section PrepareFacts.
Context {L : PyLib}.

(** A field as a table can take it: an identifier of at most 63
    characters with a value that is neither a mapping nor a sequence. *)
Lemma flat_pair_column kv :
  flat_pair kv ->
  matches_identifier (fst kv) = true
  /\ (String.length (fst kv) <= 63)%nat
  /\ is_dict (snd kv) = false /\ is_list (snd kv) = false.
Proof.
  intros [Hk [Hd Hl]]. rewrite <- Hk.
  destruct (sanitize_shape (fst kv)). auto.
Qed.

Lemma sanitized_pair_flat k v :
  is_dict v = false -> is_list v = false ->
  flat_pair (sanitize_field_name k, v).
Proof. intros Hd Hl. split; [apply sanitize_twice | auto]. Qed.

Lemma prepare_record_flat flag record :
  NoDup (Dict.keys (prepare_record flag record))
  /\ Forall flat_pair (prepare_record flag record).
Proof.
  unfold prepare_record. destruct flag.
  - split; [apply of_items_nodup | apply flatten_nested_dict_flat].
  - assert (H : forall acc : dict,
               NoDup (Dict.keys acc) /\ Forall flat_pair acc ->
               NoDup (Dict.keys
                        (fold_left
                           (fun sanitized kv =>
                              let clean_key := sanitize_field_name (fst kv) in
                              if is_dict (snd kv) || is_list (snd kv)
                              then Dict.set sanitized clean_key
                                     (VStr (json_dumps (snd kv)))
                              else Dict.set sanitized clean_key (snd kv))
                           record acc))
               /\ Forall flat_pair
                    (fold_left
                       (fun sanitized kv =>
                          let clean_key := sanitize_field_name (fst kv) in
                          if is_dict (snd kv) || is_list (snd kv)
                          then Dict.set sanitized clean_key
                                 (VStr (json_dumps (snd kv)))
                          else Dict.set sanitized clean_key (snd kv))
                       record acc)).
    { induction record as [|[k v] record IH]; intros acc [Hn Hf]; simpl;
        [auto|].
      apply IH.
      destruct (is_dict v || is_list v) eqn:E.
      - split; [apply set_nodup, Hn|].
        apply set_forall; [apply sanitized_pair_flat; reflexivity | exact Hf].
      - apply orb_false_iff in E as [Hd Hl].
        split; [apply set_nodup, Hn|].
        apply set_forall; [apply sanitized_pair_flat; assumption | exact Hf]. }
    apply H. split; constructor.
Qed.

End PrepareFacts.

(** X8. [prepare_records_for_db] keeps the number of records, and with
    or without flattening every prepared record has distinct keys, each
    an identifier of at most 63 characters, and no value that is a
    mapping or a sequence. *)
Theorem prepared_records_are_flat :
  forall (L : PyLib) (records : list dict) (flatten_flag : bool),
    List.length (prepare_records_for_db records flatten_flag)
    = List.length records
    /\ Forall
         (fun record =>
            NoDup (Dict.keys record)
            /\ Forall
                 (fun kv =>
                    matches_identifier (fst kv) = true
                    /\ (String.length (fst kv) <= 63)%nat
                    /\ is_dict (snd kv) = false /\ is_list (snd kv) = false)
                 record)
         (prepare_records_for_db records flatten_flag).
Proof.
  intros L records flag. unfold prepare_records_for_db.
  split; [apply length_map|].
  apply Forall_map, Forall_forall. intros record _.
  destruct (prepare_record_flat flag record) as [Hn Hf].
  split; [exact Hn|].
  eapply Forall_impl; [|exact Hf]. apply flat_pair_column.
Qed.

Section CollisionFacts.
Context {L : PyLib}.

Lemma flatten_entry_not_mapping v key sep :
  is_dict v = false -> flatten_entry v key sep = [(key, flattened_value v)].
Proof. destruct v; simpl; intros; try reflexivity; discriminate. Qed.

(** [update] over the items of a record with no mapping value: the last
    field of a name wins, and a name with no field keeps what it had. *)
Lemma get_update_fields (record : dict) :
  Forall (fun kv => is_dict (snd kv) = false) record ->
  forall (acc : dict) name,
    Dict.get
      (Dict.update acc
         (flat_map
            (fun kv => flatten_entry (snd kv) (new_key_of "" "_" (fst kv)) "_")
            record))
      name
    = match last_field_named record name with
      | Some v => Some v
      | None => Dict.get acc name
      end.
Proof.
  induction 1 as [|[k v] record Hd _ IH]; intros acc name; [reflexivity|].
  simpl in Hd. cbn [flat_map fst snd last_field_named].
  rewrite (flatten_entry_not_mapping v _ _ Hd).
  change (new_key_of "" "_" k) with (sanitize_field_name k).
  unfold Dict.update in *. cbn [app fold_left fst snd].
  rewrite IH. destruct (last_field_named record name); [reflexivity|].
  rewrite get_set. destruct (sanitize_field_name k =? name); reflexivity.
Qed.

End CollisionFacts.

(** X9. In a record none of whose values is a mapping, the fields whose
    names sanitize to one name become one field of the flattened record,
    which holds the value of the last of them (a sequence as its JSON
    text); the values of the earlier ones are lost.  A name to which no
    field sanitizes is not in the flattened record. *)
Theorem flatten_merges_colliding_keys :
  forall (L : PyLib) (record : dict),
    Forall (fun kv => is_dict (snd kv) = false) record ->
    NoDup (Dict.keys (flatten record))
    /\ forall name,
         Dict.get (flatten record) name = last_field_named record name.
Proof.
  intros L record H. split.
  - unfold flatten, flatten_nested_dict. apply of_items_nodup.
  - intros name. unfold flatten, flatten_nested_dict, Dict.of_items.
    rewrite (get_update_fields record H [] name).
    destruct (last_field_named record name); reflexivity.
Qed.

Lemma flatten_merges_colliding_keys_witness :
  Forall (fun kv => is_dict (snd kv) = false)
    [("user name", VInt 1); ("age", VInt 30); ("user-name", VStr "x")]
  /\ flatten (L := Sample.lib)
       [("user name", VInt 1); ("age", VInt 30); ("user-name", VStr "x")]
     = [("user_name", VStr "x"); ("age", VInt 30)]
  /\ NoDup
       (Dict.keys
          (flatten (L := Sample.lib)
             [("user name", VInt 1); ("age", VInt 30);
              ("user-name", VStr "x")]))
  /\ forall name,
       Dict.get
         (flatten (L := Sample.lib)
            [("user name", VInt 1); ("age", VInt 30);
             ("user-name", VStr "x")])
         name
       = last_field_named (L := Sample.lib)
           [("user name", VInt 1); ("age", VInt 30);
            ("user-name", VStr "x")]
           name.
Proof.
  assert (H : Forall (fun kv => is_dict (snd kv) = false)
                [("user name", VInt 1); ("age", VInt 30);
                 ("user-name", VStr "x")])
    by (repeat constructor).
  split; [exact H|]. split; [reflexivity|].
  apply (flatten_merges_colliding_keys Sample.lib _ H).
Defined.

(* ================================================================== *)
(** * Values after transformation *)

Section TransformFacts.
Context {L : PyLib}.

Lemma redis_hash_values (d : dict) :
  Forall (fun kv => exists s, snd kv = VStr s)
    (Dict.of_items (map (fun kv => (fst kv, VStr (py_str (snd kv)))) d)).
Proof.
  apply of_items_forall, Forall_map, Forall_forall.
  intros kv _. simpl. eexists. reflexivity.
Qed.

End TransformFacts.

(** X10. On the key-value backend [transform_value] turns every value
    that is not null into text, except a mapping under the target type
    [hash], which becomes a mapping of texts.  With no target type given,
    as in [transform_records] and in the Redis insert, the result is
    always null or text. *)
Theorem redis_values_are_text :
  forall (L : PyLib) (v : value) (target_type : option string),
    match transform_value REDIS v target_type with
    | VNone => v = VNone
    | VStr _ => True
    | VDict d =>
        is_dict v = true /\ target_type = Some "hash"
        /\ Forall (fun kv => exists s, snd kv = VStr s) d
    | _ => False
    end
    /\ (transform_value REDIS v None = VNone
        \/ exists s, transform_value REDIS v None = VStr s).
Proof.
  intros L v target_type. split.
  - destruct v; simpl; auto; try (destruct b; exact I).
    destruct target_type as [t|]; simpl; [|exact I].
    destruct (String.eqb_spec t "hash") as [->|N]; [|exact I].
    split; [reflexivity|]. split; [reflexivity|]. apply redis_hash_values.
  - destruct v; simpl; eauto. destruct b; eauto.
Qed.

(** X11. What the other backends never store.  The embedded backend
    gets no boolean, mapping, sequence, datetime, date, time, UUID or
    decimal object; the general relational backends get no mapping,
    sequence or UUID object; the document backend gets no UUID, time or
    decimal object. *)
Theorem transformed_value_kinds :
  forall (L : PyLib) (v : value) (target_type : option string),
    match transform_value SQLITE v target_type with
    | VBool _ | VDict _ | VList _ | VDatetime _ | VDate _ | VTime _
    | VUuid _ | VDecimal _ _ => False
    | _ => True
    end
    /\ (forall db, db = POSTGRESQL \/ db = MYSQL ->
          match transform_value db v target_type with
          | VDict _ | VList _ | VUuid _ => False
          | _ => True
          end)
    /\ match transform_value MONGODB v target_type with
       | VUuid _ | VTime _ | VDecimal _ _ => False
       | _ => True
       end.
Proof.
  intros L v target_type. repeat split.
  - destruct v; simpl; auto. destruct b; exact I.
  - intros db [-> | ->]; destruct v; simpl; exact I.
  - destruct v; simpl; exact I.
Qed.

(** X12. On every backend but the key-value one, transforming a
    transformed value changes nothing. *)
Theorem transform_value_idempotent :
  forall (L : PyLib) (db : DatabaseType) (v : value)
         (target_type target_type' : option string),
    db <> REDIS ->
    transform_value db (transform_value db v target_type) target_type'
    = transform_value db v target_type.
Proof.
  intros L db v t t' Hdb.
  destruct db; try congruence; destruct v; simpl; try reflexivity;
    destruct b; reflexivity.
Qed.

Lemma transform_value_idempotent_witness :
  SQLITE <> REDIS
  /\ transform_value (L := Sample.lib) SQLITE
       (transform_value (L := Sample.lib) SQLITE (VBool true) None)
       (Some "INTEGER")
     = transform_value (L := Sample.lib) SQLITE (VBool true) None.
Proof.
  assert (H : SQLITE <> REDIS) by discriminate.
  split; [exact H|].
  apply (transform_value_idempotent Sample.lib SQLITE (VBool true) None
           (Some "INTEGER") H).
Defined.

(* ================================================================== *)
(** * UUID fields and timestamps *)

Section StampFacts.
Variable clock : Clock.

Lemma add_uuid_fields_fold record fields s :
  add_uuid_fields clock record fields s = fold_left (uuid_step clock) fields (record, s).
Proof. reflexivity. Qed.

Lemma uuid_step_field st f :
  exists v, Dict.get (fst ((uuid_step clock) st f)) f = Some v /\ is_none v = false.
Proof.
  destruct st as [r [u c]]. unfold uuid_step, Dict.mem, get_or_none.
  destruct (Dict.get r f) as [v|] eqn:G; simpl.
  - destruct (is_none v) eqn:N; simpl.
    + rewrite get_set, String.eqb_refl. eauto.
    + rewrite G. eauto.
  - rewrite get_set, String.eqb_refl. eauto.
Qed.

Lemma uuid_step_keeps st f k v :
  Dict.get (fst st) k = Some v -> is_none v = false ->
  Dict.get (fst ((uuid_step clock) st f)) k = Some v.
Proof.
  destruct st as [r [u c]]. simpl. intros G N.
  unfold uuid_step, Dict.mem, get_or_none.
  destruct (Dict.get r f) as [w|] eqn:Gf; simpl.
  - destruct (is_none w) eqn:Nw; simpl; [|exact G].
    rewrite get_set. destruct (String.eqb_spec f k) as [->|_]; [|exact G].
    congruence.
  - rewrite get_set. destruct (String.eqb_spec f k) as [->|_]; [|exact G].
    congruence.
Qed.

Lemma uuid_step_other st f k :
  k <> f -> Dict.get (fst ((uuid_step clock) st f)) k = Dict.get (fst st) k.
Proof.
  destruct st as [r [u c]]. simpl. intros Hk.
  assert (E : (f =? k) = false) by (apply String.eqb_neq; congruence).
  unfold uuid_step.
  destruct (negb (Dict.mem r f) || is_none (get_or_none r f)); simpl;
    [rewrite get_set, E|]; reflexivity.
Qed.

Lemma uuid_fold_spec fields :
  forall st,
    (forall f, In f fields ->
       exists v, Dict.get (fst (fold_left (uuid_step clock) fields st)) f = Some v
                 /\ is_none v = false)
    /\ (forall k v, Dict.get (fst st) k = Some v -> is_none v = false ->
          Dict.get (fst (fold_left (uuid_step clock) fields st)) k = Some v)
    /\ (forall k, ~ In k fields ->
          Dict.get (fst (fold_left (uuid_step clock) fields st)) k = Dict.get (fst st) k).
Proof.
  induction fields as [|f fields IH]; intros st; simpl.
  - repeat split; auto. intros f [].
  - destruct (IH ((uuid_step clock) st f)) as [Ha [Hb Hc]]. repeat split.
    + intros f' [<-|Hin]; [|apply Ha, Hin].
      destruct (uuid_step_field st f) as [v [G N]].
      exists v. split; [apply Hb; assumption | exact N].
    + intros k v G N. apply Hb; [apply uuid_step_keeps; assumption | exact N].
    + intros k Hk. rewrite Hc by tauto. apply uuid_step_other.
      intros ->. apply Hk. left. reflexivity.
Qed.

End StampFacts.

(** X13. After [add_uuid_fields] every named field holds a value that
    is not null; a field that held one keeps it, and a field that is not
    named is as it was. *)
Theorem add_uuid_fields_fills_missing :
  forall (clock : Clock) (record : dict) (uuid_fields : list string)
         (s : ticks),
    (forall f, In f uuid_fields ->
       exists v,
         Dict.get (fst (add_uuid_fields clock record uuid_fields s)) f = Some v
         /\ is_none v = false)
    /\ (forall k v, Dict.get record k = Some v -> is_none v = false ->
          Dict.get (fst (add_uuid_fields clock record uuid_fields s)) k
          = Some v)
    /\ (forall k, ~ In k uuid_fields ->
          Dict.get (fst (add_uuid_fields clock record uuid_fields s)) k
          = Dict.get record k).
Proof.
  intros clock record fields s. rewrite add_uuid_fields_fold.
  apply (uuid_fold_spec clock fields (record, s)).
Qed.

(** X14. [add_timestamps] sets [updated_at] to the instant it reads,
    keeps a [created_at] that the record has (a null one too) and sets it
    to the same instant otherwise, leaves every other field alone, and
    reads the clock once. *)
Theorem add_timestamps_sets_updated_at :
  forall (clock : Clock) (record : dict) (u c : nat),
    Dict.get (fst (add_timestamps clock record (u, c))) "updated_at"
    = Some (VDatetime (utcnow clock c))
    /\ Dict.get (fst (add_timestamps clock record (u, c))) "created_at"
       = match Dict.get record "created_at" with
         | Some v => Some v
         | None => Some (VDatetime (utcnow clock c))
         end
    /\ (forall k, k <> "created_at" -> k <> "updated_at" ->
          Dict.get (fst (add_timestamps clock record (u, c))) k
          = Dict.get record k)
    /\ snd (add_timestamps clock record (u, c)) = (u, S c).
Proof.
  intros clock record u c. unfold add_timestamps, Dict.mem. simpl.
  destruct (Dict.get record "created_at") as [v|] eqn:G; simpl;
    repeat split; rewrite ?get_set; simpl; auto;
    intros k H1 H2;
    apply not_eq_sym, String.eqb_neq in H1;
    apply not_eq_sym, String.eqb_neq in H2;
    rewrite ?get_set, ?H1, ?H2; reflexivity.
Qed.

Section TransformRecordsFacts.
Context {L : PyLib}.
Variable db : DatabaseType.
Variable clock : Clock.

Lemma set_mem_mono (V : Type) (d : Dict.t V) k k' v :
  Dict.mem d k = true -> Dict.mem (Dict.set d k' v) k = true.
Proof.
  unfold Dict.mem. rewrite get_set. destruct (k' =? k); auto.
Qed.

Lemma set_mem_same (V : Type) (d : Dict.t V) k v :
  Dict.mem (Dict.set d k v) k = true.
Proof. unfold Dict.mem. rewrite get_set, String.eqb_refl. reflexivity. Qed.

Lemma get_mem (V : Type) (d : Dict.t V) k v :
  Dict.get d k = Some v -> Dict.mem d k = true.
Proof. unfold Dict.mem. intros ->. reflexivity. Qed.

(** The last loop of [transform_record] keeps the keys. *)
Lemma final_record_mem (g : value -> value) (r : dict) k :
  forall acc : dict,
    Dict.mem acc k = true \/ Dict.mem r k = true ->
    Dict.mem
      (fold_left (fun final_record kv => Dict.set final_record (fst kv) (g (snd kv)))
         r acc) k = true.
Proof.
  induction r as [|[k' v'] r IH]; intros acc H; simpl.
  - destruct H as [H|H]; [exact H | discriminate].
  - apply IH. destruct H as [H|H].
    + left. apply set_mem_mono, H.
    + unfold Dict.mem in H. simpl in H.
      destruct (String.eqb_spec k' k) as [->|_].
      * left. apply set_mem_same.
      * right. exact H.
Qed.

Lemma add_timestamps_mem record s k :
  k = "created_at" \/ k = "updated_at" \/ Dict.mem record k = true ->
  Dict.mem (fst (add_timestamps clock record s)) k = true.
Proof.
  destruct s as [u c]. unfold add_timestamps. simpl.
  intros [-> | [-> | H]].
  - apply set_mem_mono.
    destruct (Dict.mem record "created_at") eqn:M; simpl;
      [exact M | apply set_mem_same].
  - apply set_mem_same.
  - apply set_mem_mono.
    destruct (negb (Dict.mem record "created_at"));
      [apply set_mem_mono|]; exact H.
Qed.

Lemma transform_record_mem uuid_fields flag record s k :
  (flag = true /\ (k = "created_at" \/ k = "updated_at"))
  \/ (exists fields, uuid_fields = Some fields /\ In k fields)
  \/ Dict.mem record k = true ->
  Dict.mem (fst (transform_record db clock uuid_fields flag record s)) k = true.
Proof.
  intros H. unfold transform_record.
  match goal with
  | |- context [let '(_, _) := ?x in _] => destruct x as [r1 s1] eqn:E1
  end.
  assert (H1 : (flag = true /\ (k = "created_at" \/ k = "updated_at"))
               \/ Dict.mem r1 k = true).
  { destruct H as [H|[[fields [-> Hin]]|H]]; [left; exact H| |].
    - right. destruct fields as [|f fs]; [destruct Hin|].
      rewrite add_uuid_fields_fold in E1.
      destruct (uuid_fold_spec clock (f :: fs) (record, s)) as [Ha _].
      destruct (Ha k Hin) as [v [G _]]. unfold dict in *. rewrite E1 in G.
      apply (get_mem _ _ _ _ G).
    - right. destruct uuid_fields as [[|f fs]|];
        try (injection E1 as <- _; exact H).
      rewrite add_uuid_fields_fold in E1.
      destruct (uuid_fold_spec clock (f :: fs) (record, s)) as [_ [Hb Hc]].
      unfold dict in *. rewrite E1 in Hb, Hc. simpl in Hb, Hc.
      unfold Dict.mem in *.
      destruct (Dict.get record k) as [v|] eqn:G; [|discriminate].
      destruct (in_dec string_dec k (f :: fs)) as [Hin|Hnin].
      + destruct (uuid_fold_spec clock (f :: fs) (record, s)) as [Ha _].
        destruct (Ha k Hin) as [w [Gw _]]. unfold dict in *.
        rewrite E1 in Gw. simpl in Gw.
        rewrite Gw. reflexivity.
      + rewrite (Hc k Hnin), G. reflexivity. }
  match goal with
  | |- context [let '(_, _) := ?x in _] => destruct x as [r2 s2] eqn:E2
  end.
  simpl. apply (final_record_mem (fun v => transform_value db v None)). right.
  destruct flag.
  - pose proof (add_timestamps_mem r1 s1 k) as Ht. rewrite E2 in Ht.
    apply Ht. destruct H1 as [[_ [->| ->]]|H1]; auto.
  - injection E2 as <- _. destruct H1 as [[? _]|H1]; [discriminate | exact H1].
Qed.

Lemma transform_records_fold (Q : dict -> Prop) uuid_fields flag :
  (forall record s, Q (fst (transform_record db clock uuid_fields flag record s))) ->
  forall records acc s,
    Forall Q acc ->
    Forall Q (fst (fold_left
                     (fun st record =>
                        let '(transformed_records, s) := st in
                        let '(final_record, s') :=
                          transform_record db clock uuid_fields flag record s in
                        (transformed_records ++ [final_record], s'))
                     records (acc, s)))
    /\ List.length
         (fst (fold_left
                 (fun st record =>
                    let '(transformed_records, s) := st in
                    let '(final_record, s') :=
                      transform_record db clock uuid_fields flag record s in
                    (transformed_records ++ [final_record], s'))
                 records (acc, s)))
       = (List.length acc + List.length records)%nat.
Proof.
  intros HQ. induction records as [|record records IH]; intros acc s Hacc; simpl.
  - split; [exact Hacc | lia].
  - pose proof (HQ record s) as Hq.
    destruct (transform_record db clock uuid_fields flag record s) as [fr s'].
    destruct (IH (acc ++ [fr]) s') as [Hf Hl].
    + apply Forall_app. split; [exact Hacc | repeat constructor; exact Hq].
    + split; [exact Hf|]. rewrite Hl, length_app. simpl. lia.
Qed.

End TransformRecordsFacts.

(** X15. Called without field mappings, as the orchestrator calls it,
    [transform_records] gives one record for each record it is given;
    every field of a record is still a field of its transformed record,
    each named UUID field is a field of every transformed record, and
    with timestamps asked for so are [created_at] and [updated_at]. *)
Theorem transform_records_keeps_fields :
  forall (L : PyLib) (db : DatabaseType) (clock : Clock) (records : list dict)
         (uuid_fields : option (list string)) (add_timestamps_flag : bool)
         (s : ticks),
    List.length
      (fst (transform_records db clock records uuid_fields add_timestamps_flag s))
    = List.length records
    /\ Forall
         (fun record =>
            (add_timestamps_flag = true ->
             Dict.mem record "created_at" = true
             /\ Dict.mem record "updated_at" = true)
            /\ (forall fields f,
                   uuid_fields = Some fields -> In f fields ->
                   Dict.mem record f = true))
         (fst (transform_records db clock records uuid_fields
                 add_timestamps_flag s))
    /\ Forall2
         (fun record transformed =>
            forall k, Dict.mem record k = true -> Dict.mem transformed k = true)
         records
         (fst (transform_records db clock records uuid_fields
                 add_timestamps_flag s)).
Proof.
  intros L db clock records uuid_fields flag s. unfold transform_records.
  destruct (transform_records_fold db clock
              (fun record =>
                 (flag = true ->
                  Dict.mem record "created_at" = true
                  /\ Dict.mem record "updated_at" = true)
                 /\ (forall fields f,
                        uuid_fields = Some fields -> In f fields ->
                        Dict.mem record f = true))
              uuid_fields flag) with (records := records) (acc := @nil dict) (s := s)
    as [Hall Hlen].
  - intros record s0. split.
    + intros Hf. split; apply transform_record_mem; left; auto.
    + intros fields f Hu Hin. apply transform_record_mem. right. left. eauto.
  - constructor.
  - split; [exact Hlen|]. split; [exact Hall|].
    clear Hall Hlen.
    assert (H : forall acc s0 pre,
               Forall2
                 (fun record transformed =>
                    forall k, Dict.mem record k = true ->
                              Dict.mem transformed k = true) pre acc ->
               Forall2
                 (fun record transformed =>
                    forall k, Dict.mem record k = true ->
                              Dict.mem transformed k = true)
                 (pre ++ records)
                 (fst (fold_left
                         (fun st record =>
                            let '(transformed_records, s) := st in
                            let '(final_record, s') :=
                              transform_record db clock uuid_fields flag record s in
                            (transformed_records ++ [final_record], s'))
                         records (acc, s0)))).
    { induction records as [|record records IH]; intros acc s0 pre Hpre; simpl.
      - rewrite app_nil_r. exact Hpre.
      - pose proof (fun k Hk =>
                      transform_record_mem db clock uuid_fields flag record s0 k
                        (or_intror (or_intror Hk))) as Hrec.
        destruct (transform_record db clock uuid_fields flag record s0)
          as [fr s'].
        replace (pre ++ record :: records) with ((pre ++ [record]) ++ records)
          by (rewrite <- app_assoc; reflexivity).
        apply IH. apply Forall2_app; [exact Hpre|].
        constructor; [exact Hrec | constructor]. }
    apply (H [] s []). constructor.
Qed.

(* ================================================================== *)
(** * More on schema inference *)

Section SchemaKeys.
Context {L : PyLib}.
Variable db : DatabaseType.

Lemma schema_step_mem schema k v f :
  Dict.mem (schema_step db schema k v) f = Dict.mem schema f || (k =? f).
Proof.
  assert (B : forall x, Dict.mem (Dict.set schema k x) f
                        = Dict.mem schema f || (k =? f)).
  { intros x. unfold Dict.mem. rewrite get_set.
    destruct (k =? f); rewrite ?orb_true_r, ?orb_false_r; reflexivity. }
  unfold schema_step.
  destruct (Dict.get schema k) as [existing|] eqn:G; [|apply B].
  assert (A : Dict.mem schema f = Dict.mem schema f || (k =? f)).
  { destruct (String.eqb_spec k f) as [E|_];
      [unfold Dict.mem; rewrite <- E, G; reflexivity
      | rewrite orb_false_r; reflexivity]. }
  destruct (negb (existing =? infer_field_type db v)); [|exact A].
  destruct ((existing =? "INTEGER") && (infer_field_type db v =? "REAL"));
    [apply B|].
  destruct ((existing =? "REAL") && (infer_field_type db v =? "INTEGER"));
    [exact A | apply B].
Qed.

Lemma schema_step_nodup schema k v :
  NoDup (Dict.keys schema) -> NoDup (Dict.keys (schema_step db schema k v)).
Proof.
  intros H. unfold schema_step.
  destruct (Dict.get schema k);
    repeat match goal with
      | |- context [if ?c then _ else _] => destruct c
      end;
    try exact H; apply set_nodup, H.
Qed.

Lemma record_loop_mem (record : dict) f :
  forall schema,
    Dict.mem
      (fold_left (fun schema kv => schema_step db schema (fst kv) (snd kv))
         record schema) f
    = Dict.mem schema f || existsb (fun kv => fst kv =? f) record.
Proof.
  induction record as [|[k v] record IH]; intros schema; simpl.
  - rewrite orb_false_r. reflexivity.
  - rewrite IH, schema_step_mem, orb_assoc. reflexivity.
Qed.

Lemma record_loop_nodup (record : dict) :
  forall schema,
    NoDup (Dict.keys schema) ->
    NoDup (Dict.keys
             (fold_left (fun schema kv => schema_step db schema (fst kv) (snd kv))
                record schema)).
Proof.
  induction record as [|[k v] record IH]; intros schema H; simpl; [exact H|].
  apply IH, schema_step_nodup, H.
Qed.

Lemma existsb_key_mem (record : dict) f :
  existsb (fun kv => fst kv =? f) record = Dict.mem record f.
Proof.
  unfold Dict.mem.
  induction record as [|[k v] record IH]; simpl; [reflexivity|].
  destruct (k =? f); simpl; [reflexivity | exact IH].
Qed.

Lemma schema_from_mem (records : list dict) f :
  forall schema,
    Dict.mem (schema_from db schema records) f
    = Dict.mem schema f || existsb (fun record => Dict.mem record f) records.
Proof.
  unfold schema_from.
  induction records as [|record records IH]; intros schema; simpl.
  - rewrite orb_false_r. reflexivity.
  - rewrite IH, record_loop_mem, existsb_key_mem, orb_assoc. reflexivity.
Qed.

Lemma schema_from_nodup (records : list dict) :
  forall schema,
    NoDup (Dict.keys schema) ->
    NoDup (Dict.keys (schema_from db schema records)).
Proof.
  unfold schema_from.
  induction records as [|record records IH]; intros schema H; simpl;
    [exact H|].
  apply IH, record_loop_nodup, H.
Qed.

Lemma infer_schema_from (records : list dict) :
  infer_schema db records = schema_from db [] records.
Proof. destruct records; reflexivity. Qed.

(** The type of a field stays [t] while every value met for it infers
    as [t]. *)
Lemma record_loop_uniform (record : dict) f t :
  (forall v, In (f, v) record -> infer_field_type db v = t) ->
  forall schema,
    Dict.get schema f = None \/ Dict.get schema f = Some t ->
    Dict.get
      (fold_left (fun schema kv => schema_step db schema (fst kv) (snd kv))
         record schema) f = None
    \/ Dict.get
         (fold_left (fun schema kv => schema_step db schema (fst kv) (snd kv))
            record schema) f = Some t.
Proof.
  induction record as [|[k v] record IH]; intros Hall schema H; simpl;
    [exact H|].
  apply IH; [intros w Hw; apply Hall; right; exact Hw|].
  destruct (String.eqb_spec k f) as [->|N].
  - right. unfold schema_step.
    rewrite (Hall v (or_introl eq_refl)).
    destruct H as [H|H]; rewrite H.
    + rewrite get_set, String.eqb_refl. reflexivity.
    + rewrite String.eqb_refl. simpl. exact H.
  - rewrite schema_step_other by exact N. exact H.
Qed.

Lemma schema_from_uniform (records : list dict) f t :
  (forall record v, In record records -> In (f, v) record ->
                    infer_field_type db v = t) ->
  forall schema,
    Dict.get schema f = None \/ Dict.get schema f = Some t ->
    Dict.get (schema_from db schema records) f = None
    \/ Dict.get (schema_from db schema records) f = Some t.
Proof.
  unfold schema_from.
  induction records as [|record records IH]; intros Hall schema H; simpl;
    [exact H|].
  apply IH; [intros r v Hr; apply Hall; right; exact Hr|].
  apply record_loop_uniform; [|exact H].
  intros v Hv. apply (Hall record v); [left; reflexivity | exact Hv].
Qed.

(** The string type of a backend is neither [INTEGER] nor [REAL]. *)
Lemma str_type_not_numeric :
  (mapping_get db "str" "TEXT" =? "INTEGER") = false
  /\ (mapping_get db "str" "TEXT" =? "REAL") = false.
Proof. destruct db; split; reflexivity. Qed.

Lemma schema_step_text schema k v f :
  Dict.get schema f = Some (mapping_get db "str" "TEXT") ->
  Dict.get (schema_step db schema k v) f = Some (mapping_get db "str" "TEXT").
Proof.
  intros H. destruct (String.eqb_spec k f) as [->|N];
    [|rewrite schema_step_other by exact N; exact H].
  unfold schema_step. rewrite H.
  destruct str_type_not_numeric as [H1 H2]. rewrite H1, H2. simpl.
  destruct (negb (mapping_get db "str" "TEXT" =? infer_field_type db v));
    [|exact H].
  rewrite get_set, String.eqb_refl. reflexivity.
Qed.

Lemma schema_from_text (records : list dict) f :
  forall schema,
    Dict.get schema f = Some (mapping_get db "str" "TEXT") ->
    Dict.get (schema_from db schema records) f
    = Some (mapping_get db "str" "TEXT").
Proof.
  unfold schema_from.
  induction records as [|record records IH]; intros schema H; simpl;
    [exact H|].
  apply IH. revert schema H.
  induction record as [|[k v] record IHr]; intros schema H; simpl; [exact H|].
  apply IHr, schema_step_text, H.
Qed.

End SchemaKeys.

(** X16. The inferred schema has exactly the fields that occur in some
    record, each once; an empty list of records gives the empty
    schema. *)
Theorem infer_schema_fields :
  forall (L : PyLib) (db : DatabaseType) (records : list dict) (f : string),
    Dict.mem (infer_schema db records) f
    = existsb (fun record => Dict.mem record f) records
    /\ NoDup (Dict.keys (infer_schema db records))
    /\ infer_schema db [] = [].
Proof.
  intros L db records f. rewrite infer_schema_from. repeat split.
  - apply (schema_from_mem db records f []).
  - apply schema_from_nodup. constructor.
Qed.

(** X17. A field whose values all infer as one type gets that type. *)
Theorem infer_schema_uniform_field :
  forall (L : PyLib) (db : DatabaseType) (records : list dict)
         (f t : string),
    (forall record v, In record records -> In (f, v) record ->
                      infer_field_type db v = t) ->
    Dict.mem (infer_schema db records) f = true ->
    Dict.get (infer_schema db records) f = Some t.
Proof.
  intros L db records f t Hall Hmem. rewrite infer_schema_from in *.
  destruct (schema_from_uniform db records f t Hall [] (or_introl eq_refl))
    as [H|H]; [|exact H].
  unfold Dict.mem in Hmem. unfold dict in *. rewrite H in Hmem. discriminate.
Qed.

Lemma infer_schema_uniform_field_witness :
  (forall record v,
      In record [[("n", VInt 1); ("s", VStr "a")]; [("n", VInt 2)]] ->
      In ("n", v) record ->
      infer_field_type (L := Sample.lib) MYSQL v = "INT")
  /\ Dict.mem
       (infer_schema (L := Sample.lib) MYSQL
          [[("n", VInt 1); ("s", VStr "a")]; [("n", VInt 2)]]) "n" = true
  /\ Dict.get
       (infer_schema (L := Sample.lib) MYSQL
          [[("n", VInt 1); ("s", VStr "a")]; [("n", VInt 2)]]) "n"
     = Some "INT".
Proof.
  assert (H : forall record v,
      In record [[("n", VInt 1); ("s", VStr "a")]; [("n", VInt 2)]] ->
      In ("n", v) record ->
      infer_field_type (L := Sample.lib) MYSQL v = "INT").
  { intros record v [<-|[<-|[]]] Hin; simpl in Hin.
    - destruct Hin as [E|[E|[]]]; [injection E as <-; reflexivity|].
      congruence.
    - destruct Hin as [E|[]]. injection E as <-. reflexivity. }
  split; [exact H|]. split; [reflexivity|].
  apply (infer_schema_uniform_field Sample.lib MYSQL _ "n" "INT" H eq_refl).
Defined.

(** X18. A field that has the string type of the backend keeps it,
    whatever records follow. *)
Theorem string_type_is_final :
  forall (L : PyLib) (db : DatabaseType) (seen more : list dict) (f : string),
    Dict.get (infer_schema db seen) f = Some (mapping_get db "str" "TEXT") ->
    Dict.get (infer_schema db (seen ++ more)) f
    = Some (mapping_get db "str" "TEXT").
Proof.
  intros L db seen more f H.
  rewrite infer_schema_from in *. rewrite schema_from_app.
  apply schema_from_text, H.
Qed.

Lemma string_type_is_final_witness :
  Dict.get
    (infer_schema (L := Sample.lib) POSTGRESQL
       [[("n", VInt 1)]; [("n", VBool true)]]) "n"
  = Some (mapping_get POSTGRESQL "str" "TEXT")
  /\ Dict.get
       (infer_schema (L := Sample.lib) POSTGRESQL
          ([[("n", VInt 1)]; [("n", VBool true)]] ++ [[("n", VInt 2)]])) "n"
     = Some (mapping_get POSTGRESQL "str" "TEXT").
Proof.
  split; [reflexivity|].
  apply (string_type_is_final Sample.lib POSTGRESQL
           [[("n", VInt 1)]; [("n", VBool true)]] [[("n", VInt 2)]] "n" eq_refl).
Defined.

(* ================================================================== *)
(** * The CREATE TABLE statement and the factory *)

Lemma append_assoc (a b c : string) : (a +++ b) +++ c = a +++ b +++ c.
Proof. induction a as [|ch a IH]; simpl; [reflexivity|]. rewrite IH. reflexivity. Qed.

Lemma append_empty_r (a : string) : a +++ EmptyString = a.
Proof. induction a as [|ch a IH]; simpl; [reflexivity|]. rewrite IH. reflexivity. Qed.

Lemma marked_columns primary_key (schema : Dict.t string) :
  map (fun kv =>
         let column_def := fst kv +++ " " +++ snd kv in
         if is_primary_key primary_key (fst kv)
         then column_def +++ " PRIMARY KEY" else column_def)
    schema
  = map (fun kv =>
           fst kv +++ " " +++ snd kv
           +++ (if is_primary_key primary_key (fst kv)
                then " PRIMARY KEY" else EmptyString))
      schema.
Proof.
  apply map_ext. intros [k ty]. simpl.
  destruct (is_primary_key primary_key k).
  - rewrite !append_assoc. reflexivity.
  - rewrite append_empty_r. reflexivity.
Qed.

(** X19. The document and key-value backends refuse
    [get_create_table_sql] with a [ValueError].  Each relational backend
    returns the statement [CREATE TABLE IF NOT EXISTS] for the table, with
    its column definitions on lines of their own, joined by commas: one
    definition [name type] per field of the schema, in the order of the
    schema, marked [PRIMARY KEY] when the field is the named primary key;
    before them the backend's surrogate [id] column, exactly when no
    primary key is named (or the empty name is) and the schema has no
    field [id]. *)
Theorem create_table_statement :
  forall (db : DatabaseType) (table_name : string) (schema : Dict.t string)
         (primary_key : option string),
    let fields :=
      map (fun kv =>
             fst kv +++ " " +++ snd kv
             +++ (if is_primary_key primary_key (fst kv)
                  then " PRIMARY KEY" else EmptyString))
        schema in
    let columns surrogate :=
      if no_primary_key primary_key && negb (Dict.mem schema "id")
      then surrogate :: fields else fields in
    let statement surrogate :=
      Ok ("CREATE TABLE IF NOT EXISTS " +++ table_name +++ " (" +++ newline
          +++ "    "
          +++ String.concat ("," +++ newline +++ "    ") (columns surrogate)
          +++ newline +++ ")") in
    get_create_table_sql db table_name schema primary_key
    = match db with
      | POSTGRESQL => statement "id SERIAL PRIMARY KEY"
      | MYSQL => statement "id INT AUTO_INCREMENT PRIMARY KEY"
      | SQLITE => statement "id INTEGER PRIMARY KEY AUTOINCREMENT"
      | MONGODB | REDIS =>
          Raise (PyError "ValueError"
                   ("SQL not applicable for " +++ database_type_value db))
      end.
Proof.
  intros db table_name schema primary_key. cbv zeta.
  rewrite <- (marked_columns primary_key schema).
  destruct db; try reflexivity;
    unfold get_create_table_sql, create_table_columns;
    destruct (no_primary_key primary_key && negb (Dict.mem schema "id"));
    reflexivity.
Qed.

(** On SQLite, a schema of two fields with no primary key named. *)
Example sqlite_events_table :
  get_create_table_sql SQLITE "events" [("name", "TEXT"); ("n", "INTEGER")] None
  = Ok ("CREATE TABLE IF NOT EXISTS events (" +++ newline
        +++ "    id INTEGER PRIMARY KEY AUTOINCREMENT," +++ newline
        +++ "    name TEXT," +++ newline
        +++ "    n INTEGER" +++ newline
        +++ ")").
Proof. reflexivity. Qed.

Section FactoryFacts.
Context {L : PyLib}.

Lemma new_connection_ok c cs timeout scheme db :
  urlparse_scheme cs = Ok scheme ->
  scheme_database_type (Str.lower scheme) = Some db ->
  new_connection c cs timeout
  = Ok {| connection_class := c; connection_string := cs;
          connection_timeout := timeout; database_type := db |}.
Proof.
  intros Hs H. unfold new_connection, _determine_database_type.
  rewrite Hs. simpl. rewrite H. reflexivity.
Qed.

(** What a call to the factory can do. *)
Lemma create_connection_cases cs timeout :
  (exists e,
      urlparse_scheme cs = Raise e
      /\ create_connection cs timeout = ([], Raise e))
  \/ (exists message,
      create_connection cs timeout
      = ([], Raise (McpError INTERNAL_ERROR message)))
  \/ (exists scheme db c,
         urlparse_scheme cs = Ok scheme
         /\ scheme_database_type (Str.lower scheme) = Some db
         /\ CONNECTION_CLASSES db = Some c
         /\ create_connection cs timeout
            = ([Construct c],
               Ok {| connection_class := c; connection_string := cs;
                     connection_timeout := timeout; database_type := db |})).
Proof.
  destruct (urlparse_scheme cs) as [scheme|e] eqn:Hs.
  - right.
    destruct (scheme_database_type (Str.lower scheme)) as [db|] eqn:E.
    + right.
      destruct (create_connection_selected cs timeout scheme db Hs E)
        as [c [Hc H]].
      exists scheme, db, c. auto.
    + left. unfold create_connection. rewrite Hs, E. eexists. reflexivity.
  - left. exists e. split; [reflexivity|].
    unfold create_connection. rewrite Hs. reflexivity.
Qed.

End FactoryFacts.

(** X20. A call to the factory ends in one of three ways.  [urlparse]
    raises on the connection string: that exception leaves the factory
    as it is, and nothing is constructed.  Or the factory raises an
    [McpError] of code [INTERNAL_ERROR] without constructing anything.
    Or it constructs one connection object and returns it: an object of
    the class registered for its database type, holding the connection
    string and the timeout, whose database type is the one its own
    constructor determines from the connection string. *)
Theorem create_connection_outcome :
  forall (L : PyLib) (cs : string) (timeout : Z),
    (exists e,
        urlparse_scheme cs = Raise e
        /\ create_connection cs timeout = ([], Raise e))
    \/ (exists message,
        create_connection cs timeout
        = ([], Raise (McpError INTERNAL_ERROR message)))
    \/ (exists conn,
           create_connection cs timeout
           = ([Construct (connection_class conn)], Ok conn)
           /\ CONNECTION_CLASSES (database_type conn)
              = Some (connection_class conn)
           /\ connection_string conn = cs
           /\ connection_timeout conn = timeout
           /\ _determine_database_type cs = Ok (database_type conn)).
Proof.
  intros L cs timeout.
  destruct (create_connection_cases cs timeout)
    as [H|[H|[scheme [db [c [Hs [E [Hc H]]]]]]]];
    [left; exact H|right; left; exact H|].
  right. right.
  exists {| connection_class := c; connection_string := cs;
            connection_timeout := timeout; database_type := db |}.
  split; [exact H|]. simpl.
  repeat split; auto.
  unfold _determine_database_type. rewrite Hs. simpl. rewrite E. reflexivity.
Qed.

(** The first way happens: an opening bracket that is not closed makes
    [urlparse] raise a [ValueError], and the factory passes it on. *)
Example create_connection_url_error :
  create_connection (L := Payloads.lib) "redis://[x" 30
  = ([], Raise (PyError "ValueError" "Invalid IPv6 URL")).
Proof. reflexivity. Qed.

(* ================================================================== *)
(** * Bulk insert *)

Section BatchFacts.
Variable records : list dict.
Variable b : nat.
Hypothesis b_positive : (0 < b)%nat.

Lemma range_step_concat fuel :
  forall i,
    (List.length records - i <= fuel)%nat ->
    List.concat (map (fun i => slice records i (i + b))
              (range_step fuel i (List.length records) b))
    = skipn i records.
Proof.
  induction fuel as [|fuel IH]; intros i Hfuel; simpl.
  - symmetry. apply skipn_all2. lia.
  - destruct (Nat.ltb_spec i (List.length records)) as [Hlt|Hge]; simpl.
    + rewrite IH by lia. unfold slice.
      replace (i + b - i)%nat with b by lia.
      replace (i + b)%nat with (b + i)%nat by lia.
      rewrite <- skipn_skipn. apply firstn_skipn.
    + symmetry. apply skipn_all2. lia.
Qed.

Lemma range_step_below fuel :
  forall i,
    Forall (fun j => (j < List.length records)%nat)
      (range_step fuel i (List.length records) b).
Proof.
  induction fuel as [|fuel IH]; intros i; simpl; [constructor|].
  destruct (Nat.ltb_spec i (List.length records)); constructor; auto.
Qed.

Lemma slice_size i :
  (i < List.length records)%nat ->
  slice records i (i + b) <> []
  /\ (List.length (slice records i (i + b)) <= b)%nat.
Proof.
  intros Hi. unfold slice. replace (i + b - i)%nat with b by lia.
  assert (Hlen : List.length (firstn b (skipn i records))
                 = Nat.min b (List.length records - i)).
  { rewrite length_firstn, length_skipn. reflexivity. }
  split; [|lia].
  intros E. rewrite E in Hlen. simpl in Hlen. lia.
Qed.

Lemma batches_partition :
  List.concat (batches records b) = records
  /\ Forall (fun batch => batch <> [] /\ (List.length batch <= b)%nat)
       (batches records b).
Proof.
  unfold batches. split.
  - rewrite range_step_concat by lia. reflexivity.
  - apply Forall_map.
    eapply Forall_impl; [|apply range_step_below].
    intros i Hi. apply slice_size, Hi.
Qed.

End BatchFacts.

(** X21. For a positive batch size the batches of an insert are the
    records, cut in order: put end to end they give the records back,
    none is empty and none has more records than the batch size. *)
Theorem batches_cut_the_records :
  forall (records : list dict) (batch_size : nat),
    (0 < batch_size)%nat ->
    List.concat (batches records batch_size) = records
    /\ Forall
         (fun batch =>
            batch <> [] /\ (List.length batch <= batch_size)%nat)
         (batches records batch_size).
Proof. intros records b Hb. apply batches_partition, Hb. Qed.

Lemma batches_cut_the_records_witness :
  (0 < 2)%nat
  /\ List.concat (batches Drivers.five_rows 2) = Drivers.five_rows
  /\ Forall (fun batch => batch <> [] /\ (List.length batch <= 2)%nat)
       (batches Drivers.five_rows 2).
Proof.
  assert (H : (0 < 2)%nat) by lia.
  split; [exact H|].
  apply (batches_cut_the_records Drivers.five_rows 2 H).
Defined.

Section InsertFacts.
Context {L : PyLib}.
Variable driver : Driver.
Variable c : ConnectionClass.
Variable table_name : string.

(** What the [n]-th turn hands to the driver. *)
Lemma send_batch_handed n batch :
  fst (send_batch driver c n table_name batch)
  = match c with
    | MongoDBConnection => SentDocuments table_name batch
    | _ =>
        SentRows (insert_sql c table_name (batch_columns batch))
          (batch_values_of (batch_columns batch) batch)
    end.
Proof. destruct c; reflexivity. Qed.

Lemma insert_batches_all todo :
  (forall n batch, In batch todo ->
     snd (send_batch driver c n table_name batch)
     = Ok (Z.of_nat (List.length batch))) ->
  forall n inserted_count,
    snd (insert_batches driver c table_name n todo inserted_count)
    = Ok (inserted_count + Z.of_nat (List.length (List.concat todo)))%Z
    /\ List.length
         (fst (insert_batches driver c table_name n todo inserted_count))
       = List.length todo.
Proof.
  induction todo as [|batch todo IH]; intros Hall n acc; simpl.
  - split; [f_equal; lia | reflexivity].
  - pose proof (Hall n batch (or_introl eq_refl)) as Hb.
    destruct (send_batch driver c n table_name batch) as [handed out].
    simpl in Hb. subst out.
    destruct (IH (fun m x Hx => Hall m x (or_intror Hx)) (S n)
                (acc + Z.of_nat (List.length batch))%Z) as [Ho Hl].
    destruct (insert_batches driver c table_name (S n) todo
                (acc + Z.of_nat (List.length batch))) as [trace outcome].
    simpl in *. split; [|lia].
    rewrite Ho, length_app. f_equal. lia.
Qed.

Lemma insert_batches_stop pre bad post e :
  forall n inserted_count,
    (forall i batch, nth_error pre i = Some batch ->
       exists count,
         snd (send_batch driver c (n + i) table_name batch) = Ok count) ->
    snd (send_batch driver c (n + List.length pre) table_name bad) = Raise e ->
    snd (insert_batches driver c table_name n (pre ++ bad :: post) inserted_count)
    = Raise (failed_batch table_name e)
    /\ List.length
         (fst (insert_batches driver c table_name n (pre ++ bad :: post)
                 inserted_count))
       = S (List.length pre).
Proof.
  induction pre as [|batch pre IH]; intros n acc Hpre Hbad; simpl.
  - rewrite Nat.add_0_r in Hbad.
    destruct (send_batch driver c n table_name bad) as [handed out].
    simpl in Hbad. subst out. split; reflexivity.
  - destruct (Hpre 0%nat batch eq_refl) as [count Hc].
    rewrite Nat.add_0_r in Hc.
    destruct (send_batch driver c n table_name batch) as [handed out].
    simpl in Hc. subst out.
    destruct (IH (S n) (acc + count)%Z) as [Ho Hl].
    + intros i x Hx. destruct (Hpre (S i) x Hx) as [k Hk].
      exists k. rewrite <- Hk. f_equal. f_equal. lia.
    + rewrite <- Hbad. f_equal. f_equal. simpl. lia.
    + destruct (insert_batches driver c table_name (S n) (pre ++ bad :: post)
                  (acc + count)) as [trace outcome].
      simpl in *. split; [exact Ho | lia].
Qed.

End InsertFacts.

(** X22. On PostgreSQL and SQLite, when every call to the driver
    returns, an insert with a positive batch size hands one statement per
    batch to the driver and reports as many inserted records as it was
    given; an insert of no record reports zero and hands nothing over,
    whatever the class and the batch size. *)
Theorem insert_reports_all_records :
  forall (L : PyLib) (driver : Driver) (c : ConnectionClass)
         (table_name : string) (records : list dict) (batch_size : Z),
    c = PostgreSQLConnection \/ c = SQLiteConnection ->
    (0 < batch_size)%Z ->
    (forall n sql rows, exists rowcount,
        driver_executemany driver n sql rows = Ok rowcount) ->
    snd (insert_records driver c table_name records batch_size)
    = Ok (Z.of_nat (List.length records))
    /\ List.length (fst (insert_records driver c table_name records batch_size))
       = List.length (batches records (Z.to_nat batch_size))
    /\ (forall c' batch_size',
           insert_records driver c' table_name [] batch_size' = ([], Ok 0%Z)).
Proof.
  intros L driver c table_name records batch_size Hc Hb Hdriver.
  assert (Hempty : forall c' batch_size',
             insert_records driver c' table_name [] batch_size' = ([], Ok 0%Z))
    by reflexivity.
  destruct records as [|r records]; [repeat split|].
  assert (Hsend : forall n batch,
             In batch (batches (r :: records) (Z.to_nat batch_size)) ->
             snd (send_batch driver c n table_name batch)
             = Ok (Z.of_nat (List.length batch))).
  { intros n batch _. unfold send_batch.
    destruct Hc as [-> | ->]; simpl;
      match goal with
      | |- context [driver_executemany driver n ?sql ?rows] =>
          destruct (Hdriver n sql rows) as [k ->]
      end; reflexivity. }
  destruct (insert_batches_all driver c table_name _ Hsend 0%nat 0%Z)
    as [Ho Hl].
  destruct (batches_partition (r :: records) (Z.to_nat batch_size))
    as [Hcat _]; [lia|].
  rewrite Hcat in Ho.
  unfold insert_records.
  destruct (Z.eqb_spec batch_size 0); [lia|].
  destruct (Z.ltb_spec batch_size 0); [lia|].
  destruct Hc as [-> | ->]; repeat split; auto.
Qed.

Lemma insert_reports_all_records_witness :
  (SQLiteConnection = PostgreSQLConnection
   \/ SQLiteConnection = SQLiteConnection)
  /\ (0 < 2)%Z
  /\ (forall n sql rows, exists rowcount,
         driver_executemany Drivers.steady n sql rows = Ok rowcount)
  /\ snd (insert_records (L := Payloads.lib) Drivers.steady SQLiteConnection
            "events" Drivers.five_rows 2)
     = Ok (Z.of_nat (List.length Drivers.five_rows))
  /\ List.length
       (fst (insert_records (L := Payloads.lib) Drivers.steady SQLiteConnection
               "events" Drivers.five_rows 2))
     = List.length (batches Drivers.five_rows (Z.to_nat 2))
  /\ (forall c' batch_size',
         insert_records (L := Payloads.lib) Drivers.steady c' "events" []
           batch_size'
         = ([], Ok 0%Z)).
Proof.
  assert (H1 : SQLiteConnection = PostgreSQLConnection
               \/ SQLiteConnection = SQLiteConnection) by (right; reflexivity).
  assert (H2 : (0 < 2)%Z) by lia.
  assert (H3 : forall n sql rows, exists rowcount,
             driver_executemany Drivers.steady n sql rows = Ok rowcount)
    by (intros; eexists; reflexivity).
  split; [exact H1|]. split; [exact H2|]. split; [exact H3|].
  apply (insert_reports_all_records Payloads.lib Drivers.steady
           SQLiteConnection "events" Drivers.five_rows 2 H1 H2 H3).
Defined.

(** X23. On the four backends that insert by batches, the first batch
    on which the driver raises ends the insert: the error is an
    [McpError] of code [INTERNAL_ERROR] that carries the driver's message,
    the batches before it and that batch were handed to the driver, and
    the batches after it are not. *)
Theorem insert_stops_at_first_failure :
  forall (L : PyLib) (driver : Driver) (c : ConnectionClass)
         (table_name : string) (records : list dict) (batch_size : Z)
         (sent_before : list (list dict)) (failing : list dict)
         (never_sent : list (list dict)) (e : exn),
    c <> RedisConnection ->
    (0 < batch_size)%Z ->
    batches records (Z.to_nat batch_size)
    = sent_before ++ failing :: never_sent ->
    (forall i batch, nth_error sent_before i = Some batch ->
       exists count,
         snd (send_batch driver c i table_name batch) = Ok count) ->
    snd (send_batch driver c (List.length sent_before) table_name failing)
    = Raise e ->
    snd (insert_records driver c table_name records batch_size)
    = Raise (McpError INTERNAL_ERROR
               ("Failed to insert batch into " +++ table_name +++ ": "
                +++ exn_str e))
    /\ List.length (fst (insert_records driver c table_name records batch_size))
       = S (List.length sent_before).
Proof.
  intros L driver c table_name records batch_size pre bad post e
    Hc Hb Hcut Hpre Hbad.
  assert (Hne : records <> []).
  { intros ->. destruct pre; discriminate. }
  destruct (insert_batches_stop driver c table_name pre bad post e 0%nat 0%Z
              Hpre Hbad) as [Ho Hl].
  rewrite <- Hcut in Ho, Hl.
  unfold insert_records.
  destruct records as [|r records]; [congruence|].
  destruct (Z.eqb_spec batch_size 0); [lia|].
  destruct (Z.ltb_spec batch_size 0); [lia|].
  destruct c; try congruence; split; assumption.
Qed.

Lemma insert_stops_at_first_failure_witness :
  MongoDBConnection <> RedisConnection
  /\ (0 < 2)%Z
  /\ batches Drivers.five_rows (Z.to_nat 2)
     = [[Drivers.row 1; Drivers.row 2]]
         ++ [Drivers.row 3; Drivers.row 4] :: [[Drivers.row 5]]
  /\ (forall i batch,
         nth_error [[Drivers.row 1; Drivers.row 2]] i = Some batch ->
         exists count,
           snd (send_batch (L := Payloads.lib) (Drivers.failing_at 1) MongoDBConnection i "events"
                  batch) = Ok count)
  /\ snd (send_batch (L := Payloads.lib) (Drivers.failing_at 1) MongoDBConnection
            (List.length [[Drivers.row 1; Drivers.row 2]]) "events"
            [Drivers.row 3; Drivers.row 4])
     = Raise (PyError "BulkWriteError" "write failed")
  /\ snd (insert_records (L := Payloads.lib) (Drivers.failing_at 1)
            MongoDBConnection "events" Drivers.five_rows 2)
     = Raise (McpError INTERNAL_ERROR
                ("Failed to insert batch into " +++ "events" +++ ": "
                 +++ exn_str (PyError "BulkWriteError" "write failed")))
  /\ List.length
       (fst (insert_records (L := Payloads.lib) (Drivers.failing_at 1)
               MongoDBConnection "events" Drivers.five_rows 2))
     = S (List.length [[Drivers.row 1; Drivers.row 2]]).
Proof.
  assert (H1 : MongoDBConnection <> RedisConnection) by discriminate.
  assert (H2 : (0 < 2)%Z) by lia.
  assert (H4 : forall i batch,
             nth_error [[Drivers.row 1; Drivers.row 2]] i = Some batch ->
             exists count,
               snd (send_batch (L := Payloads.lib) (Drivers.failing_at 1) MongoDBConnection i
                      "events" batch) = Ok count).
  { intros [|[|i]] batch H; try discriminate.
    injection H as <-. eexists. reflexivity. }
  split; [exact H1|]. split; [exact H2|]. split; [reflexivity|].
  split; [exact H4|]. split; [reflexivity|].
  apply (insert_stops_at_first_failure Payloads.lib (Drivers.failing_at 1)
           MongoDBConnection "events" Drivers.five_rows 2
           [[Drivers.row 1; Drivers.row 2]] [Drivers.row 3; Drivers.row 4]
           [[Drivers.row 5]] _ H1 H2 eq_refl H4 eq_refl).
Defined.

Section RowFacts.

Lemma keys_values (d : dict) :
  NoDup (Dict.keys d) -> map (get_or_none d) (Dict.keys d) = map snd d.
Proof.
  induction d as [|[k v] d IH]; simpl; intros H; [reflexivity|].
  inversion H as [|? ? Hnotin Hnd]; subst.
  unfold get_or_none at 1. simpl. rewrite String.eqb_refl. f_equal.
  rewrite <- (IH Hnd). apply map_ext_in.
  intros k' Hin. unfold get_or_none. simpl.
  destruct (String.eqb_spec k k') as [->|_]; [contradiction | reflexivity].
Qed.

End RowFacts.

(** X24. The rows of a batch follow its first record: there is one row
    for each record, every row has one value for each field of the first
    record, the row of a record holds the record's value of each of these
    fields, [None] where it lacks the field, and the row of the first
    record is its values in order. *)
Theorem batch_rows_follow_first_record :
  forall (first : dict) (rest : list dict),
    NoDup (Dict.keys first) ->
    let batch := first :: rest in
    let rows := batch_values_of (batch_columns batch) batch in
    List.length rows = List.length batch
    /\ Forall (fun row => List.length row = List.length first) rows
    /\ Forall2
         (fun record row =>
            row = map (fun col => get_or_none record col) (Dict.keys first))
         batch rows
    /\ hd_error rows = Some (map snd first).
Proof.
  intros first rest Hnd. cbv zeta. unfold batch_values_of, batch_columns.
  split; [apply length_map|]. split; [|split].
  - apply Forall_map, Forall_forall. intros record _.
    rewrite length_map. unfold Dict.keys. apply length_map.
  - generalize (first :: rest). intros batch.
    induction batch; simpl; constructor; auto.
  - simpl. f_equal. exact (keys_values first Hnd).
Qed.

Lemma batch_rows_follow_first_record_witness :
  NoDup (Dict.keys [("a", VInt 1); ("b", VStr "x")])
  /\ List.length
       (batch_values_of
          (batch_columns [[("a", VInt 1); ("b", VStr "x")];
                          [("b", VStr "y"); ("c", VInt 3)]])
          [[("a", VInt 1); ("b", VStr "x")];
           [("b", VStr "y"); ("c", VInt 3)]])
     = 2%nat
  /\ batch_values_of
       (batch_columns [[("a", VInt 1); ("b", VStr "x")];
                       [("b", VStr "y"); ("c", VInt 3)]])
       [[("a", VInt 1); ("b", VStr "x")]; [("b", VStr "y"); ("c", VInt 3)]]
     = [[VInt 1; VStr "x"]; [VNone; VStr "y"]].
Proof.
  assert (H : NoDup (Dict.keys [("a", VInt 1); ("b", VStr "x")])).
  { repeat constructor; simpl; intuition discriminate. }
  split; [exact H|].
  split;
    [exact (proj1 (batch_rows_follow_first_record
                     [("a", VInt 1); ("b", VStr "x")]
                     [[("b", VStr "y"); ("c", VInt 3)]] H))
    | reflexivity].
Defined.

Section RedisFacts.
Context {L : PyLib}.
Variable driver : Driver.
Variable table_name : string.

Lemma redis_untyped_text v :
  transform_value REDIS v None = VNone
  \/ exists s, transform_value REDIS v None = VStr s.
Proof. destruct v; simpl; eauto. destruct b; eauto. Qed.

Lemma redis_record_text (record : dict) :
  forall acc : dict,
    Forall text_or_null acc ->
    Forall text_or_null
      (fold_left
         (fun redis_record kv =>
            Dict.set redis_record (fst kv) (transform_value REDIS (snd kv) None))
         record acc).
Proof.
  induction record as [|[k v] record IH]; intros acc H; simpl; [exact H|].
  apply IH, set_forall; [apply redis_untyped_text | exact H].
Qed.

Lemma redis_insert_text records :
  forall i inserted_count,
    Forall hash_of_text
      (fst (redis_insert driver table_name i records inserted_count)).
Proof.
  induction records as [|record records IH]; intros i acc; simpl;
    [constructor|].
  match goal with
  | |- context [driver_hset driver i ?k ?m] =>
      assert (Hm : hash_of_text (SentHash k m))
        by (apply redis_record_text; constructor);
      destruct (driver_hset driver i k m)
  end.
  - repeat constructor. exact Hm.
  - specialize (IH (S i) (acc + 1)%Z).
    destruct (redis_insert driver table_name (S i) records (acc + 1)).
    simpl in *. constructor; assumption.
Qed.

Lemma redis_insert_all records :
  (forall i key mapping, driver_hset driver i key mapping = None) ->
  forall i inserted_count,
    snd (redis_insert driver table_name i records inserted_count)
    = Ok (inserted_count + Z.of_nat (List.length records))%Z
    /\ List.length
         (fst (redis_insert driver table_name i records inserted_count))
       = List.length records.
Proof.
  intros Hd. induction records as [|record records IH]; intros i acc; simpl.
  - split; [f_equal; lia | reflexivity].
  - rewrite Hd. destruct (IH (S i) (acc + 1)%Z) as [Ho Hl].
    destruct (redis_insert driver table_name (S i) records (acc + 1)).
    simpl in *. split; [rewrite Ho; f_equal; lia | lia].
Qed.

End RedisFacts.

(** X25. An insert into the key-value backend hands the driver one hash
    for each record until a call raises, and every value of every hash is
    text or null; when no call raises it reports as many inserted records
    as it was given.  The batch size plays no part. *)
Theorem redis_insert_sends_text :
  forall (L : PyLib) (driver : Driver) (table_name : string)
         (records : list dict) (batch_size : Z),
    Forall hash_of_text
      (fst (insert_records driver RedisConnection table_name records batch_size))
    /\ ((forall i key mapping, driver_hset driver i key mapping = None) ->
        snd (insert_records driver RedisConnection table_name records batch_size)
        = Ok (Z.of_nat (List.length records))
        /\ List.length
             (fst (insert_records driver RedisConnection table_name records
                     batch_size))
           = List.length records)
    /\ insert_records driver RedisConnection table_name records batch_size
       = insert_records driver RedisConnection table_name records 1.
Proof.
  intros L driver table_name records batch_size.
  destruct records as [|r records]; [repeat split; constructor|].
  unfold insert_records. split; [apply redis_insert_text|].
  split; [|reflexivity].
  intros Hd. apply (redis_insert_all driver table_name (r :: records) Hd 0%nat 0%Z).
Qed.

(* ================================================================== *)
(** * More on the orchestrator *)

Section PipelineFacts.
Context {L : PyLib}.
Variable engine : Engine.

Lemma error_member_error err k e :
  error_member err k = Raise e ->
  e = PyError "AttributeError"
        ("'" +++ type_name err +++ "' object has no attribute 'get'").
Proof.
  unfold error_member. destruct (truthy err); [|discriminate].
  destruct err; try discriminate; intros [= <-]; reflexivity.
Qed.

Lemma extract_error r e :
  extract_data_from_jsonrpc r = Raise e ->
  e = PyError "AttributeError"
        ("'" +++ type_name (error r) +++ "' object has no attribute 'get'").
Proof.
  unfold extract_data_from_jsonrpc.
  destruct (is_error r).
  - destruct (error_member (error r) "code") eqn:E1; simpl;
      [|intros [= <-]; apply (error_member_error _ _ _ E1)].
    destruct (error_member (error r) "message") eqn:E2; simpl;
      [|intros [= <-]; apply (error_member_error _ _ _ E2)].
    destruct (error_member (error r) "data") eqn:E3; simpl;
      [discriminate | intros [= <-]; apply (error_member_error _ _ _ E3)].
  - destruct (is_notification r); [discriminate|].
    destruct (result r); discriminate.
Qed.

Lemma extract_all_error responses :
  forall acc e,
    extract_all responses acc = Raise e ->
    exists message, e = PyError "AttributeError" message.
Proof.
  induction responses as [|r responses IH]; intros acc e; simpl;
    [discriminate|].
  destruct (extract_data_from_jsonrpc r) eqn:E; simpl.
  - apply IH.
  - intros [= <-]. rewrite (extract_error _ _ E). eexists. reflexivity.
Qed.

Lemma store_calls args processed conn transformed :
  Forall engine_call (fst (store engine args processed conn transformed)).
Proof.
  unfold store.
  destruct (engine_table_exists engine conn (table_name_of args));
    [|repeat constructor].
  destruct (negb a && arg_create_if_missing args).
  - destruct (engine_create engine conn (table_name_of args) _);
      [repeat constructor|].
    destruct (engine_insert engine conn (table_name_of args) transformed
                (arg_batch_size args)); repeat constructor.
  - destruct (negb a); [repeat constructor|].
    destruct (engine_insert engine conn (table_name_of args) transformed
                (arg_batch_size args)); repeat constructor.
Qed.

(** The [try] block, once the records are there and the factory has
    made a connection that connects. *)
Lemma try_block_connected args timeout responses first rest trace conn :
  validate_jsonrpc_batch (arg_jsonrpc_response args) = Ok responses ->
  extract_all responses [] = Ok (first :: rest) ->
  create_connection (arg_connection_string args) timeout = (trace, Ok conn) ->
  engine_connect engine conn = None ->
  try_block engine args timeout
  = (trace ++ [Connect]
       ++ fst (store engine args (Z.of_nat (List.length responses)) conn
                 (transformed_for engine args conn (first :: rest))),
     Some conn,
     snd (store engine args (Z.of_nat (List.length responses)) conn
            (transformed_for engine args conn (first :: rest)))).
Proof.
  intros Hv He Hc Hconn. unfold try_block.
  rewrite Hv, He, Hc, Hconn. unfold transformed_for.
  destruct (store engine args (Z.of_nat (List.length responses)) conn _).
  reflexivity.
Qed.

Lemma process_trace_shape args timeout :
  fst (process_jsonrpc_to_db engine args timeout) = []
  \/ exists c calls,
       fst (process_jsonrpc_to_db engine args timeout)
       = Construct c :: Connect :: calls ++ [Disconnect]
       /\ Forall engine_call calls.
Proof.
  unfold process_jsonrpc_to_db, try_block.
  destruct (validate_jsonrpc_batch (arg_jsonrpc_response args))
    as [responses|e]; [|left; reflexivity].
  destruct (extract_all responses []) as [[|first rest]|e];
    [left; reflexivity| |left; reflexivity].
  destruct (create_connection_cases (arg_connection_string args) timeout)
    as [[e [_ ->]]|[[m ->]|[scheme [db [c [_ [_ [_ ->]]]]]]]];
    [left; reflexivity|left; reflexivity|].
  right. exists c.
  destruct (engine_connect engine _) as [e|].
  - exists []. split; [reflexivity | constructor].
  - match goal with
    | |- context [store engine args ?p ?conn ?t] =>
        pose proof (store_calls args p conn t) as Hcalls;
        destruct (store engine args p conn t) as [stored outcome]
    end.
    exists stored. simpl in Hcalls. split; [|exact Hcalls].
    destruct outcome; reflexivity.
Qed.

End PipelineFacts.

(** X26. Whatever the engine does, the orchestrator raises nothing but
    an [McpError]. *)
Theorem process_raises_mcp_errors :
  forall (L : PyLib) (engine : Engine) (args : InsertJsonRpcToDb)
         (timeout : Z) (trace : list event) (e : exn),
    process_jsonrpc_to_db engine args timeout = (trace, Raise e) ->
    exists code message, e = McpError code message.
Proof.
  intros L engine args timeout trace e. unfold process_jsonrpc_to_db.
  destruct (try_block engine args timeout) as [[tr conn] [r|e']];
    [discriminate|].
  intros [= _ <-]. destruct e'; simpl; eauto.
Qed.

Lemma process_raises_mcp_errors_witness :
  process_jsonrpc_to_db (L := Payloads.lib) Sample.engine
    (Sample.request Payloads.text_error_text "sqlite:///data.db") 30
  = ([], Raise (McpError INTERNAL_ERROR
                  ("Unexpected error in JSON-RPC to DB processing: "
                   +++ "'str' object has no attribute 'get'")))
  /\ exists code message,
       McpError INTERNAL_ERROR
         ("Unexpected error in JSON-RPC to DB processing: "
          +++ "'str' object has no attribute 'get'")
       = McpError code message.
Proof.
  split; [reflexivity|].
  apply (process_raises_mcp_errors Payloads.lib Sample.engine
           (Sample.request Payloads.text_error_text "sqlite:///data.db")
           30%Z [] _ eq_refl).
Defined.

(** X27. A run of the orchestrator touches nothing, or it constructs
    one connection object, connects, makes its calls to the engine and
    disconnects last: the connection is released exactly once, after
    every other event, however the run ends. *)
Theorem process_releases_connection :
  forall (L : PyLib) (engine : Engine) (args : InsertJsonRpcToDb)
         (timeout : Z),
    fst (process_jsonrpc_to_db engine args timeout) = []
    \/ exists c calls,
         fst (process_jsonrpc_to_db engine args timeout)
         = Construct c :: Connect :: calls ++ [Disconnect]
         /\ Forall engine_call calls.
Proof. intros L engine args timeout. apply process_trace_shape. Qed.

(** X28. A payload that the validator refuses with an [McpError] is
    answered with that error and no event.  A payload on which the
    validator raises another exception (an exception of [json.loads] that
    is no [JSONDecodeError]), or on which extraction raises, is answered
    with an [McpError] of code [INTERNAL_ERROR] that wraps the message,
    and no event. *)
Theorem process_fails_before_connecting :
  forall (L : PyLib) (engine : Engine) (args : InsertJsonRpcToDb)
         (timeout : Z),
    (forall code message,
        validate_jsonrpc_batch (arg_jsonrpc_response args)
        = Raise (McpError code message) ->
        process_jsonrpc_to_db engine args timeout
        = ([], Raise (McpError code message)))
    /\ (forall class message,
           validate_jsonrpc_batch (arg_jsonrpc_response args)
           = Raise (PyError class message) ->
           process_jsonrpc_to_db engine args timeout
           = ([], Raise (McpError INTERNAL_ERROR
                           ("Unexpected error in JSON-RPC to DB processing: "
                            +++ message))))
    /\ (forall responses e,
           validate_jsonrpc_batch (arg_jsonrpc_response args) = Ok responses ->
           extract_all responses [] = Raise e ->
           process_jsonrpc_to_db engine args timeout
           = ([], Raise (McpError INTERNAL_ERROR
                           ("Unexpected error in JSON-RPC to DB processing: "
                            +++ exn_str e)))).
Proof.
  intros L engine args timeout. split; [|split].
  - intros code message Hv.
    unfold process_jsonrpc_to_db, try_block. rewrite Hv. reflexivity.
  - intros class message Hv.
    unfold process_jsonrpc_to_db, try_block. rewrite Hv. reflexivity.
  - intros responses e Hv He.
    destruct (extract_all_error _ _ _ He) as [m ->].
    unfold process_jsonrpc_to_db, try_block. rewrite Hv, He. reflexivity.
Qed.

Lemma process_fails_before_connecting_witness :
  (validate_jsonrpc_batch (L := Payloads.lib) Payloads.bad_batch_text
   = Raise (McpError INVALID_PARAMS
              "Invalid item at index 1 in batch: Unsupported JSON-RPC version: 1.0. Only 2.0 is supported.")
   /\ process_jsonrpc_to_db (L := Payloads.lib) Sample.engine
        (Sample.request Payloads.bad_batch_text "sqlite:///data.db") 30
      = ([], Raise (McpError INVALID_PARAMS
                      "Invalid item at index 1 in batch: Unsupported JSON-RPC version: 1.0. Only 2.0 is supported.")))
  /\ (validate_jsonrpc_batch (L := Payloads.lib) Payloads.long_integer_text
      = Raise (PyError "ValueError"
                 "Exceeds the limit (4300 digits) for integer string conversion: value has 5000 digits; use sys.set_int_max_str_digits() to increase the limit")
      /\ process_jsonrpc_to_db (L := Payloads.lib) Sample.engine
           (Sample.request Payloads.long_integer_text "sqlite:///data.db") 30
         = ([], Raise (McpError INTERNAL_ERROR
                         ("Unexpected error in JSON-RPC to DB processing: "
                          +++ "Exceeds the limit (4300 digits) for integer string conversion: value has 5000 digits; use sys.set_int_max_str_digits() to increase the limit"))))
  /\ (validate_jsonrpc_batch (L := Payloads.lib) Payloads.text_error_text
      = Ok [Payloads.text_error_response]
      /\ extract_all [Payloads.text_error_response] []
         = Raise (PyError "AttributeError" "'str' object has no attribute 'get'")
      /\ process_jsonrpc_to_db (L := Payloads.lib) Sample.engine
           (Sample.request Payloads.text_error_text "sqlite:///data.db") 30
         = ([], Raise (McpError INTERNAL_ERROR
                         ("Unexpected error in JSON-RPC to DB processing: "
                          +++ exn_str
                                (PyError "AttributeError"
                                   "'str' object has no attribute 'get'"))))).
Proof.
  assert (J : validate_jsonrpc_batch (L := Payloads.lib)
                Payloads.long_integer_text
              = Raise (PyError "ValueError"
                         "Exceeds the limit (4300 digits) for integer string conversion: value has 5000 digits; use sys.set_int_max_str_digits() to increase the limit"))
    by (vm_compute; reflexivity).
  split; [|split].
  - split; [reflexivity|].
    apply (proj1 (process_fails_before_connecting Payloads.lib Sample.engine
                    (Sample.request Payloads.bad_batch_text "sqlite:///data.db")
                    30%Z)).
    reflexivity.
  - split; [exact J|].
    apply (proj1 (proj2 (process_fails_before_connecting Payloads.lib
                           Sample.engine
                           (Sample.request Payloads.long_integer_text
                              "sqlite:///data.db")
                           30%Z)) "ValueError" _).
    exact J.
  - split; [reflexivity|]. split; [reflexivity|].
    apply (proj2 (proj2 (process_fails_before_connecting Payloads.lib
                           Sample.engine
                           (Sample.request Payloads.text_error_text
                              "sqlite:///data.db")
                           30%Z)) [Payloads.text_error_response]); reflexivity.
Defined.

(** X29. When the table is missing and the request does not let it be
    created, the run ends with an [McpError] of code [INVALID_PARAMS]
    that names the table; the engine was asked whether the table exists
    and nothing else, and the connection is released. *)
Theorem process_refuses_missing_table :
  forall (L : PyLib) (engine : Engine) (args : InsertJsonRpcToDb)
         (timeout : Z) (responses : list JsonRpcResponse)
         (first : dict) (rest : list dict) (trace : list event)
         (conn : DatabaseConnection),
    validate_jsonrpc_batch (arg_jsonrpc_response args) = Ok responses ->
    extract_all responses [] = Ok (first :: rest) ->
    create_connection (arg_connection_string args) timeout = (trace, Ok conn) ->
    engine_connect engine conn = None ->
    engine_table_exists engine conn (table_name_of args) = Ok false ->
    arg_create_if_missing args = false ->
    process_jsonrpc_to_db engine args timeout
    = (trace ++ [Connect; TableExists (table_name_of args); Disconnect],
       Raise (McpError INVALID_PARAMS
                ("Table/collection '" +++ table_name_of args
                 +++ "' does not exist and create_if_missing is False"))).
Proof.
  intros L engine args timeout responses first rest trace conn
    Hv He Hc Hconn Htable Hflag.
  unfold process_jsonrpc_to_db.
  rewrite (try_block_connected engine args timeout responses first rest
             trace conn Hv He Hc Hconn).
  unfold store. rewrite Htable, Hflag. simpl.
  rewrite <- app_assoc. reflexivity.
Qed.

Lemma process_refuses_missing_table_witness :
  validate_jsonrpc_batch (L := Payloads.lib) Payloads.mapping_text
  = Ok [Payloads.mapping_response]
  /\ extract_all [Payloads.mapping_response] []
     = Ok ([("name", VStr "Ann"); ("is_success", VBool true);
            ("jsonrpc_id", VInt 1); ("jsonrpc_version", VStr "2.0")] :: [])
  /\ create_connection (L := Payloads.lib) "postgresql://db/app" 30
     = ([Construct PostgreSQLConnection],
        Ok (Payloads.postgres_connection "postgresql://db/app"))
  /\ engine_connect Sample.engine
       (Payloads.postgres_connection "postgresql://db/app") = None
  /\ engine_table_exists Sample.engine
       (Payloads.postgres_connection "postgresql://db/app")
       (table_name_of
          (Payloads.strict_request Payloads.mapping_text "postgresql://db/app"))
     = Ok false
  /\ arg_create_if_missing
       (Payloads.strict_request Payloads.mapping_text "postgresql://db/app")
     = false
  /\ process_jsonrpc_to_db (L := Payloads.lib) Sample.engine
       (Payloads.strict_request Payloads.mapping_text "postgresql://db/app") 30
     = ([Construct PostgreSQLConnection]
          ++ [Connect; TableExists "events"; Disconnect],
        Raise (McpError INVALID_PARAMS
                 ("Table/collection '" +++ "events"
                  +++ "' does not exist and create_if_missing is False"))).
Proof.
  repeat (split; [reflexivity|]).
  apply (process_refuses_missing_table Payloads.lib Sample.engine
           (Payloads.strict_request Payloads.mapping_text "postgresql://db/app")
           30%Z [Payloads.mapping_response] _ [] _ _
           eq_refl eq_refl eq_refl eq_refl eq_refl eq_refl).
Defined.

(** X30. A run in which every call succeeds.  The engine is asked
    whether the table exists; a missing table is created, with the schema
    inferred from the transformed records of this payload, an existing
    one is not touched; then the transformed records are inserted with
    the batch size of the request and the connection is released.  The
    report counts the envelopes of the payload and the records the engine
    says it inserted, and has no warning. *)
Theorem process_stores_records :
  forall (L : PyLib) (engine : Engine) (args : InsertJsonRpcToDb)
         (timeout : Z) (responses : list JsonRpcResponse)
         (first : dict) (rest : list dict) (trace : list event)
         (conn : DatabaseConnection) (table_exists : bool) (inserted : Z),
    validate_jsonrpc_batch (arg_jsonrpc_response args) = Ok responses ->
    extract_all responses [] = Ok (first :: rest) ->
    create_connection (arg_connection_string args) timeout = (trace, Ok conn) ->
    engine_connect engine conn = None ->
    engine_table_exists engine conn (table_name_of args) = Ok table_exists ->
    (table_exists = false ->
     arg_create_if_missing args = true
     /\ engine_create engine conn (table_name_of args)
          (infer_schema (database_type conn)
             (transformed_for engine args conn (first :: rest)))
        = None) ->
    engine_insert engine conn (table_name_of args)
      (transformed_for engine args conn (first :: rest)) (arg_batch_size args)
    = Ok inserted ->
    process_jsonrpc_to_db engine args timeout
    = (trace
         ++ [Connect; TableExists (table_name_of args)]
         ++ (if table_exists then []
             else [CreateTable (table_name_of args)
                     (infer_schema (database_type conn)
                        (transformed_for engine args conn (first :: rest)))])
         ++ [InsertRecords (table_name_of args)
               (transformed_for engine args conn (first :: rest))
               (arg_batch_size args);
             Disconnect],
       Ok {| processed_responses := Z.of_nat (List.length responses);
             inserted_records := inserted;
             report_table_name := table_name_of args;
             report_database_type := arg_database_type args;
             errors := [];
             processing_time_ms := engine_elapsed_ms engine |}).
Proof.
  intros L engine args timeout responses first rest trace conn
    table_exists inserted Hv He Hc Hconn Htable Hcreate Hinsert.
  unfold process_jsonrpc_to_db.
  rewrite (try_block_connected engine args timeout responses first rest
             trace conn Hv He Hc Hconn).
  unfold store. rewrite Htable.
  destruct table_exists; simpl.
  - rewrite Hinsert. simpl. rewrite <- !app_assoc. reflexivity.
  - destruct (Hcreate eq_refl) as [Hflag Hmade].
    rewrite Hflag, Hmade, Hinsert. simpl. rewrite <- !app_assoc. reflexivity.
Qed.

Lemma process_stores_records_witness :
  validate_jsonrpc_batch (L := Payloads.lib) Payloads.mapping_text
  = Ok [Payloads.mapping_response]
  /\ extract_all [Payloads.mapping_response] []
     = Ok ([("name", VStr "Ann"); ("is_success", VBool true);
            ("jsonrpc_id", VInt 1); ("jsonrpc_version", VStr "2.0")] :: [])
  /\ create_connection (L := Payloads.lib) "postgresql://db/app" 30
     = ([Construct PostgreSQLConnection],
        Ok (Payloads.postgres_connection "postgresql://db/app"))
  /\ engine_connect Payloads.engine_with_tables
       (Payloads.postgres_connection "postgresql://db/app") = None
  /\ engine_table_exists Payloads.engine_with_tables
       (Payloads.postgres_connection "postgresql://db/app") "events"
     = Ok true
  /\ fst (process_jsonrpc_to_db (L := Payloads.lib) Payloads.engine_with_tables
            (Payloads.strict_request Payloads.mapping_text "postgresql://db/app")
            30)
     = [Construct PostgreSQLConnection; Connect; TableExists "events";
        InsertRecords "events"
          [[("name", VStr "Ann"); ("is_success", VBool true);
            ("jsonrpc_id", VInt 1); ("jsonrpc_version", VStr "2.0");
            ("event_id", VStr "00000000-0000-4000-8000-000000000000")]]
          50;
        Disconnect]
  /\ exists report,
       snd (process_jsonrpc_to_db (L := Payloads.lib)
              Payloads.engine_with_tables
              (Payloads.strict_request Payloads.mapping_text
                 "postgresql://db/app") 30)
       = Ok report
       /\ processed_responses report = 1%Z /\ inserted_records report = 1%Z.
Proof.
  repeat (split; [reflexivity|]).
  pose proof
    (process_stores_records Payloads.lib Payloads.engine_with_tables
       (Payloads.strict_request Payloads.mapping_text "postgresql://db/app")
       30%Z [Payloads.mapping_response]
       [("name", VStr "Ann"); ("is_success", VBool true);
        ("jsonrpc_id", VInt 1); ("jsonrpc_version", VStr "2.0")]
       [] [Construct PostgreSQLConnection]
       (Payloads.postgres_connection "postgresql://db/app") true 1%Z
       eq_refl eq_refl eq_refl eq_refl eq_refl) as H.
  assert (Hc : true = false ->
               arg_create_if_missing
                 (Payloads.strict_request Payloads.mapping_text
                    "postgresql://db/app") = true
               /\ engine_create Payloads.engine_with_tables
                    (Payloads.postgres_connection "postgresql://db/app")
                    (table_name_of
                       (Payloads.strict_request Payloads.mapping_text
                          "postgresql://db/app"))
                    (infer_schema (L := Payloads.lib)
                       (database_type
                          (Payloads.postgres_connection "postgresql://db/app"))
                       (transformed_for (L := Payloads.lib)
                          Payloads.engine_with_tables
                          (Payloads.strict_request Payloads.mapping_text
                             "postgresql://db/app")
                          (Payloads.postgres_connection "postgresql://db/app")
                          [[("name", VStr "Ann"); ("is_success", VBool true);
                            ("jsonrpc_id", VInt 1);
                            ("jsonrpc_version", VStr "2.0")]]))
                  = None) by discriminate.
  specialize (H Hc eq_refl).
  rewrite H. eexists. split; [reflexivity|]. split; reflexivity.
Defined.
